(** * Product-catalog backend (backend/server.py): model and verification

    A shallow embedding of the FastAPI service: the record normalizer
    ([prepare_for_mongo], [parse_from_mongo]), the token service
    ([create_access_token], [verify_token]), the password hasher, the admin
    bootstrap and the product routes.

    Python objects that the code mutates in place (dictionaries handed to the
    normalizer and to the driver) live in an explicit heap and are passed by
    reference; the document store, the clock and the random sources are part of
    an explicit world that every handler threads through a state-and-exception
    monad.  Library code the service calls (datetime, PyJWT, passlib, the Mongo
    driver) is modelled from its documented behaviour, next to the service code
    that calls it. *)

From Stdlib Require Import ZArith String Ascii List Bool Lia Floats.
From stdpp Require Import base tactics option list gmap strings.

Local Open Scope string_scope.
Local Open Scope Z_scope.
#[local] Set Warnings "-register-all".

(** ** datetime

    A [datetime] carries its civil fields and an optional fixed UTC offset in
    microseconds ([None] is a naive datetime, [Some 0] is [timezone.utc]).
    Every Python datetime object satisfies [check_fields]: the constructor
    raises ValueError otherwise. *)

Record datetime := mk_datetime {
  year : Z; month : Z; day : Z;
  hour : Z; minute : Z; second : Z; microsecond : Z;
  tzinfo : option Z
}.

Definition MAXORDINAL : Z := 3652059.
Definition EPOCH_ORD : Z := 719163.

Definition DAYS_IN_MONTH : list Z :=
  [0; 31; 28; 31; 30; 31; 30; 31; 31; 30; 31; 30; 31].

Definition DAYS_BEFORE_MONTH : list Z :=
  [0; 0; 31; 59; 90; 120; 151; 181; 212; 243; 273; 304; 334].

Definition is_leap (y : Z) : bool :=
  (y mod 4 =? 0) && (negb (y mod 100 =? 0) || (y mod 400 =? 0)).

Definition days_in_month (y m : Z) : Z :=
  if (m =? 2) && is_leap y then 29 else nth (Z.to_nat m) DAYS_IN_MONTH 0.

Definition days_before_year (y : Z) : Z :=
  let y := y - 1 in y * 365 + y / 4 - y / 100 + y / 400.

Definition days_before_month (y m : Z) : Z :=
  nth (Z.to_nat m) DAYS_BEFORE_MONTH 0 + (if (2 <? m) && is_leap y then 1 else 0).

(** [_ymd2ord]: the proleptic Gregorian ordinal, 0001-01-01 being day 1. *)
Definition ymd2ord (y m d : Z) : Z :=
  days_before_year y + days_before_month y m + d.

(** [_ord2ymd], with the 400-, 100-, 4- and 1-year cycles of the library. *)
Definition ord2ymd (n : Z) : Z * Z * Z :=
  let n := n - 1 in
  let n400 := n / 146097 in let n := n mod 146097 in
  let y := n400 * 400 + 1 in
  let n100 := n / 36524 in let n := n mod 36524 in
  let n4 := n / 1461 in let n := n mod 1461 in
  let n1 := n / 365 in let n := n mod 365 in
  let y := y + n100 * 100 + n4 * 4 + n1 in
  if (n1 =? 4) || (n100 =? 4) then (y - 1, 12, 31)
  else
    let leapyear := (n1 =? 3) && (negb (n4 =? 24) || (n100 =? 3)) in
    let m := Z.shiftr (n + 50) 5 in
    let preceding :=
      nth (Z.to_nat m) DAYS_BEFORE_MONTH 0 + (if (2 <? m) && leapyear then 1 else 0) in
    if n <? preceding then
      let m := m - 1 in
      let preceding :=
        preceding - (nth (Z.to_nat m) DAYS_IN_MONTH 0 +
                     (if (m =? 2) && leapyear then 1 else 0)) in
      (y, m, n - preceding + 1)
    else (y, m, n - preceding + 1).

Definition in_range (lo x hi : Z) : bool := (lo <=? x) && (x <=? hi).

(** [timezone(offset)] accepts offsets strictly between -24h and +24h. *)
Definition check_tzinfo (tz : option Z) : bool :=
  match tz with
  | None => true
  | Some off => (-86400000000 <? off) && (off <? 86400000000)
  end.

(** The constructor's field checks ([_check_date_fields], [_check_time_fields]). *)
Definition check_fields (d : datetime) : bool :=
  in_range 1 (year d) 9999 && in_range 1 (month d) 12 &&
  in_range 1 (day d) (days_in_month (year d) (month d)) &&
  in_range 0 (hour d) 23 && in_range 0 (minute d) 59 &&
  in_range 0 (second d) 59 && in_range 0 (microsecond d) 999999 &&
  check_tzinfo (tzinfo d).

(** A [timedelta] is its total number of microseconds. *)
Definition timedelta_minutes (m : Z) : Z := m * 60000000.

(** [datetime.__add__]: through the ordinal and the time of day, as the library
    does; [None] is OverflowError (the result leaves years 1..9999). *)
Definition datetime_add (d : datetime) (td : Z) : option datetime :=
  let total :=
    ymd2ord (year d) (month d) (day d) * 86400000000 +
    hour d * 3600000000 + minute d * 60000000 + second d * 1000000 +
    microsecond d + td in
  let days := total / 86400000000 in
  let rest := total mod 86400000000 in
  let seconds := rest / 1000000 in
  let hh := seconds / 3600 in
  let rem := seconds mod 3600 in
  if (0 <? days) && (days <=? MAXORDINAL) then
    let '(y, m, dd) := ord2ymd days in
    Some (mk_datetime y m dd hh (rem / 60) (rem mod 60) (rest mod 1000000) (tzinfo d))
  else None.

(** Microseconds since the epoch of an aware datetime ([datetime.timestamp],
    kept exact instead of rounded to a float). *)
Definition timestamp_us (d : datetime) : Z :=
  ((ymd2ord (year d) (month d) (day d) - EPOCH_ORD) * 86400 +
   hour d * 3600 + minute d * 60 + second d) * 1000000 + microsecond d
  - default 0 (tzinfo d).

(** [calendar.timegm(d.utctimetuple())]: whole seconds since the epoch. *)
Definition timegm (d : datetime) : Z := timestamp_us d / 1000000.

(** The order of [datetime.__lt__] on datetimes with the same offset. *)
Definition datetime_lt (a b : datetime) : Prop := timestamp_us a < timestamp_us b.

(** The offsets that survive [isoformat] followed by [fromisoformat]: none
    (a naive datetime), UTC, and every offset of one second or more.  An
    offset under one second that is not zero is printed by [isoformat] but
    read back as [timezone.utc] (see [parse_isoformat_time]). *)
Definition offset_kept (tz : option Z) : bool :=
  match tz with
  | None => true
  | Some off => (off =? 0) || (1000000 <=? Z.abs off)
  end.

(** ** Strings: the few [str] operations the ISO codec uses *)

Definition digit (k : Z) : ascii := ascii_of_nat (48 + Z.to_nat k).

(** ["%0wd" % n] for [0 <= n < 10^w]. *)
Fixpoint pad (w : nat) (n : Z) : string :=
  match w with
  | O => ""
  | S w' => String (digit (n / 10 ^ Z.of_nat w' mod 10)) (pad w' n)
  end.

Definition digit_val (c : ascii) : option Z :=
  let n := Z.of_nat (nat_of_ascii c) in
  if (48 <=? n) && (n <=? 57) then Some (n - 48) else None.

Fixpoint int_acc (acc : Z) (s : string) : option Z :=
  match s with
  | "" => Some acc
  | String c s' =>
      match digit_val c with
      | Some v => int_acc (acc * 10 + v) s'
      | None => None
      end
  end.

(** [int(s)] on a string of ASCII digits; [None] is ValueError. *)
Definition py_int (s : string) : option Z :=
  match s with "" => None | _ => int_acc 0 s end.

Fixpoint str_drop (n : nat) (s : string) : string :=
  match n, s with
  | S n', String _ s' => str_drop n' s'
  | _, _ => s
  end.

Fixpoint str_take (n : nat) (s : string) : string :=
  match n, s with
  | S n', String c s' => String c (str_take n' s')
  | _, _ => ""
  end.

(** [s[a:b]]. *)
Definition slice (a b : nat) (s : string) : string := str_take (b - a) (str_drop a s).

Fixpoint find_from (i : nat) (c : ascii) (s : string) : option nat :=
  match s with
  | "" => None
  | String a s' => if Ascii.eqb a c then Some i else find_from (S i) c s'
  end.

(** [s.find(c)], with [None] for -1. *)
Definition str_find (c : ascii) (s : string) : option nat := find_from 0 c s.

(** [s[i] == c]; an index out of range fails the comparison. *)
Definition char_at (i : nat) (c : ascii) (s : string) : bool :=
  match String.get i s with
  | Some a => Ascii.eqb a c
  | None => false
  end.

Fixpoint starts_with (p s : string) : bool :=
  match p, s with
  | "", _ => true
  | String a p', String b s' => Ascii.eqb a b && starts_with p' s'
  | _, _ => false
  end.

(** ** isoformat and fromisoformat *)

(** [_format_time] with [timespec='auto']. *)
Definition format_time (hh mm ss us : Z) : string :=
  pad 2 hh +:+ ":" +:+ pad 2 mm +:+ ":" +:+ pad 2 ss +:+
  (if us =? 0 then "" else "." +:+ pad 6 us).

(** The magnitude of an offset: HH:MM, then :SS and .ffffff when they are not
    zero. *)
Definition offset_body (a : Z) : string :=
  let r := a mod 3600000000 in
  let ss := r mod 60000000 in
  pad 2 (a / 3600000000) +:+ ":" +:+ pad 2 (r / 60000000) +:+
  (if ss =? 0 then ""
   else ":" +:+ pad 2 (ss / 1000000) +:+
        (if ss mod 1000000 =? 0 then "" else "." +:+ pad 6 (ss mod 1000000))).

(** [_format_offset]. *)
Definition format_offset (tz : option Z) : string :=
  match tz with
  | None => ""
  | Some off => (if off <? 0 then "-" else "+") +:+ offset_body (Z.abs off)
  end.

Definition isoformat (d : datetime) : string :=
  pad 4 (year d) +:+ "-" +:+ pad 2 (month d) +:+ "-" +:+ pad 2 (day d) +:+ "T" +:+
  format_time (hour d) (minute d) (second d) (microsecond d) +:+
  format_offset (tzinfo d).

(** The parser accepts the language [isoformat] emits
    (YYYY-MM-DD[*HH[:MM[:SS[.fff[fff]]]][+HH:MM[:SS[.ffffff]]]]); every failure is
    a ValueError, modelled by [None].  The date is exactly ten characters, a
    separator is followed by a time, and an offset whose whole seconds are
    zero is [timezone.utc], as the interpreter's implementation has it.
    (Later interpreters also read ISO 8601 forms that [isoformat] never
    emits, such as a trailing Z or a date without hyphens; they are outside
    this grammar.) *)

Definition parse_isoformat_date (dtstr : string) : option (Z * Z * Z) :=
  if negb (String.length dtstr =? 10)%nat then None else
  y ← py_int (slice 0 4 dtstr);
  if negb (char_at 4 "-" dtstr) then None else
  m ← py_int (slice 5 7 dtstr);
  if negb (char_at 7 "-" dtstr) then None else
  d ← py_int (slice 8 10 dtstr);
  Some (y, m, d).

Definition two_digits (s : string) : option (Z * string) :=
  if (String.length s <? 2)%nat then None
  else v ← py_int (str_take 2 s); Some (v, str_drop 2 s).

Definition parse_fraction (s : string) : option Z :=
  match s with
  | "" => Some 0
  | String c f =>
      if negb (Ascii.eqb c ".") then None
      else
        let n := String.length f in
        if negb ((n =? 3)%nat || (n =? 6)%nat) then None
        else v ← py_int f; Some (if (n =? 3)%nat then v * 1000 else v)
  end.

Definition parse_hh_mm_ss_ff (tstr : string) : option (Z * Z * Z * Z) :=
  '(h, r0) ← two_digits tstr;
  match r0 with
  | "" => Some (h, 0, 0, 0)
  | String c0 r0' =>
      if negb (Ascii.eqb c0 ":") then None else
      '(m, r1) ← two_digits r0';
      match r1 with
      | "" => Some (h, m, 0, 0)
      | String c1 r1' =>
          if negb (Ascii.eqb c1 ":") then None else
          '(s, r2) ← two_digits r1';
          us ← parse_fraction r2;
          Some (h, m, s, us)
      end
  end.

Definition parse_isoformat_time (tstr : string)
  : option (Z * Z * Z * Z * option Z) :=
  if (String.length tstr <? 2)%nat then None else
  let tz_pos :=
    match str_find "-" tstr with
    | Some i => S i
    | None => match str_find "+" tstr with Some i => S i | None => O end
    end in
  let timestr := if (0 <? tz_pos)%nat then str_take (tz_pos - 1) tstr else tstr in
  comps ← parse_hh_mm_ss_ff timestr;
  if (0 <? tz_pos)%nat then
    let tzstr := str_drop tz_pos tstr in
    let n := String.length tzstr in
    if negb ((n =? 5)%nat || (n =? 8)%nat || (n =? 15)%nat) then None else
    '(th, tm, ts, tus) ← parse_hh_mm_ss_ff tzstr;
    if (th =? 0) && (tm =? 0) && (ts =? 0) then Some (comps, Some 0)
    else
      let tzsign := if char_at (tz_pos - 1) "-" tstr then -1 else 1 in
      let td := th * 3600000000 + tm * 60000000 + ts * 1000000 + tus in
      Some (comps, Some (tzsign * td))
  else Some (comps, None).

Definition fromisoformat (date_string : string) : option datetime :=
  let dstr := slice 0 10 date_string in
  let tstr := str_drop 11 date_string in
  '(y, m, d) ← parse_isoformat_date dstr;
  '(h, mi, s, us, tz) ←
     (match tstr with
      | "" =>
          if (String.length date_string =? 10)%nat then Some (0, 0, 0, 0, None)
          else None
      | _ => parse_isoformat_time tstr
      end);
  let r := mk_datetime y m d h mi s us tz in
  if check_fields r then Some r else None.

(** ** Python values, dictionaries and exceptions *)

Inductive value :=
| VNone
| VInt (n : Z)
| VFloat (x : float)
| VStr (s : string)
| VDatetime (d : datetime)
| VObjectId (n : nat)
| VList (l : list value)
| VDict (items : list (string * value)).

Abbreviation dict := (gmap string value).

(** [d.get(k)]: None when the key is absent. *)
Definition dict_get (d : dict) (k : string) : value := default VNone (d !! k).

Definition is_None (v : value) : bool :=
  match v with VNone => true | _ => false end.

(** What [json.dumps] accepts without a custom encoder. *)
Fixpoint json_serializable (v : value) : bool :=
  match v with
  | VDatetime _ | VObjectId _ => false
  | VList l => forallb json_serializable l
  | VDict items =>
      (fix go (kvs : list (string * value)) : bool :=
         match kvs with
         | [] => true
         | (_, x) :: kvs' => json_serializable x && go kvs'
         end) items
  | _ => true
  end.

Definition of_option {A} (f : A -> value) (o : option A) : value :=
  match o with Some a => f a | None => VNone end.

Inductive jwt_error :=
| ExpiredSignatureError
| InvalidSignatureError
| InvalidAlgorithmError
| DecodeError
| InvalidKeyError.

(** Every PyJWT error above except InvalidKeyError derives from
    InvalidTokenError. *)
Definition is_InvalidTokenError (e : jwt_error) : bool :=
  match e with InvalidKeyError => false | _ => true end.

Inductive exn :=
| HTTPException (status_code : Z) (detail : string)
| ValueError (msg : string)
| TypeError (msg : string)
| KeyError (key : string)
| AttributeError (msg : string)
| OverflowError (msg : string)
| ValidationError (msg : string)
| PyJWTError (e : jwt_error).

Definition HTTP_401_UNAUTHORIZED : Z := 401.

(** What the framework sends for an exception that leaves a handler: the
    status and detail of an HTTPException, 500 for anything else. *)
Record response := mk_response { status : Z; body : string }.

Definition response_of_exn (e : exn) : response :=
  match e with
  | HTTPException code detail => mk_response code detail
  | _ => mk_response 500 "Internal Server Error"
  end.

(** ** The world: Python heap, document store, clock and random sources *)

Abbreviation ref := nat (only parsing).

Record world := mk_world {
  heap : list dict;        (* dict objects, by address *)
  products : list dict;    (* db.products, in the store's native order *)
  admins : list dict;      (* db.admins *)
  oids : nat;              (* ObjectIds handed out so far *)
  ticks : nat;             (* clock reads so far *)
  draws : nat              (* uuid4 and salt draws so far *)
}.

(** What the process is started with and the primitives it links against.
    [SECRET_KEY] is the value of JWT_SECRET_KEY: the module refuses to load
    without it.  [clock k] is what the k-th read of the system clock returns;
    [uuid4_source] and [gensalt] stand for the random sources; the MAC and the
    bcrypt digest are left uninterpreted. *)
Class Platform := {
  environ : gmap string string;
  SECRET_KEY : string;
  clock : nat -> datetime;
  uuid4_source : nat -> string;
  gensalt : nat -> string;
  bcrypt_digest : string -> string -> string -> string;
  hmac_sha256 : string -> string -> dict -> string
}.

Inductive result (A : Type) :=
| Ok (a : A) (w : world)
| Raise (e : exn) (w : world).
Arguments Ok {A} a w.
Arguments Raise {A} e w.

Definition M (A : Type) : Type := world -> result A.

#[global] Instance M_ret : MRet M := fun A a w => Ok a w.

#[global] Instance M_bind : MBind M := fun A B k m w =>
  match m w with
  | Ok a w' => k a w'
  | Raise e w' => Raise e w'
  end.

Definition raise {A} (e : exn) : M A := fun w => Raise e w.

(** [try m except ...]: [handler e] is the clause that catches [e], if any. *)
Definition try_except {A} (m : M A) (handler : exn -> option (M A)) : M A := fun w =>
  match m w with
  | Ok a w' => Ok a w'
  | Raise e w' =>
      match handler e with
      | Some h => h w'
      | None => Raise e w'
      end
  end.

(** [for x in l: body]. *)
Fixpoint for_each {A} (l : list A) (body : A -> M unit) : M unit :=
  match l with
  | [] => mret tt
  | x :: l' => _ ← body x; for_each l' body
  end.

Definition set_heap (h : list dict) (w : world) : world :=
  mk_world h (products w) (admins w) (oids w) (ticks w) (draws w).

(** A new dict object. *)
Definition new_dict (d : dict) : M ref := fun w =>
  Ok (length (heap w)) (set_heap (heap w ++ [d]) w).

Definition load (r : ref) : M dict := fun w => Ok (default ∅ (heap w !! r)) w.

(** [r.get(k)]. *)
Definition get (r : ref) (k : string) : M value :=
  d ← load r; mret (dict_get d k).

(** [r[k]]. *)
Definition getitem (r : ref) (k : string) : M value :=
  d ← load r;
  match d !! k with
  | Some v => mret v
  | None => raise (KeyError k)
  end.

(** [r[k] = v]. *)
Definition setitem (r : ref) (k : string) (v : value) : M unit := fun w =>
  Ok tt (set_heap (alter (insert k v) r (heap w)) w).

Definition fresh_draw : M nat := fun w =>
  Ok (draws w) (mk_world (heap w) (products w) (admins w) (oids w) (ticks w) (S (draws w))).

Definition fresh_oid : M nat := fun w =>
  Ok (oids w) (mk_world (heap w) (products w) (admins w) (S (oids w)) (ticks w) (draws w)).

Definition with_tz (d : datetime) (tz : option Z) : datetime :=
  mk_datetime (year d) (month d) (day d) (hour d) (minute d) (second d)
              (microsecond d) tz.

(** ** Models *)

Module Admin.
Record t := mk { id : string; username : string; password_hash : string }.
Definition model_dump (a : t) : dict :=
  {[ "id" := VStr (id a); "username" := VStr (username a);
     "password_hash" := VStr (password_hash a) ]}.
End Admin.

Module AdminLogin.
Record t := mk { username : string; password : string }.
End AdminLogin.

Module ProductVariant.
Record t := mk { size : option string; color : option string; inventory : Z }.
Definition model_dump (v : t) : value :=
  VDict [("size", of_option VStr (size v)); ("color", of_option VStr (color v));
         ("inventory", VInt (inventory v))].
End ProductVariant.

Definition dump_images (l : list string) : value := VList (map VStr l).

Definition dump_variants (l : list ProductVariant.t) : value :=
  VList (map ProductVariant.model_dump l).

Module Product.
Record t := mk {
  id : string;
  name : string;
  price : float;
  description : string;
  images : list string;
  variants : list ProductVariant.t;
  created_at : datetime;
  updated_at : datetime
}.
Definition model_dump (p : t) : dict :=
  {[ "id" := VStr (id p); "name" := VStr (name p); "price" := VFloat (price p);
     "description" := VStr (description p); "images" := dump_images (images p);
     "variants" := dump_variants (variants p);
     "created_at" := VDatetime (created_at p);
     "updated_at" := VDatetime (updated_at p) ]}.
End Product.

Module ProductCreate.
Record t := mk {
  name : string;
  price : float;
  description : string;
  images : list string;
  variants : list ProductVariant.t
}.
End ProductCreate.

Module ProductUpdate.
Record t := mk {
  name : option string;
  price : option float;
  description : option string;
  images : option (list string);
  variants : option (list ProductVariant.t)
}.
Definition model_dump (u : t) : dict :=
  {[ "name" := of_option VStr (name u); "price" := of_option VFloat (price u);
     "description" := of_option VStr (description u);
     "images" := of_option dump_images (images u);
     "variants" := of_option dump_variants (variants u) ]}.
End ProductUpdate.

Section Service.
Context `{Platform}.

(** The k-th clock reading as an aware UTC datetime. *)
Definition utc_reading (k : nat) : datetime := with_tz (clock k) (Some 0).

Definition tick (w : world) : world :=
  mk_world (heap w) (products w) (admins w) (oids w) (S (ticks w)) (draws w).

(** [datetime.now(timezone.utc)]: the next clock reading. *)
Definition datetime_now_utc : M datetime := fun w => Ok (utc_reading (ticks w)) (tick w).

(** [str(uuid.uuid4())]. *)
Definition uuid4 : M string := n ← fresh_draw; mret (uuid4_source n).

(** ** The document store (the driver's collection methods) *)

Inductive collection := db_products | db_admins.

Definition docs (c : collection) (w : world) : list dict :=
  match c with db_products => products w | db_admins => admins w end.

Definition set_docs (c : collection) (l : list dict) (w : world) : world :=
  match c with
  | db_products => mk_world (heap w) l (admins w) (oids w) (ticks w) (draws w)
  | db_admins => mk_world (heap w) (products w) l (oids w) (ticks w) (draws w)
  end.

Definition is_str (s : string) (v : value) : bool :=
  match v with VStr s' => String.eqb s' s | _ => false end.

(** The filter [{k: s}]: the field equals [s], or is an array holding [s]. *)
Definition matches (k s : string) (doc : dict) : bool :=
  match doc !! k with
  | Some (VStr s') => String.eqb s' s
  | Some (VList l) => existsb (is_str s) l
  | _ => false
  end.

(** The projection [{"_id": 0}], when asked for. *)
Definition project (no_id : bool) (doc : dict) : dict :=
  if no_id then delete "_id" doc else doc.

Definition read_docs (c : collection) : M (list dict) := fun w => Ok (docs c w) w.

Definition write_docs (c : collection) (l : list dict) : M unit := fun w =>
  Ok tt (set_docs c l w).

(** [find_one({k: s}, projection)]: the first match as a new dict, or None. *)
Definition find_one (c : collection) (k s : string) (no_id : bool)
  : M (option ref) :=
  l ← read_docs c;
  match list_find (fun doc => matches k s doc) l with
  | Some (_, doc) => r ← new_dict (project no_id doc); mret (Some r)
  | None => mret None
  end.

(** [find({}, projection).to_list(limit)]. *)
Definition find_to_list (c : collection) (no_id : bool) (limit : nat)
  : M (list ref) :=
  l ← read_docs c;
  mapM (fun doc => new_dict (project no_id doc)) (take limit l).

(** [insert_one(doc)]: the driver adds an [_id] to the caller's dict when it has
    none, then the document is appended to the collection. *)
Definition insert_one (c : collection) (doc : ref) : M unit :=
  d ← load doc;
  _ ← (match d !! "_id" with
       | Some _ => mret tt
       | None => n ← fresh_oid; setitem doc "_id" (VObjectId n)
       end);
  d ← load doc;
  l ← read_docs c;
  write_docs c (l ++ [d]).

(** [update_one({k: s}, {"$set": fields})]: the fields are written into the
    first match, every other field of it stays. *)
Definition update_one (c : collection) (k s : string) (fields : ref) : M unit :=
  upd ← load fields;
  l ← read_docs c;
  match list_find (fun doc => matches k s doc) l with
  | Some (i, doc) => write_docs c (<[i := upd ∪ doc]> l)
  | None => mret tt
  end.

(** [delete_one({k: s})]: removes the first match; the result is
    [deleted_count]. *)
Definition delete_one (c : collection) (k s : string) : M nat :=
  l ← read_docs c;
  match list_find (fun doc => matches k s doc) l with
  | Some (i, _) => _ ← write_docs c (delete i l); mret 1%nat
  | None => mret 0%nat
  end.

(** ** Record normalizer *)

(** Convert datetime objects to ISO strings for MongoDB storage. *)
Definition prepare_for_mongo (data : ref) : M ref :=
  c ← get data "created_at";
  _ ← (match c with
       | VDatetime t => setitem data "created_at" (VStr (isoformat t))
       | _ => mret tt
       end);
  u ← get data "updated_at";
  _ ← (match u with
       | VDatetime t => setitem data "updated_at" (VStr (isoformat t))
       | _ => mret tt
       end);
  mret data.

(** [item[k] = datetime.fromisoformat(item[k])]. *)
Definition set_fromisoformat (item : ref) (k s : string) : M unit :=
  match fromisoformat s with
  | Some t => setitem item k (VDatetime t)
  | None => raise (ValueError "Invalid isoformat string")
  end.

(** Convert ISO strings back to datetime objects. *)
Definition parse_from_mongo (item : ref) : M ref :=
  c ← get item "created_at";
  _ ← (match c with
       | VStr s => set_fromisoformat item "created_at" s
       | _ => mret tt
       end);
  u ← get item "updated_at";
  _ ← (match u with
       | VStr s => set_fromisoformat item "updated_at" s
       | _ => mret tt
       end);
  mret item.

(** ** Password hasher (the bcrypt scheme of the CryptContext) *)

Definition BCRYPT_IDENTS : list string := ["$2$"; "$2a$"; "$2x$"; "$2y$"; "$2b$"].

(** The handler's [identify]: the hash starts with one of its idents. *)
Definition bcrypt_identify (h : string) : bool :=
  existsb (fun ident => starts_with ident h) BCRYPT_IDENTS.

(** The handler's [from_string]: ident, two-digit rounds, [$], a 22-character
    salt and a 31-character checksum; the result is (config, salt, checksum).
    Only this layout is checked: the library refuses some strings of this
    layout as well (the ident [$2x$], rounds outside 04..31, characters that
    are not of the bcrypt alphabet), none of which the hasher produces. *)
Definition bcrypt_from_string (h : string) : option (string * string * string) :=
  match List.find (fun ident => starts_with ident h) BCRYPT_IDENTS with
  | None => None
  | Some ident =>
      let n := String.length ident in
      let tail := str_drop n h in
      match py_int (str_take 2 tail) with
      | None => None
      | Some _ =>
          if negb (char_at 2 "$" tail) then None else
          let data := str_drop 3 tail in
          let salt := str_take 22 data in
          let chk := str_drop 22 data in
          if (String.length salt =? 22)%nat && (String.length chk =? 31)%nat
          then Some (str_take (n + 3) h, salt, chk)
          else None
      end
  end.

Definition hash_password (password : string) : M string :=
  n ← fresh_draw;
  let salt := gensalt n in
  mret ("$2b$12$" +:+ salt +:+ bcrypt_digest "$2b$12$" salt password).

(** [pwd_context.verify]: a hash no scheme identifies, or one the scheme cannot
    parse, is a ValueError of the library; nothing here catches it.  The
    plaintext is taken to be one the library accepts ([secret_accepted],
    below). *)
Definition verify_password (plain_password hashed_password : string) : M bool :=
  if negb (bcrypt_identify hashed_password)
  then raise (ValueError "hash could not be identified")
  else
    match bcrypt_from_string hashed_password with
    | None => raise (ValueError "malformed bcrypt hash")
    | Some (config, salt, chk) =>
        mret (String.eqb (bcrypt_digest config salt plain_password) chk)
    end.

(** ** Token service *)

Definition ALGORITHM : string := "HS256".
Definition ACCESS_TOKEN_EXPIRE_MINUTES : Z := 1440.

(** A token in compact serialization, read as its header's [alg], its claims
    and its signature; [Garbled] is a string that is not three base64url
    segments holding a JSON header and a JSON object. *)
Record jws := mk_jws { alg : string; payload : dict; signature : string }.

Inductive token :=
| Compact (j : jws)
| Garbled (raw : string).

(** [jwt.encode]: a datetime under [exp] becomes its [timegm]; the claims are
    serialized to JSON (TypeError on a value JSON has no form for) and signed. *)
Definition jwt_encode (claims : dict) (key algorithm : string) : M token :=
  let claims :=
    match claims !! "exp" with
    | Some (VDatetime d) => <["exp" := VInt (timegm d)]> claims
    | _ => claims
    end in
  if negb (bool_decide (map_Forall (fun _ v => json_serializable v) claims))
  then raise (TypeError "Object is not JSON serializable")
  else mret (Compact (mk_jws algorithm claims (hmac_sha256 key algorithm claims))).

(** [jwt.decode]: the algorithm and the signature first, then the expiry
    against the clock. *)
Definition jwt_decode (t : token) (key : string) (algorithms : list string) : M dict :=
  match t with
  | Garbled _ => raise (PyJWTError DecodeError)
  | Compact j =>
      if negb (existsb (String.eqb (alg j)) algorithms)
      then raise (PyJWTError InvalidAlgorithmError)
      else if negb (String.eqb (signature j) (hmac_sha256 key (alg j) (payload j)))
      then raise (PyJWTError InvalidSignatureError)
      else
        now ← datetime_now_utc;
        match payload j !! "exp" with
        | None => mret (payload j)
        | Some (VInt e) =>
            if e * 1000000 <=? timestamp_us now
            then raise (PyJWTError ExpiredSignatureError)
            else mret (payload j)
        | Some _ => raise (PyJWTError DecodeError)
        end
  end.

Definition create_access_token (data : dict) : M token :=
  let to_encode := data in
  now ← datetime_now_utc;
  match datetime_add now (timedelta_minutes ACCESS_TOKEN_EXPIRE_MINUTES) with
  | None => raise (OverflowError "date value out of range")
  | Some expire =>
      let to_encode := <["exp" := VDatetime expire]> to_encode in
      encoded_jwt ← jwt_encode to_encode SECRET_KEY ALGORITHM;
      mret encoded_jwt
  end.

Definition verify_token (credentials : token) : M value :=
  try_except
    (payload ← jwt_decode credentials SECRET_KEY [ALGORITHM];
     let username := dict_get payload "sub" in
     if is_None username
     then raise (HTTPException HTTP_401_UNAUTHORIZED "Invalid token")
     else mret username)
    (fun e =>
       match e with
       | PyJWTError ExpiredSignatureError =>
           Some (raise (HTTPException HTTP_401_UNAUTHORIZED "Token expired"))
       | PyJWTError e' =>
           if is_InvalidTokenError e'
           then Some (raise (HTTPException HTTP_401_UNAUTHORIZED "Invalid token"))
           else None
       | _ => None
       end).

(** ** Startup and routes *)


(** [not r] for the result of [find_one]: None and an empty dict are falsy. *)
Definition not_found (o : option ref) : M bool :=
  match o with
  | None => mret true
  | Some r => d ← load r; mret (size d =? 0)%nat
  end.


Definition get_all_products : M (list ref) :=
  products ← find_to_list db_products true 1000;
  _ ← for_each products (fun product => _ ← parse_from_mongo product; mret tt);
  mret products.

Definition get_product (product_id : string) : M ref :=
  product ← find_one db_products "id" product_id true;
  missing ← not_found product;
  match product with
  | Some r =>
      if (missing : bool) then raise (HTTPException 404 "Product not found")
      else parse_from_mongo r
  | None => raise (HTTPException 404 "Product not found")
  end.

Record AdminLoginResponse := mk_AdminLoginResponse {
  access_token : token;
  token_type : string;
  response_username : string
}.

Definition admin_login (login_data : AdminLogin.t) : M AdminLoginResponse :=
  let bad := HTTPException HTTP_401_UNAUTHORIZED "Incorrect username or password" in
  admin ← find_one db_admins "username" (AdminLogin.username login_data) false;
  missing ← not_found admin;
  match admin with
  | None => raise bad
  | Some r =>
      if (missing : bool) then raise bad
      else
        h ← getitem r "password_hash";
        ok ← (match h with
              | VStr hashed => verify_password (AdminLogin.password login_data) hashed
              | _ => raise (TypeError "hash must be unicode or bytes")
              end);
        if negb (ok : bool) then raise bad
        else
          sub ← getitem r "username";
          access_token ← create_access_token {[ "sub" := sub ]};
          name ← getitem r "username";
          match name with
          | VStr s => mret (mk_AdminLoginResponse access_token "bearer" s)
          | _ => raise (ValidationError "username: Input should be a valid string")
          end
  end.

Definition verify_admin_token (username : value) : M (value * bool) :=
  mret (username, true).

Definition get_admin_products (username : value) : M (list ref) :=
  products ← find_to_list db_products true 1000;
  _ ← for_each products (fun product => _ ← parse_from_mongo product; mret tt);
  mret products.

(** The [Product] built from the dumped request: the default factories run in
    field order, one uuid4 and two reads of the clock. *)
Definition Product_new (product_data : ProductCreate.t) : M Product.t :=
  i ← uuid4;
  c ← datetime_now_utc;
  u ← datetime_now_utc;
  mret (Product.mk i (ProductCreate.name product_data)
          (ProductCreate.price product_data) (ProductCreate.description product_data)
          (ProductCreate.images product_data) (ProductCreate.variants product_data) c u).

Definition create_product (product_data : ProductCreate.t) (username : value)
  : M Product.t :=
  product ← Product_new product_data;
  dumped ← new_dict (Product.model_dump product);
  doc ← prepare_for_mongo dumped;
  _ ← insert_one db_products doc;
  mret product.

Definition update_product (product_id : string) (product_data : ProductUpdate.t)
    (username : value) : M ref :=
  existing_product ← find_one db_products "id" product_id true;
  missing ← not_found existing_product;
  if (missing : bool) then raise (HTTPException 404 "Product not found")
  else
    update_data ← new_dict
      (filter (fun kv : string * value => negb (is_None kv.2))
              (ProductUpdate.model_dump product_data));
    now ← datetime_now_utc;
    _ ← setitem update_data "updated_at" (VDatetime now);
    update_doc ← prepare_for_mongo update_data;
    _ ← update_one db_products "id" product_id update_doc;
    updated_product ← find_one db_products "id" product_id true;
    match updated_product with
    | Some r => parse_from_mongo r
    | None => raise (AttributeError "'NoneType' object has no attribute 'get'")
    end.

Definition delete_product (product_id : string) (username : value) : M string :=
  deleted_count ← delete_one db_products "id" product_id;
  if ((deleted_count : nat) =? 0)%nat then raise (HTTPException 404 "Product not found")
  else mret "Product deleted successfully".

(** [Depends(verify_token)]: the route's function runs on the subject of a
    validated credential. *)
Definition authenticated {A} (credentials : token) (route : value -> M A) : M A :=
  username ← verify_token credentials;
  route username.

(** The object a handler returns is read when the response is rendered. *)
Definition rendered (r : ref) : M dict := load r.

End Service.

(** ** A concrete platform and sample data, for the examples *)

Module Demo.

Definition noon : datetime := mk_datetime 2024 1 5 12 0 0 0 None.

Definition toy_mac (key algorithm : string) (claims : dict) : string :=
  key +:+ "/" +:+ algorithm +:+ "/" +:+
  match claims !! "sub" with Some (VStr s) => s | _ => "" end.

Definition toy_digest (config salt secret : string) : string :=
  str_take 31 (secret +:+ "/" +:+ salt +:+ "0000000000000000000000000000000").

Definition toy_environ : gmap string string :=
  {[ "ADMIN_USERNAME" := "admin"; "ADMIN_PASSWORD" := "s3cret" ]}.

(** A clock that advances one second with every read. *)
Definition ticking : Platform := {|
  environ := toy_environ;
  SECRET_KEY := "secret";
  clock := fun k => mk_datetime 2024 1 5 12 0 (Z.of_nat k) 0 None;
  uuid4_source := fun k => "00000000-0000-4000-8000-" +:+ pad 12 (Z.of_nat k);
  gensalt := fun k => "saltsaltsaltsaltsa" +:+ pad 4 (Z.of_nat k);
  bcrypt_digest := toy_digest;
  hmac_sha256 := toy_mac
|}.

(** A clock that returns the same reading every time (a coarse timer read twice
    within one of its steps). *)
Definition frozen : Platform := {|
  environ := toy_environ;
  SECRET_KEY := "secret";
  clock := fun _ => noon;
  uuid4_source := fun k => "00000000-0000-4000-8000-" +:+ pad 12 (Z.of_nat k);
  gensalt := fun k => "saltsaltsaltsaltsa" +:+ pad 4 (Z.of_nat k);
  bcrypt_digest := toy_digest;
  hmac_sha256 := toy_mac
|}.


Definition empty_world : world := mk_world [] [] [] 0 0 0.

Definition shirt : ProductCreate.t :=
  ProductCreate.mk "Shirt" 19.5 "A shirt" [] [ProductVariant.mk (Some "M") None 5].

Definition stored_shirt : dict :=
  {[ "_id" := VObjectId 0; "id" := VStr "p1"; "name" := VStr "Shirt";
     "price" := VFloat 19.5; "description" := VStr "A shirt";
     "images" := VList [];
     "variants" := VList [VDict [("size", VStr "M"); ("color", VNone);
                                 ("inventory", VInt 5)]];
     "created_at" := VStr "2024-01-05T12:00:00+00:00";
     "updated_at" := VStr "2024-01-05T12:00:00+00:00" ]}.

Definition shirt_record : dict :=
  {[ "id" := VStr "p1"; "name" := VStr "Shirt";
     "created_at" := VDatetime (with_tz noon (Some 0));
     "updated_at" := VDatetime (with_tz noon (Some 0)) ]}.

Definition new_price : ProductUpdate.t :=
  ProductUpdate.mk None (Some 24.75%float) None None None.

(** A store holding the shirt, and a heap holding its record. *)
Definition shop : world := mk_world [shirt_record] [stored_shirt] [] 1 0 0.

(** The shirt after something else wrote a timestamp that is not ISO. *)
Definition corrupted_shirt : dict := <["created_at" := VStr "yesterday"]> stored_shirt.

Definition corrupted_shop : world := mk_world [] [corrupted_shirt] [] 1 0 0.

(** A store of 1001 products. *)
Definition crowded : world :=
  mk_world []
    (map (fun i => <["id" := VStr ("p" +:+ pad 4 (Z.of_nat i))]> stored_shirt)
         (seq 0 1001))
    [] 1001 0 0.

End Demo.

(** ** The normalizer on dictionary contents

    What the two in-place conversions do to the contents of the dictionary they
    are handed: the spec's [toStorage] and [fromStorage].  The lemmas
    [prepare_for_mongo_run] and [parse_from_mongo_run] below relate them to the
    code. *)

Definition to_storage_field (k : string) (d : dict) : dict :=
  match dict_get d k with
  | VDatetime t => <[k := VStr (isoformat t)]> d
  | _ => d
  end.

Definition to_storage (d : dict) : dict :=
  to_storage_field "updated_at" (to_storage_field "created_at" d).

Definition from_storage_field (k : string) (d : dict) : option dict :=
  match dict_get d k with
  | VStr s =>
      match fromisoformat s with
      | Some t => Some (<[k := VDatetime t]> d)
      | None => None
      end
  | _ => Some d
  end.

Definition from_storage (d : dict) : option dict :=
  d1 ← from_storage_field "created_at" d; from_storage_field "updated_at" d1.

(** The contents of a dict object. *)
Definition contents (w : world) (r : ref) : dict := default ∅ (heap w !! r).

(** What a reader gets for a stored document: the projection without [_id],
    decoded. *)
Definition normalized (stored : dict) : option dict :=
  from_storage (delete "_id" stored).

(** ** Closed forms

    The values the handlers compute, written out: the statements of the
    verification are phrased with them. *)

(** The two keys the normalizer looks at. *)
Definition timestamp_key (k : string) : bool :=
  String.eqb k "created_at" || String.eqb k "updated_at".

(** The two 401 answers of [verify_token]. *)
Definition invalid_token : exn := HTTPException HTTP_401_UNAUTHORIZED "Invalid token".
Definition token_expired : exn := HTTPException HTTP_401_UNAUTHORIZED "Token expired".

(** The subject check that follows a successful decode. *)
Definition subject_of (claims : dict) (w : world) : result value :=
  if is_None (dict_get claims "sub") then Raise invalid_token w
  else Ok (dict_get claims "sub") w.

(** The fields of an update request that are not None. *)
Definition supplied (u : ProductUpdate.t) : dict :=
  filter (fun kv : string * value => negb (is_None kv.2)) (ProductUpdate.model_dump u).

(** The [$set] document of an update made at [now]. *)
Definition update_fields (u : ProductUpdate.t) (now : datetime) : dict :=
  <["updated_at" := VStr (isoformat now)]> (supplied u).

Section ClosedForms.
Context `{Platform}.

(** What [create_access_token] returns for a subject: the claims [sub] and
    [exp], signed with the process secret. *)
Definition issued_claims (s : string) (expiry : Z) : dict :=
  <["exp" := VInt expiry]> {[ "sub" := VStr s ]}.

Definition issued_token (s : string) (expiry : Z) : token :=
  Compact (mk_jws ALGORITHM (issued_claims s expiry)
                  (hmac_sha256 SECRET_KEY ALGORITHM (issued_claims s expiry))).

(** A token that names the server's algorithm and carries the MAC of its
    payload under the process secret. *)
Definition signed_by_server (j : jws) : bool :=
  String.eqb (alg j) ALGORITHM &&
  String.eqb (signature j) (hmac_sha256 SECRET_KEY (alg j) (payload j)).

(** The record [create_product] builds in world [w]. *)
Definition created (product_data : ProductCreate.t) (w : world) : Product.t :=
  Product.mk (uuid4_source (draws w))
    (ProductCreate.name product_data) (ProductCreate.price product_data)
    (ProductCreate.description product_data) (ProductCreate.images product_data)
    (ProductCreate.variants product_data)
    (utc_reading (ticks w)) (utc_reading (S (ticks w))).

(** The document it stores. *)
Definition stored_form (p : Product.t) (oid : nat) : dict :=
  <["_id" := VObjectId oid]> (to_storage (Product.model_dump p)).

(** The bcrypt string [hash_password] builds with the salt of draw [n]. *)
Definition hashed (password : string) (n : nat) : string :=
  "$2b$12$" +:+ gensalt n +:+ bcrypt_digest "$2b$12$" (gensalt n) password.

(** The admin document the bootstrap stores in world [w]. *)
Definition bootstrap_doc (u p : string) (w : world) : dict :=
  <["_id" := VObjectId (oids w)]>
    (Admin.model_dump (Admin.mk (uuid4_source (S (draws w))) u (hashed p (draws w)))).

(** The world an update leaves behind once the [$set] is written and the
    document read back: three dicts allocated, one clock read, the document
    replaced. *)
Definition after_update (w : world) (i : nat) (doc : dict) (u : ProductUpdate.t)
    (reloaded : dict) : world :=
  let now := utc_reading (ticks w) in
  mk_world (heap w ++ [delete "_id" doc; update_fields u now; reloaded])
           (<[i := update_fields u now ∪ doc]> (products w))
           (admins w) (oids w) (S (ticks w)) (draws w).

End ClosedForms.

(** ** Startup configuration *)

(** [s.split(sep)] for a separator of one character: never empty, an empty
    string gives one empty piece. *)
Fixpoint str_split (sep : ascii) (s : string) : list string :=
  match s with
  | "" => [""]
  | String c s' =>
      if Ascii.eqb c sep then "" :: str_split sep s'
      else
        match str_split sep s' with
        | piece :: rest => String c piece :: rest
        | [] => [String c ""]
        end
  end.

(** [sep.join(l)]. *)
Fixpoint str_join (sep : string) (l : list string) : string :=
  match l with
  | [] => ""
  | [x] => x
  | x :: l' => x +:+ sep +:+ str_join sep l'
  end.

(** [c in s]. *)
Fixpoint str_contains (c : ascii) (s : string) : bool :=
  match s with
  | "" => false
  | String a s' => Ascii.eqb a c || str_contains c s'
  end.

(** The secrets the hashing library takes: at most 4096 characters
    ([MAX_PASSWORD_SIZE]) and no NUL character.  On any other plaintext
    [hash] and [verify] raise a ValueError of their own before a digest is
    computed; [hash_password] and [verify_password] above leave that check
    out, so the statements about arbitrary plaintexts carry it as a
    hypothesis. *)
Definition MAX_PASSWORD_SIZE : nat := 4096.

Definition secret_accepted (secret : string) : bool :=
  (String.length secret <=? MAX_PASSWORD_SIZE)%nat && negb (str_contains "000" secret).

Section Startup.
Context `{Platform}.

(** The [allow_origins] handed to the CORS middleware:
    [os.environ.get('CORS_ORIGINS', '*').split(',')]. *)
Definition cors_origins : list string :=
  str_split "," (default "*" (environ !! "CORS_ORIGINS")).

End Startup.

(** ** A second scenario: an office with one admin and a clock read once a day *)

Module Scenario.

(** A clock whose k-th reading is noon of the k-th day after 2024-01-05. *)
Definition daily : Platform := {|
  environ := Demo.toy_environ;
  SECRET_KEY := "secret";
  clock := fun k => mk_datetime 2024 1 (5 + Z.of_nat k) 12 0 0 0 None;
  uuid4_source := fun k => "00000000-0000-4000-8000-" +:+ pad 12 (Z.of_nat k);
  gensalt := fun k => "saltsaltsaltsaltsa" +:+ pad 4 (Z.of_nat k);
  bcrypt_digest := Demo.toy_digest;
  hmac_sha256 := Demo.toy_mac
|}.

(** A process whose CORS_ORIGINS names two origins. *)
Definition two_origins : Platform := {|
  environ := {[ "CORS_ORIGINS" := "https://shop.example,https://admin.example" ]};
  SECRET_KEY := "secret";
  clock := fun _ => Demo.noon;
  uuid4_source := fun k => "00000000-0000-4000-8000-" +:+ pad 12 (Z.of_nat k);
  gensalt := fun k => "saltsaltsaltsaltsa" +:+ pad 4 (Z.of_nat k);
  bcrypt_digest := Demo.toy_digest;
  hmac_sha256 := Demo.toy_mac
|}.

(** The admin document the bootstrap of the demo platform writes. *)
Definition admin_doc : dict :=
  @bootstrap_doc Demo.frozen "admin" "s3cret" Demo.empty_world.

(** A store with that admin and the shirt. *)
Definition office : world :=
  mk_world [] [Demo.stored_shirt] [admin_doc] 2 0 2.

(** An admin document that lost its [password_hash]. *)
Definition broken_admin : dict := delete "password_hash" admin_doc.

Definition broken_office : world := mk_world [] [] [broken_admin] 1 0 2.

(** A store holding the shirt twice under the same id. *)
Definition doubled : world :=
  mk_world [] [Demo.stored_shirt; <["name" := VStr "Copy"]> Demo.stored_shirt] [] 2 0 0.

End Scenario.

(** * Verification *)

(** ** The ISO codec: [fromisoformat] inverts [isoformat] *)

Lemma digit_cases (P : Z -> Prop) :
  P 0 -> P 1 -> P 2 -> P 3 -> P 4 -> P 5 -> P 6 -> P 7 -> P 8 -> P 9 ->
  forall x, P (x mod 10).
Proof.
  intros H0 H1 H2 H3 H4 H5 H6 H7 H8 H9 x.
  pose proof (Z.mod_pos_bound x 10 ltac:(lia)) as Hb.
  assert (x mod 10 = 0 \/ x mod 10 = 1 \/ x mod 10 = 2 \/ x mod 10 = 3 \/
          x mod 10 = 4 \/ x mod 10 = 5 \/ x mod 10 = 6 \/ x mod 10 = 7 \/
          x mod 10 = 8 \/ x mod 10 = 9) as Hc by lia.
  repeat (destruct Hc as [-> | Hc]; [assumption |]).
  rewrite Hc. assumption.
Qed.

Lemma digit_val_digit x : digit_val (digit (x mod 10)) = Some (x mod 10).
Proof. apply (digit_cases (fun k => digit_val (digit k) = Some k)); reflexivity. Qed.

Lemma digit_not_minus x : Ascii.eqb (digit (x mod 10)) "-" = false.
Proof. apply (digit_cases (fun k => Ascii.eqb (digit k) "-" = false)); reflexivity. Qed.

Lemma digit_not_plus x : Ascii.eqb (digit (x mod 10)) "+" = false.
Proof. apply (digit_cases (fun k => Ascii.eqb (digit k) "+" = false)); reflexivity. Qed.

Lemma int_acc_digit acc x s :
  int_acc acc (String (digit (x mod 10)) s) = int_acc (acc * 10 + x mod 10) s.
Proof. cbn [int_acc]. by rewrite digit_val_digit. Qed.

Lemma app_cons c s t : String c s +:+ t = String c (s +:+ t).
Proof. reflexivity. Qed.

Lemma app_empty t : "" +:+ t = t.
Proof. reflexivity. Qed.

Ltac pow10 :=
  change (10 ^ 0) with 1 in *; change (10 ^ 1) with 10 in *;
  change (10 ^ 2) with 100 in *; change (10 ^ 3) with 1000 in *;
  change (10 ^ 4) with 10000 in *; change (10 ^ 5) with 100000 in *.

Lemma decimal2 n : 0 <= n < 100 ->
  (0 * 10 + (n / 10 ^ 1) mod 10) * 10 + (n / 10 ^ 0) mod 10 = n.
Proof. intros Hn. pow10. Z.div_mod_to_equations. lia. Qed.

Lemma decimal4 n : 0 <= n < 10000 ->
  (((0 * 10 + (n / 10 ^ 3) mod 10) * 10 + (n / 10 ^ 2) mod 10) * 10 +
   (n / 10 ^ 1) mod 10) * 10 + (n / 10 ^ 0) mod 10 = n.
Proof. intros Hn. pow10. Z.div_mod_to_equations. lia. Qed.

Lemma decimal6 n : 0 <= n < 1000000 ->
  (((((0 * 10 + (n / 10 ^ 5) mod 10) * 10 + (n / 10 ^ 4) mod 10) * 10 +
     (n / 10 ^ 3) mod 10) * 10 + (n / 10 ^ 2) mod 10) * 10 +
   (n / 10 ^ 1) mod 10) * 10 + (n / 10 ^ 0) mod 10 = n.
Proof. intros Hn. pow10. Z.div_mod_to_equations. lia. Qed.

(* normalise a formatted string into explicit characters *)
Ltac chars :=
  cbn [pad Z.of_nat Pos.of_succ_nat Pos.succ];
  rewrite ?app_cons, ?app_empty.

Ltac steps :=
  cbn [mbind option_bind slice str_take str_drop Nat.sub String.get String.length char_at
       Nat.ltb Nat.leb Nat.eqb orb negb andb py_int find_from str_find Ascii.eqb Bool.eqb];
  repeat rewrite digit_not_minus; repeat rewrite digit_not_plus;
  repeat rewrite int_acc_digit;
  cbn [int_acc].

Lemma two_digits_pad n s : 0 <= n < 100 -> two_digits (pad 2 n +:+ s) = Some (n, s).
Proof.
  intros Hn. unfold two_digits. chars. steps.
  by rewrite decimal2.
Qed.

Lemma parse_fraction_pad us :
  0 <= us < 1000000 -> parse_fraction ("." +:+ pad 6 us) = Some us.
Proof. intros Hus. unfold parse_fraction. chars. steps. by rewrite decimal6. Qed.

Lemma parse_date_format y m d :
  0 <= y < 10000 -> 0 <= m < 100 -> 0 <= d < 100 ->
  parse_isoformat_date (pad 4 y +:+ "-" +:+ pad 2 m +:+ "-" +:+ pad 2 d) = Some (y, m, d).
Proof.
  intros Hy Hm Hd. unfold parse_isoformat_date. chars. steps.
  by rewrite decimal4, !decimal2.
Qed.

Lemma parse_hh_mm h m :
  0 <= h < 100 -> 0 <= m < 100 ->
  parse_hh_mm_ss_ff (pad 2 h +:+ ":" +:+ pad 2 m +:+ "") = Some (h, m, 0, 0).
Proof.
  intros Hh Hm. unfold parse_hh_mm_ss_ff.
  rewrite two_digits_pad by done. rewrite app_cons, app_empty. steps.
  rewrite two_digits_pad by done. by steps.
Qed.

Lemma parse_hh_mm_ss h m s frac us :
  0 <= h < 100 -> 0 <= m < 100 -> 0 <= s < 100 ->
  parse_fraction frac = Some us ->
  parse_hh_mm_ss_ff (pad 2 h +:+ ":" +:+ pad 2 m +:+ ":" +:+ pad 2 s +:+ frac)
  = Some (h, m, s, us).
Proof.
  intros Hh Hm Hs Hf. unfold parse_hh_mm_ss_ff.
  rewrite two_digits_pad by done. rewrite app_cons, app_empty. steps.
  rewrite two_digits_pad by done. rewrite app_cons, app_empty. steps.
  rewrite two_digits_pad by done. steps. rewrite Hf. by steps.
Qed.

Lemma str_length_app a b :
  String.length (a +:+ b) = (String.length a + String.length b)%nat.
Proof.
  induction a as [| c a IH]; rewrite ?app_cons, ?app_empty; cbn [String.length Nat.add];
    [done | by rewrite IH].
Qed.

Lemma str_take_app a b : str_take (String.length a) (a +:+ b) = a.
Proof.
  induction a as [| c a IH]; rewrite ?app_cons, ?app_empty; cbn [String.length str_take].
  - by destruct b.
  - by rewrite IH.
Qed.

Lemma str_drop_app_cons a c b : str_drop (S (String.length a)) (a +:+ String c b) = b.
Proof.
  induction a as [| x a IH]; rewrite ?app_cons, ?app_empty; cbn [String.length str_drop];
    [by destruct b | done].
Qed.

Lemma char_at_app_cons a c b x :
  char_at (String.length a) x (a +:+ String c b) = Ascii.eqb c x.
Proof.
  unfold char_at.
  induction a as [| y a IH]; rewrite ?app_cons, ?app_empty; cbn [String.length String.get];
    done.
Qed.

Lemma find_from_app c a b i :
  find_from i c a = None ->
  find_from i c (a +:+ b) = find_from (i + String.length a) c b.
Proof.
  revert i. induction a as [| x a IH]; intros i;
    rewrite ?app_cons, ?app_empty; cbn [String.length find_from].
  - by rewrite Nat.add_0_r.
  - destruct (Ascii.eqb x c); [done |]. intros H. rewrite IH by done.
    f_equal. lia.
Qed.

Lemma format_time_no_sign h m s us i :
  find_from i "-" (format_time h m s us) = None /\ find_from i "+" (format_time h m s us) = None.
Proof. unfold format_time. destruct (us =? 0); chars; do 3 steps; done. Qed.

Lemma format_time_length h m s us :
  String.length (format_time h m s us) = if us =? 0 then 8%nat else 15%nat.
Proof. unfold format_time. by destruct (us =? 0). Qed.

Lemma parse_format_time h m s us :
  0 <= h < 100 -> 0 <= m < 100 -> 0 <= s < 100 -> 0 <= us < 1000000 ->
  parse_hh_mm_ss_ff (format_time h m s us) = Some (h, m, s, us).
Proof.
  intros Hh Hm Hs Hus. apply parse_hh_mm_ss; try done.
  destruct (Z.eqb_spec us 0) as [-> | Hne]; [done | by apply parse_fraction_pad].
Qed.

Lemma offset_body_no_minus a i : find_from i "-" (offset_body a) = None.
Proof.
  unfold offset_body. cbv zeta.
  destruct (_ =? 0); [| destruct (_ =? 0)]; chars; do 3 steps; done.
Qed.

Lemma offset_body_length a :
  let n := String.length (offset_body a) in
  negb ((n =? 5)%nat || (n =? 8)%nat || (n =? 15)%nat) = false.
Proof.
  unfold offset_body. cbv zeta.
  destruct (_ =? 0); [| destruct (_ =? 0)]; done.
Qed.

Lemma parse_offset_body a :
  0 <= a < 86400000000 ->
  exists th tm ts tus,
    parse_hh_mm_ss_ff (offset_body a) = Some (th, tm, ts, tus) /\
    0 <= th /\ 0 <= tm /\ 0 <= ts /\ 0 <= tus < 1000000 /\
    th * 3600000000 + tm * 60000000 + ts * 1000000 + tus = a.
Proof.
  intros Ha. unfold offset_body. cbv zeta.
  set (r := a mod 3600000000). set (ss := r mod 60000000).
  assert (0 <= a / 3600000000 < 100) by (Z.div_mod_to_equations; lia).
  assert (0 <= r / 60000000 < 100) by (subst r; Z.div_mod_to_equations; lia).
  assert (0 <= ss / 1000000 < 100) by (subst ss r; Z.div_mod_to_equations; lia).
  assert (0 <= ss mod 1000000 < 1000000) by (Z.div_mod_to_equations; lia).
  destruct (Z.eqb_spec ss 0) as [Hss | Hss].
  - exists (a / 3600000000), (r / 60000000), 0, 0.
    rewrite parse_hh_mm by done. repeat split; try lia.
    subst ss r. Z.div_mod_to_equations. lia.
  - exists (a / 3600000000), (r / 60000000), (ss / 1000000), (ss mod 1000000).
    rewrite (parse_hh_mm_ss _ _ _ _ (ss mod 1000000)); try done.
    + repeat split; try lia. subst ss r. Z.div_mod_to_equations. lia.
    + destruct (Z.eqb_spec (ss mod 1000000) 0) as [-> | Hne];
        [done | by apply parse_fraction_pad].
Qed.

Lemma check_fields_bounds d :
  check_fields d = true ->
  1 <= year d <= 9999 /\ 1 <= month d <= 12 /\ 1 <= day d <= 31 /\
  0 <= hour d <= 23 /\ 0 <= minute d <= 59 /\ 0 <= second d <= 59 /\
  0 <= microsecond d <= 999999 /\ check_tzinfo (tzinfo d) = true.
Proof.
  unfold check_fields, in_range. rewrite !andb_true_iff, !Z.leb_le.
  intros [[[[[[[[? ?] [? ?]] [? Hd]] [? ?]] [? ?]] [? ?]] [? ?]] ?].
  repeat split; try lia; try done.
  revert Hd. unfold days_in_month. destruct (_ && _); [lia |].
  destruct (Z.to_nat (month d)) as [| [| [| [| [| [| [| [| [| [| [| [| [| n]]]]]]]]]]]]];
    cbn; try lia.
  destruct n; lia.
Qed.

Lemma parse_time_format h m s us tz :
  0 <= h < 100 -> 0 <= m < 100 -> 0 <= s < 100 -> 0 <= us < 1000000 ->
  check_tzinfo tz = true -> offset_kept tz = true ->
  parse_isoformat_time (format_time h m s us +:+ format_offset tz) = Some (h, m, s, us, tz).
Proof.
  intros Hh Hm Hs Hus Htz Hkept. unfold parse_isoformat_time, str_find.
  pose proof (format_time_no_sign h m s us 0) as [Hminus Hplus].
  pose proof (format_time_length h m s us) as Hlen.
  pose proof (parse_format_time h m s us Hh Hm Hs Hus) as Hparse.
  set (T := format_time h m s us) in *.
  assert (exists n, String.length T = S (S n)) as [n Hn]
    by (rewrite Hlen; destruct (us =? 0); eauto).
  assert ((String.length (T +:+ format_offset tz) <? 2)%nat = false) as ->.
  { rewrite str_length_app, Hn. done. }
  rewrite !find_from_app by done.
  destruct tz as [off |]; cbn [format_offset].
  -    cbn [check_tzinfo] in Htz. apply andb_true_iff in Htz as [Hlo Hhi].
    apply Z.ltb_lt in Hlo, Hhi.
    destruct (parse_offset_body (Z.abs off) ltac:(lia))
      as (th & tm & ts & tus & Hbody & ? & ? & ? & ? & Hsum).
    pose proof (offset_body_length (Z.abs off)) as Hbl. cbv zeta in Hbl.
    assert (forall sg : ascii,
      (if (Ascii.eqb sg "-") then -1 else 1) * Z.abs off = off ->
      (if negb
            ((String.length (str_drop (S (String.length T))
                (T +:+ String sg (offset_body (Z.abs off)))) =? 5)%nat
             || (String.length (str_drop (S (String.length T))
                   (T +:+ String sg (offset_body (Z.abs off)))) =? 8)%nat
             || (String.length (str_drop (S (String.length T))
                   (T +:+ String sg (offset_body (Z.abs off)))) =? 15)%nat)
       then None
       else
         parse_hh_mm_ss_ff
           (str_drop (S (String.length T)) (T +:+ String sg (offset_body (Z.abs off))))
         ≫= λ '(th0, tm0, ts0, tus0),
              if (th0 =? 0) && (tm0 =? 0) && (ts0 =? 0)
              then Some (h, m, s, us, Some 0)
              else
                Some
                  (h, m, s, us,
                   Some
                     ((if char_at (String.length T) "-"
                            (T +:+ String sg (offset_body (Z.abs off)))
                       then -1 else 1) *
                      (th0 * 3600000000 + tm0 * 60000000 + ts0 * 1000000 + tus0))))
      = Some (h, m, s, us, Some off)) as Hfin.
    { intros sg Hsg. rewrite str_drop_app_cons, Hbl, Hbody, char_at_app_cons.
      cbn [mbind option_bind]. rewrite Hsum, Hsg.
      destruct ((th =? 0) && (tm =? 0) && (ts =? 0)) eqn:Hz; [| done].
      rewrite !andb_true_iff, !Z.eqb_eq in Hz. do 4 f_equal.
      cbn [offset_kept] in Hkept. apply orb_true_iff in Hkept as [Hzero | Hfar].
      - apply Z.eqb_eq in Hzero. lia.
      - apply Z.leb_le in Hfar. lia. }
    destruct (Z.ltb_spec off 0) as [Hneg | Hpos].
    + rewrite app_cons, app_empty. cbn [find_from Ascii.eqb Bool.eqb].
      cbn [Nat.ltb Nat.leb Nat.sub Nat.add]. rewrite Nat.sub_0_r.
      rewrite str_take_app, Hparse. cbn [mbind option_bind].
      apply Hfin. cbn. lia.
    + rewrite app_cons, app_empty. cbn [find_from Ascii.eqb Bool.eqb].
      rewrite offset_body_no_minus.
      cbn [Nat.ltb Nat.leb Nat.sub Nat.add]. rewrite Nat.sub_0_r.
      rewrite str_take_app, Hparse. cbn [mbind option_bind].
      apply Hfin. cbn. lia.
  - cbn [find_from].
    assert (T +:+ "" = T) as -> by (clear; induction T as [| c T IH];
      rewrite ?app_cons, ?app_empty; [done | by rewrite IH]).
    cbn [Nat.ltb Nat.leb]. by rewrite Hparse.
Qed.

Theorem fromisoformat_isoformat d :
  check_fields d = true -> offset_kept (tzinfo d) = true ->
  fromisoformat (isoformat d) = Some d.
Proof.
  intros Hok Hkept. pose proof (check_fields_bounds d Hok) as (? & ? & ? & ? & ? & ? & ? & ?).
  unfold fromisoformat, isoformat.
  set (rest := format_time _ _ _ _ +:+ _).
  assert (slice 0 10 (pad 4 (year d) +:+ "-" +:+ pad 2 (month d) +:+ "-" +:+
            pad 2 (day d) +:+ "T" +:+ rest)
          = pad 4 (year d) +:+ "-" +:+ pad 2 (month d) +:+ "-" +:+ pad 2 (day d)) as ->.
  { chars. by cbn [slice Nat.sub str_drop str_take]. }
  assert (str_drop 11 (pad 4 (year d) +:+ "-" +:+ pad 2 (month d) +:+ "-" +:+
            pad 2 (day d) +:+ "T" +:+ rest) = rest) as ->.
  { chars. by cbn [str_drop]. }
  rewrite parse_date_format by lia. cbn [mbind option_bind].
  assert (rest <> "") as Hrest.
  { subst rest. unfold format_time. chars. done. }
  assert (parse_isoformat_time rest
          = Some (hour d, minute d, second d, microsecond d, tzinfo d)) as Hp.
  { subst rest. apply parse_time_format; (lia || done). }
  destruct rest; [done |]. rewrite Hp. cbn [mbind option_bind].
  destruct d; cbn in *. by rewrite Hok.
Qed.

(** ** The calendar: ordinals and one day later *)

Lemma is_leap_cycles a b c d :
  0 <= a -> 0 <= b <= 3 -> 0 <= c <= 24 -> 0 <= d <= 3 ->
  is_leap (a * 400 + 1 + b * 100 + c * 4 + d)
  = (d =? 3) && (negb (c =? 24) || (b =? 3)).
Proof.
  intros Ha Hb Hc Hd. unfold is_leap.
  destruct (Z.eqb_spec d 3), (Z.eqb_spec c 24), (Z.eqb_spec b 3); cbn [negb orb andb];
    repeat match goal with
           | |- context [?x =? 0] => destruct (Z.eqb_spec x 0)
           end; cbn [negb orb andb]; try reflexivity;
    exfalso; Z.div_mod_to_equations; lia.
Qed.

Lemma days_before_year_cycles a b c d :
  0 <= a -> 0 <= b <= 3 -> 0 <= c <= 24 -> 0 <= d <= 3 ->
  days_before_year (a * 400 + 1 + b * 100 + c * 4 + d)
  = a * 146097 + b * 36524 + c * 1461 + d * 365.
Proof.
  intros Ha Hb Hc Hd. unfold days_before_year. cbv zeta.
  Z.div_mod_to_equations. lia.
Qed.

Lemma ymd2ord_ord2ymd n :
  1 <= n <= 3652059 ->
  let '(y, m, d) := ord2ymd n in ymd2ord y m d = n.
Proof.
  intros Hn. unfold ord2ymd. cbv zeta.
  set (n0 := n - 1).
  set (n400 := n0 / 146097). set (r1 := n0 mod 146097).
  set (n100 := r1 / 36524). set (r2 := r1 mod 36524).
  set (n4 := r2 / 1461). set (r3 := r2 mod 1461).
  set (n1 := r3 / 365). set (r4 := r3 mod 365).
  assert (n0 = n400 * 146097 + r1 /\ 0 <= r1 < 146097) as [D0 R1]
    by (subst n400 r1; Z.div_mod_to_equations; lia).
  assert (r1 = n100 * 36524 + r2 /\ 0 <= r2 < 36524) as [D1 R2]
    by (subst n100 r2; Z.div_mod_to_equations; lia).
  assert (r2 = n4 * 1461 + r3 /\ 0 <= r3 < 1461) as [D2 R3]
    by (subst n4 r3; Z.div_mod_to_equations; lia).
  assert (r3 = n1 * 365 + r4 /\ 0 <= r4 < 365) as [D3 R4]
    by (subst n1 r4; Z.div_mod_to_equations; lia).
  clearbody n400 r1 n100 r2 n4 r3 n1 r4.
  assert (0 <= n400 <= 24 /\ 0 <= n100 <= 4 /\ 0 <= n4 <= 24 /\ 0 <= n1 <= 4)
    as (B400 & B100 & B4 & B1) by (subst n0; lia).
  assert (n100 = 4 -> n4 = 0 /\ n1 = 0 /\ r4 = 0) as E100 by lia.
  assert (n1 = 4 -> r4 = 0) as E1 by lia.
  assert (n4 = 24 -> n1 < 4) as E4 by lia.
  assert (n = n400 * 146097 + n100 * 36524 + n4 * 1461 + n1 * 365 + r4 + 1) as ->
    by (subst n0; lia).
  clear Hn D0 D1 D2 D3 R1 R2 R3 n0 r1 r2 r3.
  set (Y := n400 * 400 + n100 * 100 + n4 * 4 + n1).
  destruct ((n1 =? 4) || (n100 =? 4)) eqn:Hend.
  - replace (n400 * 400 + 1 + n100 * 100 + n4 * 4 + n1 - 1) with Y by (subst Y; lia).
    unfold ymd2ord, days_before_year, days_before_month, is_leap.
    change (nth (Z.to_nat 12) DAYS_BEFORE_MONTH 0) with 334.
    change (2 <? 12) with true. cbn [andb].
    apply orb_true_iff in Hend. rewrite !Z.eqb_eq in Hend.
    assert (Y mod 4 = 0 /\ (Y mod 100 <> 0 \/ Y mod 400 = 0)) as [L1 L2].
    { subst Y. destruct Hend as [-> | ->].
      - split; [Z.div_mod_to_equations; lia |].
        destruct (Z.eq_dec n4 24) as [-> | ?]; [lia |].
        left. Z.div_mod_to_equations; lia.
      - destruct (E100 eq_refl) as (-> & -> & ->).
        split; [Z.div_mod_to_equations; lia | right; Z.div_mod_to_equations; lia]. }
    rewrite L1. cbn [Z.eqb andb].
    assert (negb (Y mod 100 =? 0) || (Y mod 400 =? 0) = true) as ->.
    { destruct L2 as [L2 | L2]; [apply Z.eqb_neq in L2 | apply Z.eqb_eq in L2];
        rewrite L2; cbn; [done | apply orb_true_r]. }
    subst Y. destruct Hend as [-> | ->].
    + rewrite (E1 eq_refl). Z.div_mod_to_equations. lia.
    + destruct (E100 eq_refl) as (-> & -> & ->). Z.div_mod_to_equations. lia.
  - apply orb_false_iff in Hend. rewrite !Z.eqb_neq in Hend. destruct Hend as [N1 N100].
    assert (0 <= n100 <= 3 /\ 0 <= n1 <= 3) as [B100' B1'] by lia.
    pose proof (is_leap_cycles n400 n100 n4 n1 ltac:(lia) B100' B4 B1') as HL.
    pose proof (days_before_year_cycles n400 n100 n4 n1 ltac:(lia) B100' B4 B1') as HY.
    set (year := n400 * 400 + 1 + n100 * 100 + n4 * 4 + n1) in *.
    set (L := (n1 =? 3) && (negb (n4 =? 24) || (n100 =? 3))) in *.
    rewrite Z.shiftr_div_pow2 by lia. change (2 ^ 5) with 32.
    set (M := (r4 + 50) / 32).
    assert (M = 1 \/ M = 2 \/ M = 3 \/ M = 4 \/ M = 5 \/ M = 6 \/ M = 7 \/ M = 8 \/
            M = 9 \/ M = 10 \/ M = 11 \/ M = 12) as HM
      by (subst M; Z.div_mod_to_equations; lia).
    assert (32 * M <= r4 + 50 < 32 * M + 32) as HM'
      by (subst M; Z.div_mod_to_equations; lia).
    clearbody M year.
    unfold ymd2ord, days_before_month.
    repeat (destruct HM as [-> | HM]); try subst M;
      repeat match goal with
             | |- context [nth (Z.to_nat ?k) ?T 0] =>
                 let v := eval vm_compute in (nth (Z.to_nat k) T 0) in
                 change (nth (Z.to_nat k) T 0) with v
             | |- context [?a - ?b] =>
                 match a with Zpos _ => idtac end;
                 let v := eval vm_compute in (a - b) in change (a - b) with v
             | |- context [?a <? ?b] =>
                 match a with Zpos _ => idtac end;
                 let v := eval vm_compute in (a <? b) in change (a <? b) with v
             | |- context [?a =? ?b] =>
                 match a with Zpos _ => idtac | Z0 => idtac end;
                 let v := eval vm_compute in (a =? b) in change (a =? b) with v
             end;
      cbn [andb]; destruct L;
      repeat match goal with
             | |- context [?x <? ?y] => destruct (Z.ltb_spec x y)
             end;
      rewrite ?HY, ?HL;
      repeat match goal with
             | |- context [nth (Z.to_nat ?k) ?T 0] =>
                 let v := eval vm_compute in (nth (Z.to_nat k) T 0) in
                 change (nth (Z.to_nat k) T 0) with v
             end;
      cbn [andb]; lia.
Qed.

Lemma ymd2ord_bounds y m d :
  1 <= y <= 9999 -> 1 <= m <= 12 -> 1 <= d <= days_in_month y m ->
  1 <= ymd2ord y m d <= days_before_year (y + 1).
Proof.
  intros Hy Hm Hd. unfold ymd2ord, days_before_month, days_in_month in *.
  assert (days_before_year (y + 1)
          = days_before_year y + 365 + (if is_leap y then 1 else 0)) as ->.
  { unfold days_before_year, is_leap. cbv zeta.
    repeat match goal with
           | |- context [?x =? 0] => destruct (Z.eqb_spec x 0)
           end; cbn [negb orb andb]; Z.div_mod_to_equations; lia. }
  assert (0 <= days_before_year y) by
    (unfold days_before_year; cbv zeta; Z.div_mod_to_equations; lia).
  assert (m = 1 \/ m = 2 \/ m = 3 \/ m = 4 \/ m = 5 \/ m = 6 \/ m = 7 \/ m = 8 \/
          m = 9 \/ m = 10 \/ m = 11 \/ m = 12) as Hc by lia.
  destruct (is_leap y);
    repeat (destruct Hc as [-> | Hc]); try subst m;
    repeat match goal with
           | H : context [nth (Z.to_nat ?k) ?T 0] |- _ =>
               let v := eval vm_compute in (nth (Z.to_nat k) T 0) in
               change (nth (Z.to_nat k) T 0) with v in H
           | |- context [nth (Z.to_nat ?k) ?T 0] =>
               let v := eval vm_compute in (nth (Z.to_nat k) T 0) in
               change (nth (Z.to_nat k) T 0) with v
           end;
    cbn [Z.eqb Z.ltb Z.compare Pos.eqb Pos.compare Pos.compare_cont andb] in Hd |- *; lia.
Qed.

Lemma days_before_year_mono y : 1 <= y <= 9999 -> days_before_year y <= 3651694.
Proof.
  intros Hy. unfold days_before_year. cbv zeta. Z.div_mod_to_equations. lia.
Qed.

(** Adding the token lifetime moves a valid datetime before year 9999 exactly
    one day ahead. *)
Lemma datetime_add_one_day d :
  check_fields d = true -> year d <= 9998 ->
  exists e,
    datetime_add d (timedelta_minutes 1440) = Some e /\
    timestamp_us e = timestamp_us d + 86400000000.
Proof.
  intros Hok Hy.
  pose proof (check_fields_bounds d Hok) as (? & ? & _ & ? & ? & ? & ? & _).
  assert (1 <= day d <= days_in_month (year d) (month d)) as Hday.
  { revert Hok. unfold check_fields, in_range. rewrite !andb_true_iff, !Z.leb_le. tauto. }
  pose proof (ymd2ord_bounds (year d) (month d) (day d) ltac:(lia) ltac:(lia) Hday) as Ho.
  pose proof (days_before_year_mono (year d + 1) ltac:(lia)) as Hm.
  unfold datetime_add, timedelta_minutes. cbv zeta.
  set (o := ymd2ord (year d) (month d) (day d)) in *.
  set (total := o * 86400000000 + _ + _ + _ + _ + _).
  assert (total / 86400000000 = o + 1) as -> by
    (subst total; Z.div_mod_to_equations; lia).
  assert ((0 <? o + 1) && (o + 1 <=? MAXORDINAL) = true) as ->.
  { unfold MAXORDINAL. apply andb_true_iff. split; [apply Z.ltb_lt | apply Z.leb_le]; lia. }
  pose proof (ymd2ord_ord2ymd (o + 1) ltac:(lia)) as Hinv.
  destruct (ord2ymd (o + 1)) as [[y' m'] d'].
  eexists. split; [reflexivity |].
  unfold timestamp_us. cbn [year month day hour minute second microsecond tzinfo].
  rewrite Hinv. fold o. subst total. Z.div_mod_to_equations. lia.
Qed.

(** ** Running the monad *)

Lemma set_heap_same w : set_heap (heap w) w = w.
Proof. by destruct w. Qed.

Lemma bind_Ok {A B} (m : M A) (k : A -> M B) w a w' :
  m w = Ok a w' -> (m ≫= k) w = k a w'.
Proof. intros E. unfold mbind, M_bind. by rewrite E. Qed.

Lemma bind_Raise {A B} (m : M A) (k : A -> M B) w e w' :
  m w = Raise e w' -> (m ≫= k) w = Raise e w'.
Proof. intros E. unfold mbind, M_bind. by rewrite E. Qed.

Lemma get_run r k w : get r k w = Ok (dict_get (contents w r) k) w.
Proof. done. Qed.

Lemma alter_ext_at (f g : dict -> dict) r (l : list dict) :
  (forall x, l !! r = Some x -> f x = g x) -> alter f r l = alter g r l.
Proof. intros Hfg. by apply list_alter_ext. Qed.

Lemma alter_id_at (f : dict -> dict) r (l : list dict) :
  (forall x, l !! r = Some x -> f x = x) -> alter f r l = l.
Proof.
  intros Hf. rewrite <- (list_alter_id id l r) at 2 by done. by apply list_alter_ext.
Qed.

Lemma contents_Some w r d : heap w !! r = Some d -> contents w r = d.
Proof. unfold contents. by intros ->. Qed.

Lemma contents_None w r : heap w !! r = None -> contents w r = ∅.
Proof. unfold contents. by intros ->. Qed.

Lemma contents_set_heap_alter f r w :
  heap w !! r = Some (contents w r) ->
  contents (set_heap (alter f r (heap w)) w) r = f (contents w r).
Proof.
  intros Hr. unfold contents at 1. cbn. rewrite list_lookup_alter_eq, Hr. done.
Qed.

(** ** The normalizer: what the code does to the dictionary *)

Lemma encode_step {A} k r (rest : M A) w :
  (c ← get r k;
   _ ← (match c with
        | VDatetime t => setitem r k (VStr (isoformat t))
        | _ => mret tt
        end);
   rest) w
  = rest (set_heap (alter (to_storage_field k) r (heap w)) w).
Proof.
  rewrite (bind_Ok _ _ _ _ _ (get_run r k w)).
  destruct (heap w !! r) as [d |] eqn:Hd;
    [rewrite (contents_Some w r d Hd) | rewrite (contents_None w r Hd)].
  - destruct (dict_get d k) as [| n | x | s | t | n | l | items] eqn:Hk;
      try (rewrite (bind_Ok _ _ w tt w) by done; f_equal;
           rewrite alter_id_at, ?set_heap_same; [done |];
           intros y Hy; assert (y = d) as -> by congruence;
           unfold to_storage_field; by rewrite Hk).
    rewrite (bind_Ok _ _ w tt (set_heap (alter (insert k (VStr (isoformat t))) r (heap w)) w))
      by done.
    f_equal. f_equal. apply alter_ext_at. intros y Hy.
    assert (y = d) as -> by congruence. unfold to_storage_field. by rewrite Hk.
  - rewrite (bind_Ok _ _ w tt w) by done. f_equal.
    rewrite alter_id_at, ?set_heap_same; [done |]. intros y Hy. congruence.
Qed.

Lemma prepare_for_mongo_run r w :
  prepare_for_mongo r w = Ok r (set_heap (alter to_storage r (heap w)) w).
Proof.
  unfold prepare_for_mongo. rewrite encode_step, encode_step.
  cbn. by rewrite list_alter_alter_eq.
Qed.

Lemma decode_step {A} k r (rest : M A) w :
  (c ← get r k;
   _ ← (match c with
        | VStr s => set_fromisoformat r k s
        | _ => mret tt
        end);
   rest) w
  = match from_storage_field k (contents w r) with
    | Some d' => rest (set_heap (alter (fun _ => d') r (heap w)) w)
    | None => Raise (ValueError "Invalid isoformat string") w
    end.
Proof.
  rewrite (bind_Ok _ _ _ _ _ (get_run r k w)).
  unfold from_storage_field.
  destruct (dict_get (contents w r) k) as [| n | x | s | t | n | l | items] eqn:Hk;
    try (rewrite (bind_Ok _ _ w tt w) by done; f_equal;
         rewrite alter_id_at, ?set_heap_same; [done |];
         intros y Hy; unfold contents; by rewrite Hy).
  unfold set_fromisoformat. destruct (fromisoformat s) as [t |] eqn:Hs.
  - rewrite (bind_Ok _ _ w tt (set_heap (alter (insert k (VDatetime t)) r (heap w)) w))
      by done.
    f_equal. f_equal. apply alter_ext_at. intros y Hy.
    unfold contents. by rewrite Hy.
  - by rewrite (bind_Raise _ _ w (ValueError "Invalid isoformat string") w).
Qed.

Lemma heap_set_heap h w : heap (set_heap h w) = h.
Proof. done. Qed.

Lemma set_heap_set_heap h h' w : set_heap h (set_heap h' w) = set_heap h w.
Proof. done. Qed.

Lemma alter_const_insert (x : dict) r (l : list dict) : alter (fun _ => x) r l = <[r := x]> l.
Proof. by rewrite list_insert_alter. Qed.

Lemma parse_from_mongo_run r w d :
  heap w !! r = Some d ->
  parse_from_mongo r w =
  match from_storage_field "created_at" d with
  | None => Raise (ValueError "Invalid isoformat string") w
  | Some d1 =>
      match from_storage_field "updated_at" d1 with
      | None => Raise (ValueError "Invalid isoformat string")
                      (set_heap (<[r := d1]> (heap w)) w)
      | Some d2 => Ok r (set_heap (<[r := d2]> (heap w)) w)
      end
  end.
Proof.
  intros Hd. unfold parse_from_mongo. rewrite decode_step, (contents_Some w r d Hd).
  destruct (from_storage_field "created_at" d) as [d1 |]; [| done].
  rewrite decode_step. unfold contents at 1.
  rewrite heap_set_heap, list_lookup_alter_eq, Hd.
  change (default ∅ ((fun _ : dict => d1) <$> Some d)) with d1.
  rewrite alter_const_insert.
  destruct (from_storage_field "updated_at" d1) as [d2 |]; [| done].
  unfold mret, M_ret. rewrite set_heap_set_heap, alter_const_insert.
  by rewrite list_insert_insert_eq.
Qed.

Lemma parse_from_mongo_dangling r w :
  heap w !! r = None -> parse_from_mongo r w = Ok r w.
Proof.
  intros Hd. unfold parse_from_mongo.
  rewrite decode_step, (contents_None w r Hd).
  change (from_storage_field "created_at" ∅) with (Some (∅ : dict)). cbv iota beta.
  rewrite alter_id_at, set_heap_same by (intros y Hy; congruence).
  rewrite decode_step, (contents_None w r Hd).
  change (from_storage_field "updated_at" ∅) with (Some (∅ : dict)). cbv iota beta.
  by rewrite alter_id_at, set_heap_same by (intros y Hy; congruence).
Qed.

(** *** The pure laws *)

Lemma dict_get_insert_eq (d : dict) k v : dict_get (<[k := v]> d) k = v.
Proof. unfold dict_get. by rewrite lookup_insert_eq. Qed.

Lemma dict_get_insert_ne (d : dict) k k' v :
  k <> k' -> dict_get (<[k := v]> d) k' = dict_get d k'.
Proof. intros Hne. unfold dict_get. by rewrite lookup_insert_ne. Qed.

Lemma to_storage_field_get_ne k k' d :
  k <> k' -> dict_get (to_storage_field k d) k' = dict_get d k'.
Proof.
  intros Hne. unfold to_storage_field.
  destruct (dict_get d k); try done. by apply dict_get_insert_ne.
Qed.

Lemma to_storage_field_idem k d :
  to_storage_field k (to_storage_field k d) = to_storage_field k d.
Proof.
  destruct (dict_get d k) as [| n | x | s | t | n | l | items] eqn:Hk;
    unfold to_storage_field; repeat rewrite Hk; try done.
  by rewrite dict_get_insert_eq.
Qed.

Lemma to_storage_idem d : to_storage (to_storage d) = to_storage d.
Proof.
  unfold to_storage.
  set (d1 := to_storage_field "created_at" d).
  assert (to_storage_field "created_at" (to_storage_field "updated_at" d1)
          = to_storage_field "updated_at" d1) as ->.
  { unfold to_storage_field at 1.
    rewrite to_storage_field_get_ne by done. subst d1.
    unfold to_storage_field at 1 2.
    destruct (dict_get d "created_at") as [| n | x | s | t | n | l | items] eqn:Hk;
      rewrite ?Hk; try done.
    by rewrite dict_get_insert_eq. }
  apply to_storage_field_idem.
Qed.

Lemma from_storage_field_get_ne k k' d d' :
  k <> k' -> from_storage_field k d = Some d' -> dict_get d' k' = dict_get d k'.
Proof.
  intros Hne. unfold from_storage_field.
  destruct (dict_get d k); try (intros [= <-]; done).
  destruct (fromisoformat s); [| done]. intros [= <-]. by apply dict_get_insert_ne.
Qed.

Lemma from_storage_field_idem k d d' :
  from_storage_field k d = Some d' -> from_storage_field k d' = Some d'.
Proof.
  unfold from_storage_field at 1.
  destruct (dict_get d k) as [| n | x | s | t | n | l | items] eqn:Hk;
    try (intros [= <-]; unfold from_storage_field; by rewrite Hk).
  destruct (fromisoformat s); [| done]. intros [= <-].
  unfold from_storage_field. by rewrite dict_get_insert_eq.
Qed.

Lemma from_storage_field_not_str k d d' :
  from_storage_field k d = Some d' ->
  match dict_get d' k with VStr _ => False | _ => True end.
Proof.
  unfold from_storage_field.
  destruct (dict_get d k) as [| n | x | s | t | n | l | items] eqn:Hk;
    try (intros [= <-]; by rewrite Hk).
  destruct (fromisoformat s); [| done]. intros [= <-]. by rewrite dict_get_insert_eq.
Qed.

Lemma from_storage_idem d d' : from_storage d = Some d' -> from_storage d' = Some d'.
Proof.
  unfold from_storage. intros Hd.
  destruct (from_storage_field "created_at" d) as [d1 |] eqn:H1; [| done].
  cbn in Hd.
  assert (from_storage_field "created_at" d' = Some d') as ->.
  { pose proof (from_storage_field_not_str _ _ _ H1) as Hn.
    rewrite <- (from_storage_field_get_ne "updated_at" "created_at" d1 d') in Hn by done.
    unfold from_storage_field. by destruct (dict_get d' "created_at"). }
  cbn. by apply (from_storage_field_idem _ d1).
Qed.

Lemma timestamp_key_cases k :
  (timestamp_key k = true /\ (k = "created_at" \/ k = "updated_at")) \/
  (timestamp_key k = false /\ k <> "created_at" /\ k <> "updated_at").
Proof.
  unfold timestamp_key.
  destruct (String.eqb_spec k "created_at"), (String.eqb_spec k "updated_at"); cbn; tauto.
Qed.

Lemma to_storage_field_lookup k d k' :
  to_storage_field k d !! k' =
  match d !! k' with
  | Some (VDatetime t) => if String.eqb k' k then Some (VStr (isoformat t)) else d !! k'
  | o => o
  end.
Proof.
  unfold to_storage_field, dict_get.
  destruct (String.eqb_spec k' k) as [-> | Hne].
  - destruct (d !! k) as [[| n | x | s | t | n | l | items] |] eqn:Hk; cbn; rewrite ?Hk; try done.
    by rewrite lookup_insert_eq.
  - destruct (d !! k) as [[| n | x | s | t | n | l | items] |] eqn:Hk; cbn;
      rewrite ?lookup_insert_ne by done;
      by destruct (d !! k') as [[] |].
Qed.

(** Every key of the encoded dictionary: a datetime under one of the two
    timestamp keys becomes its ISO string, everything else is as it was. *)
Lemma to_storage_lookup d k :
  to_storage d !! k =
  match d !! k with
  | Some (VDatetime t) => if timestamp_key k then Some (VStr (isoformat t)) else d !! k
  | o => o
  end.
Proof.
  unfold to_storage, timestamp_key. rewrite !to_storage_field_lookup.
  destruct (d !! k) as [[| n | x | s | t | n | l | items] |] eqn:Hk; try done.
  destruct (String.eqb k "created_at"), (String.eqb k "updated_at"); cbn; by rewrite ?Hk.
Qed.

Lemma from_storage_field_lookup k d d' k' :
  from_storage_field k d = Some d' ->
  d' !! k' =
  match d !! k' with
  | Some (VStr s) => if String.eqb k' k then VDatetime <$> fromisoformat s else d !! k'
  | o => o
  end.
Proof.
  unfold from_storage_field, dict_get.
  destruct (String.eqb_spec k' k) as [-> | Hne].
  - destruct (d !! k) as [[| n | x | s | t | n | l | items] |] eqn:Hk; cbn;
      try (intros [= <-]; by rewrite Hk).
    destruct (fromisoformat s); [| done]. intros [= <-]. by rewrite lookup_insert_eq.
  - destruct (d !! k) as [[| n | x | s | t | n | l | items] |] eqn:Hk; cbn;
      try (intros [= <-]; by destruct (d !! k') as [[] |]).
    destruct (fromisoformat s); [| done]. intros [= <-].
    rewrite lookup_insert_ne by done. by destruct (d !! k') as [[] |].
Qed.

(** Every key of the decoded dictionary: a string under one of the two
    timestamp keys becomes the datetime it parses to, everything else is as it
    was. *)
Lemma from_storage_lookup d d' k :
  from_storage d = Some d' ->
  d' !! k =
  match d !! k with
  | Some (VStr s) => if timestamp_key k then VDatetime <$> fromisoformat s else d !! k
  | o => o
  end.
Proof.
  unfold from_storage, timestamp_key. intros Hd.
  destruct (from_storage_field "created_at" d) as [d1 |] eqn:H1; [| done]. cbn in Hd.
  rewrite (from_storage_field_lookup _ _ _ k Hd), (from_storage_field_lookup _ _ _ k H1).
  destruct (d !! k) as [[| n | x | s | t | n | l | items] |] eqn:Hk; try done.
  destruct (String.eqb k "created_at"), (String.eqb k "updated_at"); cbn; rewrite ?Hk; try done.
  all: by destruct (fromisoformat s).
Qed.

Lemma from_storage_to_storage d c u :
  d !! "created_at" = Some (VDatetime c) -> d !! "updated_at" = Some (VDatetime u) ->
  check_fields c = true -> check_fields u = true ->
  offset_kept (tzinfo c) = true -> offset_kept (tzinfo u) = true ->
  from_storage (to_storage d) = Some d.
Proof.
  intros Hc Hu Vc Vu Kc Ku. unfold from_storage, from_storage_field, dict_get.
  rewrite to_storage_lookup, Hc. cbn.
  rewrite (fromisoformat_isoformat c Vc Kc). cbn.
  rewrite lookup_insert_ne, to_storage_lookup, Hu by done. cbn.
  rewrite (fromisoformat_isoformat u Vu Ku). f_equal.
  apply map_eq. intros k.
  destruct (decide (k = "updated_at")) as [-> | Hk1]; [by rewrite lookup_insert_eq |].
  rewrite lookup_insert_ne by done.
  destruct (decide (k = "created_at")) as [-> | Hk2]; [by rewrite lookup_insert_eq |].
  rewrite lookup_insert_ne, to_storage_lookup by done.
  destruct (timestamp_key_cases k) as [[_ [? | ?]] | [-> _]]; try done.
  by destruct (d !! k) as [[] |].
Qed.

Lemma prepare_for_mongo_twice r w :
  (data ← prepare_for_mongo r; prepare_for_mongo data) w = prepare_for_mongo r w.
Proof.
  rewrite (bind_Ok _ _ _ _ _ (prepare_for_mongo_run r w)), !prepare_for_mongo_run.
  rewrite set_heap_set_heap, heap_set_heap, list_alter_alter_eq.
  f_equal. f_equal. apply alter_ext_at. intros y _. apply to_storage_idem.
Qed.

Lemma parse_from_mongo_twice r w :
  (item ← parse_from_mongo r; parse_from_mongo item) w = parse_from_mongo r w.
Proof.
  destruct (heap w !! r) as [d |] eqn:Hd.
  - pose proof (parse_from_mongo_run r w d Hd) as Hrun.
    destruct (from_storage_field "created_at" d) as [d1 |] eqn:H1;
      [| by rewrite (bind_Raise _ _ _ _ _ Hrun)].
    destruct (from_storage_field "updated_at" d1) as [d2 |] eqn:H2;
      [| by rewrite (bind_Raise _ _ _ _ _ Hrun)].
    rewrite (bind_Ok _ _ _ _ _ Hrun), Hrun.
    rewrite (parse_from_mongo_run r _ d2)
      by (rewrite heap_set_heap; apply list_lookup_insert_eq; by eapply lookup_lt_Some).
    assert (from_storage d2 = Some d2) as Hidem.
    { apply (from_storage_idem d). unfold from_storage. by rewrite H1. }
    unfold from_storage in Hidem.
    destruct (from_storage_field "created_at" d2) as [d3 |] eqn:H3; [| done].
    cbn in Hidem. rewrite Hidem.
    assert (d3 = d2) as ->.
    { pose proof (from_storage_field_not_str _ _ _ H1) as Hn1.
      rewrite <- (from_storage_field_get_ne "updated_at" "created_at" d1 d2) in Hn1 by done.
      unfold from_storage_field in H3.
      destruct (dict_get d2 "created_at"); by first [injection H3 | destruct Hn1]. }
    by rewrite set_heap_set_heap, heap_set_heap, list_insert_insert_eq.
  - by rewrite (bind_Ok _ _ _ _ _ (parse_from_mongo_dangling r w Hd)).
Qed.

(** C3. The normalizer is a lossless round trip on records whose [created_at]
    and [updated_at] are datetimes, naive, in UTC (as every timestamp of this
    service is) or at an offset of a second or more: encoding a dictionary for
    storage and decoding it again leaves the very same object with the very
    same contents (and the rest of the world untouched).  Either direction
    applied twice does what it does once; and in either direction every key
    that is absent, or holds a value already in the target form, keeps its
    value. *)
Theorem normalizer_round_trip :
  (forall w r d c u,
     heap w !! r = Some d ->
     d !! "created_at" = Some (VDatetime c) -> d !! "updated_at" = Some (VDatetime u) ->
     check_fields c = true -> check_fields u = true ->
     offset_kept (tzinfo c) = true -> offset_kept (tzinfo u) = true ->
     (data ← prepare_for_mongo r; parse_from_mongo data) w = Ok r w) /\
  (forall w r,
     (data ← prepare_for_mongo r; prepare_for_mongo data) w = prepare_for_mongo r w) /\
  (forall w r,
     (item ← parse_from_mongo r; parse_from_mongo item) w = parse_from_mongo r w) /\
  (forall w r d k,
     heap w !! r = Some d ->
     match d !! k with Some (VDatetime _) => False | _ => True end ->
     exists w', prepare_for_mongo r w = Ok r w' /\ contents w' r !! k = d !! k) /\
  (forall w r d k w',
     heap w !! r = Some d ->
     match d !! k with Some (VStr _) => False | _ => True end ->
     parse_from_mongo r w = Ok r w' -> contents w' r !! k = d !! k).
Proof.
  split; [| split; [| split; [| split]]].
  - intros w r d c u Hd Hc Hu Vc Vu Kc Ku.
    rewrite (bind_Ok _ _ _ _ _ (prepare_for_mongo_run r w)).
    rewrite (parse_from_mongo_run r _ (to_storage d))
      by (rewrite heap_set_heap, list_lookup_alter_eq, Hd; done).
    pose proof (from_storage_to_storage d c u Hc Hu Vc Vu Kc Ku) as Hrt.
    unfold from_storage in Hrt.
    destruct (from_storage_field "created_at" (to_storage d)) as [d1 |]; [| done].
    cbn in Hrt. rewrite Hrt, set_heap_set_heap, heap_set_heap.
    rewrite <- alter_const_insert, list_alter_alter_eq, alter_id_at, set_heap_same;
      [done |]. intros y Hy. cbn. congruence.
  - intros w r. apply prepare_for_mongo_twice.
  - intros w r. apply parse_from_mongo_twice.
  - intros w r d k Hd Hk. eexists. split; [apply prepare_for_mongo_run |].
    unfold contents. rewrite heap_set_heap, list_lookup_alter_eq, Hd. cbn.
    rewrite to_storage_lookup. by destruct (d !! k) as [[] |].
  - intros w r d k w' Hd Hk. rewrite (parse_from_mongo_run r w d Hd).
    destruct (from_storage_field "created_at" d) as [d1 |] eqn:H1; [| done].
    destruct (from_storage_field "updated_at" d1) as [d2 |] eqn:H2; [| done].
    intros [= <-]. unfold contents.
    rewrite heap_set_heap, list_lookup_insert_eq by by eapply lookup_lt_Some.
    cbn. rewrite (from_storage_lookup d d2 k) by (unfold from_storage; by rewrite H1).
    by destruct (d !! k) as [[] |].
Qed.

Lemma normalizer_round_trip_witness :
  (data ← prepare_for_mongo 0%nat; parse_from_mongo data) Demo.shop = Ok 0%nat Demo.shop.
Proof.
  apply (proj1 normalizer_round_trip Demo.shop 0%nat Demo.shirt_record
           (with_tz Demo.noon (Some 0)) (with_tz Demo.noon (Some 0)));
    vm_compute; reflexivity.
Defined.

(** ** Token service *)

Section TokenService.
Context `{Platform}.

Lemma check_fields_utc d : check_fields d = true -> check_fields (with_tz d (Some 0)) = true.
Proof.
  unfold check_fields. cbn [year month day hour minute second microsecond tzinfo with_tz].
  rewrite !andb_true_iff. intros [Hf _]. split; [exact Hf | reflexivity].
Qed.

Lemma datetime_now_utc_run w : datetime_now_utc w = Ok (utc_reading (ticks w)) (tick w).
Proof. done. Qed.

Lemma create_access_token_run (s : string) w :
  check_fields (utc_reading (ticks w)) = true ->
  year (utc_reading (ticks w)) <= 9998 ->
  create_access_token {[ "sub" := VStr s ]} w
  = Ok (issued_token s (timegm (utc_reading (ticks w)) + 86400)) (tick w).
Proof.
  intros Hok Hy. unfold create_access_token.
  rewrite (bind_Ok _ _ _ _ _ (datetime_now_utc_run w)).
  destruct (datetime_add_one_day _ Hok Hy) as (e & Hadd & He).
  unfold ACCESS_TOKEN_EXPIRE_MINUTES. rewrite Hadd.
  unfold jwt_encode. rewrite lookup_insert_eq, insert_insert_eq.
  assert (timegm e = timegm (utc_reading (ticks w)) + 86400) as ->.
  { unfold timegm. rewrite He. Z.div_mod_to_equations. lia. }
  rewrite bool_decide_eq_true_2.
  - done.
  - apply map_Forall_insert_2; [done |]. by apply map_Forall_singleton.
Qed.

Lemma verify_issued_token (s : string) expiry w :
  timestamp_us (utc_reading (ticks w)) < expiry * 1000000 ->
  verify_token (issued_token s expiry) w = Ok (VStr s) (tick w).
Proof.
  intros Hlive. unfold verify_token, try_except, jwt_decode, issued_token.
  cbn [alg payload signature existsb]. unfold ALGORITHM at 1 2.
  rewrite !String.eqb_refl. cbn [orb negb].
  rewrite (bind_Ok _ _ w (issued_claims s expiry) (tick w)).
  - unfold issued_claims, dict_get.
    rewrite lookup_insert_ne, lookup_singleton_eq by done. done.
  - rewrite (bind_Ok _ _ _ _ _ (datetime_now_utc_run w)).
    unfold issued_claims at 1. rewrite lookup_insert_eq.
    destruct (Z.leb_spec (expiry * 1000000) (timestamp_us (utc_reading (ticks w))));
      [lia | done].
Qed.

(** C1. Validating a token right after issuing it for a subject [s] returns
    [s]: when the clock reads a valid date before year 9999 at issuance and the
    reading taken at validation is still before the expiry (24 hours after the
    second of issuance), [verify_token(create_access_token({"sub": s}))] is
    [s], not a failure. *)
Theorem verify_token_create_access_token (s : string) (w : world) :
  check_fields (clock (ticks w)) = true ->
  year (clock (ticks w)) <= 9998 ->
  timestamp_us (utc_reading (S (ticks w)))
    < (timegm (utc_reading (ticks w)) + 86400) * 1000000 ->
  (t ← create_access_token {[ "sub" := VStr s ]}; verify_token t) w
  = Ok (VStr s) (tick (tick w)).
Proof.
  intros Hok Hy Hlive.
  rewrite (bind_Ok _ _ _ _ _
             (create_access_token_run s w (check_fields_utc _ Hok) Hy)).
  by apply verify_issued_token.
Qed.

End TokenService.

Lemma verify_token_create_access_token_witness :
  (t ← @create_access_token Demo.ticking {[ "sub" := VStr "admin" ]};
   @verify_token Demo.ticking t) Demo.empty_world
  = Ok (VStr "admin") (tick (tick Demo.empty_world)).
Proof.
  apply (@verify_token_create_access_token Demo.ticking "admin" Demo.empty_world);
    vm_compute; first [reflexivity | discriminate].
Defined.

Section TokenFailures.
Context `{Platform}.

(** [verify_token] in closed form. *)
Lemma verify_token_cases t w :
  verify_token t w =
  match t with
  | Garbled _ => Raise invalid_token w
  | Compact j =>
      if negb (signed_by_server j) then Raise invalid_token w
      else
        match payload j !! "exp" with
        | None => subject_of (payload j) (tick w)
        | Some (VInt e) =>
            if e * 1000000 <=? timestamp_us (utc_reading (ticks w))
            then Raise token_expired (tick w)
            else subject_of (payload j) (tick w)
        | Some _ => Raise invalid_token (tick w)
        end
  end.
Proof.
  unfold verify_token, try_except, jwt_decode, signed_by_server, subject_of.
  destruct t as [j | raw]; [| done].
  cbn [existsb]. rewrite orb_false_r.
  destruct (String.eqb (alg j) ALGORITHM); [| done]. cbn [negb andb].
  destruct (String.eqb (signature j) _); [| done]. cbn [negb].
  unfold mbind at 1, M_bind at 1.
  rewrite (bind_Ok _ _ _ _ _ (datetime_now_utc_run w)).
  destruct (payload j !! "exp") as [[| e | x | s | d | n | l | items] |]; try done.
  - destruct (e * 1000000 <=? timestamp_us (utc_reading (ticks w))); [done |].
    cbn. by destruct (is_None (dict_get (payload j) "sub")).
  - cbn. by destruct (is_None (dict_get (payload j) "sub")).
Qed.

(** C2 (amended). Whatever the credential, [verify_token] either returns a
    subject or raises a 401: never another exception, so never a server error.
    A garbled token, a token with a wrong algorithm or signature, a token whose
    [exp] is not an integer and a token without a subject all raise 401
    "Invalid token"; a token of the server whose expiry has passed raises 401
    "Token expired". *)
Theorem verify_token_unauthenticated :
  (forall t w e w',
     verify_token t w = Raise e w' ->
     (e = invalid_token \/ e = token_expired) /\
     status (response_of_exn e) = 401) /\
  (forall raw w, verify_token (Garbled raw) w = Raise invalid_token w) /\
  (forall j w,
     signed_by_server j = false -> verify_token (Compact j) w = Raise invalid_token w) /\
  (forall j w e,
     signed_by_server j = true -> payload j !! "exp" = Some (VInt e) ->
     e * 1000000 <= timestamp_us (utc_reading (ticks w)) ->
     verify_token (Compact j) w = Raise token_expired (tick w)) /\
  (forall j w,
     signed_by_server j = true ->
     match payload j !! "exp" with
     | None => True
     | Some (VInt e) => timestamp_us (utc_reading (ticks w)) < e * 1000000
     | Some _ => False
     end ->
     dict_get (payload j) "sub" = VNone ->
     verify_token (Compact j) w = Raise invalid_token (tick w)).
Proof.
  split; [| split; [| split; [| split]]].
  - intros t w e w'. rewrite verify_token_cases. unfold subject_of.
    destruct t as [j | raw]; [| intros [= <- _]; auto].
    destruct (negb (signed_by_server j)); [intros [= <- _]; auto |].
    destruct (payload j !! "exp") as [[| n | x | s | d | n | l | items] |];
      try (intros [= <- _]; by auto);
      repeat match goal with
             | |- context [if ?b then _ else _] => destruct b
             end;
      by (intros [= <- _]; auto).
  - intros raw w. by rewrite verify_token_cases.
  - intros j w Hs. by rewrite verify_token_cases, Hs.
  - intros j w e Hs He Hle. rewrite verify_token_cases, Hs, He. cbn [negb].
    by destruct (Z.leb_spec (e * 1000000) (timestamp_us (utc_reading (ticks w)))); [| lia].
  - intros j w Hs He Hsub. rewrite verify_token_cases, Hs. cbn [negb].
    unfold subject_of. rewrite Hsub. cbn [is_None].
    destruct (payload j !! "exp") as [[| e | x | s | d | n | l | items] |]; try done.
    by destruct (Z.leb_spec (e * 1000000) (timestamp_us (utc_reading (ticks w)))); [lia |].
Qed.

End TokenFailures.

(** C2, as stated, fails: an expired token and a tampered one are both answered
    with status 401, but with different bodies. *)
Lemma verify_token_detail_tells_expired_from_tampered :
  exists e1 e2 w1 w2,
    @verify_token Demo.frozen (@issued_token Demo.frozen "admin" 0) Demo.empty_world
      = Raise e1 w1 /\
    @verify_token Demo.frozen
       (Compact (mk_jws ALGORITHM (issued_claims "admin" 0) "forged")) Demo.empty_world
      = Raise e2 w2 /\
    response_of_exn e1 <> response_of_exn e2.
Proof.
  eexists _, _, _, _. split; [| split].
  - vm_compute. reflexivity.
  - vm_compute. reflexivity.
  - discriminate.
Qed.

Lemma verify_token_unauthenticated_witness :
  @verify_token Demo.frozen (@issued_token Demo.frozen "admin" 0) Demo.empty_world
  = Raise token_expired (tick Demo.empty_world).
Proof.
  apply (proj1 (proj2 (proj2 (proj2 (@verify_token_unauthenticated Demo.frozen))))
           (mk_jws ALGORITHM (issued_claims "admin" 0)
                   (@hmac_sha256 Demo.frozen (@SECRET_KEY Demo.frozen) ALGORITHM
                                 (issued_claims "admin" 0)))
           Demo.empty_world 0);
    vm_compute; congruence.
Defined.

(** ** The document store *)

Lemma new_dict_run d w :
  new_dict d w = Ok (length (heap w)) (set_heap (heap w ++ [d]) w).
Proof. done. Qed.

Lemma lookup_new (h : list dict) d : (h ++ [d])%list !! length h = Some d.
Proof. by apply list_lookup_middle. Qed.

Lemma find_one_run c k s no_id w :
  find_one c k s no_id w =
  match list_find (fun doc => matches k s doc) (docs c w) with
  | Some (_, doc) =>
      Ok (Some (length (heap w))) (set_heap (heap w ++ [project no_id doc]) w)
  | None => Ok None w
  end.
Proof.
  unfold find_one, read_docs, mbind, M_bind.
  by destruct (list_find _ (docs c w)) as [[i doc] |].
Qed.

Lemma matches_is_Some k s (doc : dict) : matches k s doc = true -> is_Some (doc !! k).
Proof. unfold matches. destruct (doc !! k); [eauto | done]. Qed.

Lemma size_nonzero (d : dict) k : is_Some (d !! k) -> (size d =? 0)%nat = false.
Proof.
  intros [v Hv]. apply Nat.eqb_neq. intros Hz.
  apply map_size_empty_iff in Hz. subst d. by rewrite lookup_empty in Hv.
Qed.

(** A projected match is a non-empty dict: it still has the field it matched
    on. *)
Lemma projected_match_nonempty k s no_id (doc : dict) :
  k <> "_id" -> matches k s doc = true -> (size (project no_id doc) =? 0)%nat = false.
Proof.
  intros Hk Hm. apply (size_nonzero _ k). destruct no_id; cbn.
  - rewrite lookup_delete_ne by done. by eapply matches_is_Some.
  - by eapply matches_is_Some.
Qed.

Lemma list_find_matches k s (l : list dict) i doc :
  list_find (fun doc => matches k s doc) l = Some (i, doc) -> matches k s doc = true.
Proof. intros Hf. apply list_find_Some in Hf as (_ & Hm & _). by apply Is_true_true. Qed.

Lemma not_found_run r w : not_found (Some r) w = Ok (size (contents w r) =? 0)%nat w.
Proof. done. Qed.

Lemma contents_new h d w : contents (set_heap (h ++ [d]) w) (length h) = d.
Proof. unfold contents. by rewrite heap_set_heap, lookup_new. Qed.

(** ** Reading one product: the decode can fail *)

Lemma get_product_run product_id w :
  get_product product_id w =
  match list_find (fun doc => matches "id" product_id doc) (products w) with
  | Some (_, doc) =>
      parse_from_mongo (length (heap w)) (set_heap (heap w ++ [delete "_id" doc]) w)
  | None => Raise (HTTPException 404 "Product not found") w
  end.
Proof.
  unfold get_product.
  pose proof (find_one_run db_products "id" product_id true w) as Hfo. cbn [docs] in Hfo.
  destruct (list_find _ (products w)) as [[i doc] |] eqn:Hfind.
  - rewrite (bind_Ok _ _ _ _ _ Hfo), (bind_Ok _ _ _ _ _ (not_found_run _ _)).
    rewrite contents_new.
    by rewrite (projected_match_nonempty "id" product_id true doc)
      by (done || by eapply list_find_matches).
  - by rewrite (bind_Ok _ _ _ _ _ Hfo).
Qed.

(** C10. The storage-to-record direction is partial: a stored timestamp that is
    a string but not an ISO timestamp (such strings exist, "yesterday" is one)
    makes [parse_from_mongo] raise ValueError instead of returning, whether it
    sits under [created_at] or, with [created_at] fine, under [updated_at]; and
    reading such a product with [get_product] lets that exception out of the
    handler, which the framework answers with a 500. *)
Theorem parse_from_mongo_partial :
  fromisoformat "yesterday" = None /\
  (forall w r d s,
     heap w !! r = Some d -> d !! "created_at" = Some (VStr s) ->
     fromisoformat s = None ->
     parse_from_mongo r w = Raise (ValueError "Invalid isoformat string") w) /\
  (forall w r d s,
     heap w !! r = Some d ->
     match d !! "created_at" with
     | Some (VStr c) => is_Some (fromisoformat c)
     | _ => True
     end ->
     d !! "updated_at" = Some (VStr s) -> fromisoformat s = None ->
     exists w', parse_from_mongo r w = Raise (ValueError "Invalid isoformat string") w') /\
  (forall product_id w i doc s,
     list_find (fun doc => matches "id" product_id doc) (products w) = Some (i, doc) ->
     doc !! "created_at" = Some (VStr s) -> fromisoformat s = None ->
     exists w',
       get_product product_id w = Raise (ValueError "Invalid isoformat string") w' /\
       status (response_of_exn (ValueError "Invalid isoformat string")) = 500).
Proof.
  split; [by vm_compute | split; [| split]].
  - intros w r d s Hd Hc Hs. rewrite (parse_from_mongo_run r w d Hd).
    unfold from_storage_field, dict_get. rewrite Hc. cbn. by rewrite Hs.
  - intros w r d s Hd Hc Hu Hs. rewrite (parse_from_mongo_run r w d Hd).
    destruct (from_storage_field "created_at" d) as [d1 |] eqn:H1.
    + assert (from_storage_field "updated_at" d1 = None) as ->; [| by eexists].
      unfold from_storage_field, dict_get.
      rewrite (from_storage_field_lookup _ _ _ "updated_at" H1), Hu. cbn. by rewrite Hs.
    + exfalso. unfold from_storage_field, dict_get in H1.
      destruct (d !! "created_at") as [[| n | x | c | t | n | l | items] |]; try done.
      cbn in H1. destruct Hc as [t Ht]. by rewrite Ht in H1.
  - intros product_id w i doc s Hfind Hc Hs. rewrite get_product_run, Hfind.
    eexists. split; [| done].
    rewrite (parse_from_mongo_run _ _ (delete "_id" doc))
      by (rewrite heap_set_heap; apply lookup_new).
    unfold from_storage_field, dict_get.
    rewrite lookup_delete_ne, Hc by done. cbn. by rewrite Hs.
Qed.

Lemma parse_from_mongo_partial_witness :
  exists w',
    get_product "p1" Demo.corrupted_shop
      = Raise (ValueError "Invalid isoformat string") w' /\
    status (response_of_exn (ValueError "Invalid isoformat string")) = 500.
Proof.
  apply (proj2 (proj2 (proj2 parse_from_mongo_partial))
           "p1" Demo.corrupted_shop 0%nat Demo.corrupted_shirt "yesterday");
    vm_compute; reflexivity.
Defined.

(** ** Deleting a product *)

Lemma delete_one_run c k s w :
  delete_one c k s w =
  match list_find (fun doc => matches k s doc) (docs c w) with
  | Some (i, _) => Ok 1%nat (set_docs c (delete i (docs c w)) w)
  | None => Ok 0%nat w
  end.
Proof.
  unfold delete_one, read_docs, mbind, M_bind.
  by destruct (list_find _ (docs c w)) as [[i doc] |].
Qed.

(** C9. [delete_product] succeeds exactly when a stored document matches the
    id: then the first match, and nothing else, is removed from the store;
    when no document matches it raises 404 "Product not found" and leaves the
    store as it was. *)
Theorem delete_product_found_or_404 (product_id : string) (username : value) (w : world) :
  (exists i doc,
     products w !! i = Some doc /\ matches "id" product_id doc = true /\
     (forall j other, products w !! j = Some other -> (j < i)%nat ->
                      matches "id" product_id other = false) /\
     delete_product product_id username w
       = Ok "Product deleted successfully"
            (set_docs db_products (delete i (products w)) w)) \/
  (Forall (fun doc => matches "id" product_id doc = false) (products w) /\
   delete_product product_id username w
     = Raise (HTTPException 404 "Product not found") w).
Proof.
  unfold delete_product.
  pose proof (delete_one_run db_products "id" product_id w) as Hrun. cbn [docs] in Hrun.
  destruct (list_find _ (products w)) as [[i doc] |] eqn:Hfind.
  - left. exists i, doc. apply list_find_Some in Hfind as (Hi & Hm & Hfirst).
    repeat split; [done | by apply Is_true_true | | by rewrite (bind_Ok _ _ _ _ _ Hrun)].
    intros j other Hj Hlt. specialize (Hfirst j other Hj Hlt).
    by destruct (matches "id" product_id other).
  - right. split; [| by rewrite (bind_Ok _ _ _ _ _ Hrun)].
    apply list_find_None in Hfind. eapply Forall_impl; [exact Hfind |].
    intros doc Hn. cbn in Hn. by destruct (matches "id" product_id doc).
Qed.

(** ** Password hasher *)

Section Hasher.
Context `{Platform}.

(** C8 (amended). On a hash string the bcrypt scheme does not identify, and on
    one it identifies but cannot parse, [verify_password] raises the library's
    ValueError for every plaintext; it returns only for a well-formed hash, and
    then the result is the comparison of the recomputed digest with the stored
    one.  It never changes the world. *)
Theorem verify_password_malformed_raises :
  (forall p h w,
     bcrypt_identify h = false ->
     verify_password p h w = Raise (ValueError "hash could not be identified") w) /\
  (forall p h w,
     bcrypt_identify h = true -> bcrypt_from_string h = None ->
     verify_password p h w = Raise (ValueError "malformed bcrypt hash") w) /\
  (forall p h w b w',
     verify_password p h w = Ok b w' ->
     w' = w /\
     exists config salt chk,
       bcrypt_from_string h = Some (config, salt, chk) /\
       b = String.eqb (bcrypt_digest config salt p) chk).
Proof.
  unfold verify_password. split; [| split].
  - intros p h w Hid. by rewrite Hid.
  - intros p h w Hid Hparse. by rewrite Hid, Hparse.
  - intros p h w b w'. destruct (bcrypt_identify h); [| done]. cbn [negb].
    destruct (bcrypt_from_string h) as [[[config salt] chk] |]; [| done].
    intros [= <- <-]. split; [done |]. by exists config, salt, chk.
Qed.

End Hasher.

(** C8, as stated, fails: on a string that is no bcrypt hash, verification
    raises instead of answering false. *)
Lemma verify_password_raises_on_unidentified_hash :
  @verify_password Demo.frozen "s3cret" "not-a-hash" Demo.empty_world
    = Raise (ValueError "hash could not be identified") Demo.empty_world /\
  @verify_password Demo.frozen "s3cret" "not-a-hash" Demo.empty_world
    <> Ok false Demo.empty_world.
Proof. split; [by vm_compute | discriminate]. Qed.

Lemma verify_password_malformed_raises_witness :
  @verify_password Demo.frozen "s3cret" "$2b$12$tooshort" Demo.empty_world
  = Raise (ValueError "malformed bcrypt hash") Demo.empty_world.
Proof.
  apply (proj1 (proj2 (@verify_password_malformed_raises Demo.frozen)));
    vm_compute; reflexivity.
Defined.

(** ** Creating a product *)

Lemma alter_new (f : dict -> dict) (h : list dict) d :
  alter f (length h) (h ++ [d])%list = (h ++ [f d])%list.
Proof.
  rewrite <- (Nat.add_0_r (length h)) at 1. by rewrite alter_app_r.
Qed.

Lemma insert_new (h : list dict) d d' :
  <[length h := d']> (h ++ [d])%list = (h ++ [d'])%list.
Proof.
  rewrite <- (Nat.add_0_r (length h)) at 1. by rewrite insert_app_r.
Qed.

(** [insert_one] on a dict without [_id]: the driver writes a fresh ObjectId
    into the caller's dict and stores the result. *)
Lemma insert_one_run c r w d :
  heap w !! r = Some d -> d !! "_id" = None ->
  insert_one c r w =
  let d' := <["_id" := VObjectId (oids w)]> d in
  Ok tt (set_docs c (docs c w ++ [d'])
           (mk_world (<[r := d']> (heap w)) (products w) (admins w)
                     (S (oids w)) (ticks w) (draws w))).
Proof.
  intros Hd Hid. unfold insert_one.
  rewrite (bind_Ok _ _ w d w) by (unfold load; by rewrite Hd).
  rewrite Hid.
  set (d' := <["_id" := VObjectId (oids w)]> d).
  set (w1 := mk_world (<[r := d']> (heap w)) (products w) (admins w)
                      (S (oids w)) (ticks w) (draws w)).
  rewrite (bind_Ok _ _ w tt w1).
  - rewrite (bind_Ok _ _ w1 d' w1).
    + by destruct c.
    + unfold load. subst w1. cbn [heap].
      rewrite list_lookup_insert_eq by by eapply lookup_lt_Some. done.
  - unfold fresh_oid, setitem, mbind, M_bind. cbn. subst w1 d'. f_equal.
    unfold set_heap. cbn. f_equal.
    rewrite <- alter_const_insert. apply alter_ext_at. intros y Hy. congruence.
Qed.

Section Create.
Context `{Platform}.

Lemma Product_new_run product_data w :
  Product_new product_data w
  = Ok (created product_data w)
       (mk_world (heap w) (products w) (admins w) (oids w)
                 (S (S (ticks w))) (S (draws w))).
Proof. done. Qed.

Lemma create_product_run product_data username w :
  create_product product_data username w
  = let p := created product_data w in
    Ok p (mk_world (heap w ++ [stored_form p (oids w)])
                   (products w ++ [stored_form p (oids w)]) (admins w)
                   (S (oids w)) (S (S (ticks w))) (S (draws w))).
Proof.
  unfold create_product.
  rewrite (bind_Ok _ _ _ _ _ (Product_new_run product_data w)).
  set (p := created product_data w).
  rewrite (bind_Ok _ _ _ _ _ (new_dict_run _ _)).
  rewrite (bind_Ok _ _ _ _ _ (prepare_for_mongo_run _ _)).
  cbn [heap set_heap]. rewrite alter_new.
  erewrite (bind_Ok _ _ _ tt); [reflexivity |].
  rewrite (insert_one_run _ _ _ (to_storage (Product.model_dump p))).
  - cbn. by rewrite insert_new.
  - cbn [heap]. apply lookup_new.
  - rewrite to_storage_lookup. unfold Product.model_dump.
    by rewrite !lookup_insert_ne, lookup_singleton_ne by done.
Qed.

(** C4 (amended). [create_product] generates the id (the next uuid4) and both
    timestamps itself: [created_at] is one reading of the clock and
    [updated_at] the next one, so they are equal exactly when the clock
    returns the same reading twice.  The record is returned with the request's
    fields, and one document is appended to the store: its dump, with the two
    timestamps as their ISO strings and the driver's [_id]. *)
Theorem create_product_generates_id_and_timestamps
    (product_data : ProductCreate.t) (username : value) (w : world) :
  exists p w' doc,
    create_product product_data username w = Ok p w' /\
    Product.id p = uuid4_source (draws w) /\
    Product.created_at p = utc_reading (ticks w) /\
    Product.updated_at p = utc_reading (S (ticks w)) /\
    Product.name p = ProductCreate.name product_data /\
    Product.price p = ProductCreate.price product_data /\
    Product.description p = ProductCreate.description product_data /\
    Product.images p = ProductCreate.images product_data /\
    Product.variants p = ProductCreate.variants product_data /\
    products w' = (products w ++ [doc])%list /\
    doc !! "id" = Some (VStr (Product.id p)) /\
    doc !! "created_at" = Some (VStr (isoformat (Product.created_at p))) /\
    doc !! "updated_at" = Some (VStr (isoformat (Product.updated_at p))) /\
    doc !! "name" = Some (VStr (Product.name p)) /\
    doc !! "price" = Some (VFloat (Product.price p)) /\
    doc !! "_id" = Some (VObjectId (oids w)).
Proof.
  eexists _, _, _. split; [apply create_product_run |].
  cbn [Product.id Product.created_at Product.updated_at Product.name Product.price
       Product.description Product.images Product.variants created products].
  repeat split; unfold stored_form;
    rewrite ?lookup_insert_eq, ?lookup_insert_ne by done;
    try rewrite to_storage_lookup; unfold Product.model_dump;
    rewrite ?lookup_insert_eq, ?lookup_insert_ne by done;
    try rewrite lookup_insert_eq; done.
Qed.

End Create.

(** C4, as stated, fails: the two timestamps are two reads of the clock, and
    when the clock moves between them they differ. *)
Lemma create_product_timestamps_differ :
  exists p w',
    @create_product Demo.ticking Demo.shirt (VStr "admin") Demo.empty_world = Ok p w' /\
    Product.created_at p <> Product.updated_at p.
Proof.
  eexists _, _. split; [apply create_product_run |]. cbn. discriminate.
Qed.

(** ** Bootstrap and login *)

Section Bootstrap.
Context `{Platform}.

Lemma hash_password_run p w :
  hash_password p w
  = Ok (hashed p (draws w))
       (mk_world (heap w) (products w) (admins w) (oids w) (ticks w) (S (draws w))).
Proof. done. Qed.








End Bootstrap.


(** ** Listing the products *)

Lemma mapM_new_dict (f : dict -> dict) (l : list dict) w :
  mapM (fun doc => new_dict (f doc)) l w
  = Ok (seq (length (heap w)) (length l)) (set_heap (heap w ++ map f l) w).
Proof.
  revert w. induction l as [| d l IH]; intros w.
  - cbn. by rewrite app_nil_r, set_heap_same.
  - change (mapM (fun doc => new_dict (f doc)) (d :: l))
      with (y ← new_dict (f d); k ← mapM (fun doc => new_dict (f doc)) l; mret (y :: k)).
    rewrite (bind_Ok _ _ _ _ _ (new_dict_run _ _)).
    rewrite (bind_Ok _ _ _ _ _ (IH _)).
    cbn [heap set_heap map length seq]. unfold mret, M_ret. f_equal.
    + by rewrite length_app, Nat.add_1_r.
    + unfold set_heap. cbn. by rewrite <- app_assoc.
Qed.

Lemma find_to_list_run c no_id limit w :
  find_to_list c no_id limit w
  = let found := take limit (docs c w) in
    Ok (seq (length (heap w)) (length found))
       (set_heap (heap w ++ map (project no_id) found) w).
Proof.
  unfold find_to_list. rewrite (bind_Ok _ _ w (docs c w) w) by done.
  apply mapM_new_dict.
Qed.

(** The loop over the fresh dicts: each is decoded in place. *)
Lemma for_each_parse_ok (ds ds' pre post : list dict) w :
  heap w = (pre ++ ds ++ post)%list ->
  mapM from_storage ds = Some ds' ->
  for_each (seq (length pre) (length ds))
           (fun product => _ ← parse_from_mongo product; mret tt) w
  = Ok tt (set_heap (pre ++ ds' ++ post) w).
Proof.
  revert ds' pre w. induction ds as [| d ds IH]; intros ds' pre w Hheap Hall.
  - injection Hall as <-. cbn in Hheap |- *. unfold mret, M_ret.
    by rewrite <- Hheap, set_heap_same.
  - cbn in Hall. destruct (from_storage d) as [d' |] eqn:Hd; [| done]. cbn in Hall.
    destruct (mapM from_storage ds) as [ds1 |] eqn:Hrest; [| done].
    injection Hall as <-.
    cbn [length seq for_each].
    assert (heap w !! length pre = Some d) as Hlook.
    { rewrite Hheap. by apply list_lookup_middle. }
    pose proof (parse_from_mongo_run (length pre) w d Hlook) as Hrun.
    unfold from_storage in Hd.
    destruct (from_storage_field "created_at" d) as [d1 |]; [| done]. cbn in Hd.
    rewrite Hd in Hrun.
    rewrite (bind_Ok _ _ w tt (set_heap (<[length pre := d']> (heap w)) w))
      by by rewrite (bind_Ok _ _ _ _ _ Hrun).
    assert (<[length pre := d']> (heap w) = ((pre ++ [d']) ++ ds ++ post)%list) as Hnew.
    { rewrite Hheap. rewrite <- (Nat.add_0_r (length pre)) at 1.
      rewrite insert_app_r. cbn. by rewrite <- app_assoc. }
    replace (S (length pre)) with (length (pre ++ [d'])%list)
      by (rewrite length_app; cbn; lia).
    rewrite (IH ds1 (pre ++ [d'])%list _) by (by rewrite ?heap_set_heap).
    rewrite set_heap_set_heap. by rewrite <- app_assoc.
Qed.

Lemma for_each_parse_fails (ds pre post : list dict) w :
  heap w = (pre ++ ds ++ post)%list ->
  mapM from_storage ds = None ->
  exists h,
    for_each (seq (length pre) (length ds))
             (fun product => _ ← parse_from_mongo product; mret tt) w
    = Raise (ValueError "Invalid isoformat string") (set_heap h w).
Proof.
  revert pre w. induction ds as [| d ds IH]; intros pre w Hheap Hall; [done |].
  cbn [length seq for_each].
  assert (heap w !! length pre = Some d) as Hlook.
  { rewrite Hheap. by apply list_lookup_middle. }
  pose proof (parse_from_mongo_run (length pre) w d Hlook) as Hrun.
  cbn in Hall. destruct (from_storage d) as [d' |] eqn:Hd.
  - cbn in Hall. destruct (mapM from_storage ds) as [ds1 |] eqn:Hrest; [done |].
    unfold from_storage in Hd.
    destruct (from_storage_field "created_at" d) as [d1 |]; [| done]. cbn in Hd.
    rewrite Hd in Hrun.
    rewrite (bind_Ok _ _ w tt (set_heap (<[length pre := d']> (heap w)) w))
      by by rewrite (bind_Ok _ _ _ _ _ Hrun).
    assert (<[length pre := d']> (heap w) = ((pre ++ [d']) ++ ds ++ post)%list) as Hnew.
    { rewrite Hheap. rewrite <- (Nat.add_0_r (length pre)) at 1.
      rewrite insert_app_r. cbn. by rewrite <- app_assoc. }
    replace (S (length pre)) with (length (pre ++ [d'])%list)
      by (rewrite length_app; cbn; lia).
    destruct (IH (pre ++ [d'])%list (set_heap (<[length pre := d']> (heap w)) w))
      as [h Hh]; [done | done |].
    exists h. by rewrite Hh.
  - unfold from_storage in Hd.
    destruct (from_storage_field "created_at" d) as [d1 |].
    + cbn in Hd. rewrite Hd in Hrun. exists (<[length pre := d1]> (heap w)).
      rewrite (bind_Raise _ _ w (ValueError "Invalid isoformat string")
                 (set_heap (<[length pre := d1]> (heap w)) w)); [done |].
      by rewrite (bind_Raise _ _ _ _ _ Hrun).
    + exists (heap w). rewrite set_heap_same.
      rewrite (bind_Raise _ _ w (ValueError "Invalid isoformat string") w); [done |].
      by rewrite (bind_Raise _ _ _ _ _ Hrun).
Qed.

Lemma mapM_normalized (l : list dict) :
  mapM normalized l = mapM from_storage (map (project true) l).
Proof.
  induction l as [| d l IH]; [done |].
  change (mapM normalized (d :: l))
    with (y ← normalized d; k ← mapM normalized l; mret (y :: k)).
  change (mapM from_storage (map (project true) (d :: l)))
    with (y ← from_storage (project true d);
          k ← mapM from_storage (map (project true) l); mret (y :: k)).
  by rewrite IH.
Qed.

Lemma contents_of_new (h l : list dict) w :
  map (contents (set_heap (h ++ l) w)) (seq (length h) (length l)) = l.
Proof.
  unfold contents. cbn [heap set_heap].
  revert h. induction l as [| d l IH]; intros h; [done |].
  cbn [length seq map]. f_equal.
  - by rewrite list_lookup_middle.
  - specialize (IH (h ++ [d])%list).
    rewrite length_app, Nat.add_1_r, <- app_assoc in IH. exact IH.
Qed.

Lemma get_all_products_run w :
  match mapM normalized (take 1000 (products w)) with
  | Some records =>
      get_all_products w
      = Ok (seq (length (heap w)) (length records)) (set_heap (heap w ++ records) w)
  | None =>
      exists h,
        get_all_products w = Raise (ValueError "Invalid isoformat string") (set_heap h w)
  end.
Proof.
  unfold get_all_products.
  pose proof (find_to_list_run db_products true 1000 w) as Hfind.
  cbv zeta in Hfind. cbn [docs] in Hfind.
  rewrite mapM_normalized.
  set (found := take 1000 (products w)) in *.
  set (w1 := set_heap (heap w ++ map (project true) found) w) in *.
  assert (heap w1 = (heap w ++ map (project true) found ++ [])%list) as Hheap
    by (by rewrite app_nil_r).
  destruct (mapM from_storage (map (project true) found)) as [records |] eqn:Hall.
  - rewrite (bind_Ok _ _ _ _ _ Hfind).
    pose proof (for_each_parse_ok _ _ _ _ w1 Hheap Hall) as Hloop.
    rewrite length_map in Hloop. rewrite (bind_Ok _ _ _ _ _ Hloop).
    unfold mret, M_ret. rewrite app_nil_r.
    apply length_mapM in Hall. rewrite length_map in Hall. by rewrite Hall.
  - destruct (for_each_parse_fails _ _ _ w1 Hheap Hall) as [h Hloop].
    rewrite length_map in Hloop. exists h.
    rewrite (bind_Ok _ _ _ _ _ Hfind). by rewrite (bind_Raise _ _ _ _ _ Hloop).
Qed.

(** The listing on any store: it reads the first 1000 stored products at
    most, in the store's order.  When the timestamps of those documents decode,
    it returns one record per document, in that order, each the document
    without [_id] passed through the normalizer; when one of them does not, the
    ValueError leaves the handler.  The store is not changed, and the admin
    listing is the same function. *)
Theorem get_all_products_first_1000 (w : world) :
  match mapM normalized (take 1000 (products w)) with
  | Some records =>
      exists refs w',
        get_all_products w = Ok refs w' /\
        map (contents w') refs = records /\
        Forall2 (fun doc r => normalized doc = Some (contents w' r))
                (take 1000 (products w)) refs /\
        length refs = Nat.min 1000 (length (products w)) /\
        products w' = products w /\ admins w' = admins w
  | None =>
      exists w',
        get_all_products w = Raise (ValueError "Invalid isoformat string") w' /\
        products w' = products w /\ admins w' = admins w
  end /\
  (forall username, get_admin_products username w = get_all_products w).
Proof.
  split; [| done].
  pose proof (get_all_products_run w) as Hrun.
  destruct (mapM normalized (take 1000 (products w))) as [records |] eqn:Hall.
  - eexists _, _. split; [exact Hrun |].
    assert (map (contents (set_heap (heap w ++ records) w))
                (seq (length (heap w)) (length records)) = records) as Hc
      by apply contents_of_new.
    split; [exact Hc |]. split; [| split; [| done]].
    + apply mapM_Some_1 in Hall. rewrite <- Hc in Hall at 1.
      by rewrite Forall2_fmap_r in Hall.
    + rewrite length_seq, <- (length_mapM _ _ _ Hall), length_take. lia.
  - destruct Hrun as [h Hrun]. by eexists.
Qed.

Lemma crowded_products_decode :
  Forall (is_Some ∘ normalized) (products Demo.crowded).
Proof.
  unfold Demo.crowded. cbn [products]. apply Forall_forall. intros doc Hin.
  apply list_elem_of_In, in_map_iff in Hin as (i & <- & _).
  vm_compute. eauto.
Qed.

(** Of 1001 stored products the listing returns 1000. *)
Lemma get_all_products_stops_at_1000 :
  exists refs w',
    get_all_products Demo.crowded = Ok refs w' /\
    length (products Demo.crowded) = 1001%nat /\ length refs = 1000%nat.
Proof.
  assert (length (products Demo.crowded) = 1001%nat) as Hlen
    by (unfold Demo.crowded; cbn [products]; by rewrite length_map, length_seq).
  pose proof (get_all_products_run Demo.crowded) as Hrun.
  destruct (mapM normalized (take 1000 (products Demo.crowded))) as [records |] eqn:Hall.
  - eexists _, _. split; [exact Hrun |]. split; [exact Hlen |].
    rewrite length_seq, <- (length_mapM _ _ _ Hall), length_take, Hlen. done.
  - exfalso. assert (is_Some (mapM normalized (take 1000 (products Demo.crowded)))) as Hs
      by (apply mapM_is_Some_2, Forall_take, crowded_products_decode).
    rewrite Hall in Hs. by destruct Hs.
Qed.

(** C6 (amended). On a store of at most 1000 products whose timestamps all
    decode, the listing returns every stored product: one record per
    document, in the store's order, each the document without [_id] passed
    through the normalizer.  When a stored timestamp is a string that does not
    decode, the ValueError of the decoder leaves the handler and nothing is
    returned.  In both cases the store is not changed, and the admin listing
    is the same function. *)
Theorem get_all_products_every_product (w : world) :
  (length (products w) <= 1000)%nat ->
  match mapM normalized (products w) with
  | Some records =>
      exists refs w',
        get_all_products w = Ok refs w' /\
        map (contents w') refs = records /\
        Forall2 (fun doc r => normalized doc = Some (contents w' r)) (products w) refs /\
        length refs = length (products w) /\
        products w' = products w /\ admins w' = admins w
  | None =>
      exists w',
        get_all_products w = Raise (ValueError "Invalid isoformat string") w' /\
        products w' = products w /\ admins w' = admins w
  end /\
  (forall username, get_admin_products username w = get_all_products w).
Proof.
  intros Hlen. split; [| done].
  pose proof (get_all_products_run w) as Hrun.
  rewrite take_ge in Hrun by lia.
  destruct (mapM normalized (products w)) as [records |] eqn:Hall.
  - eexists _, _. split; [exact Hrun |].
    assert (map (contents (set_heap (heap w ++ records) w))
                (seq (length (heap w)) (length records)) = records) as Hc
      by apply contents_of_new.
    split; [exact Hc |]. split; [| split; [| done]].
    + apply mapM_Some_1 in Hall. rewrite <- Hc in Hall at 1.
      by rewrite Forall2_fmap_r in Hall.
    + by rewrite length_seq, <- (length_mapM _ _ _ Hall).
  - destruct Hrun as [h Hrun]. by eexists.
Qed.

Lemma get_all_products_every_product_witness :
  exists refs w',
    get_all_products Demo.shop = Ok refs w' /\
    length refs = length (products Demo.shop).
Proof.
  assert (length (products Demo.shop) <= 1000)%nat as Hlen by (vm_compute; lia).
  destruct (get_all_products_every_product Demo.shop Hlen) as [Hlist _].
  destruct (mapM normalized (products Demo.shop)) as [records |] eqn:Hall.
  - destruct Hlist as (refs & w' & Hrun & _ & _ & Hrefs & _).
    exists refs, w'. split; [exact Hrun | exact Hrefs].
  - vm_compute in Hall. discriminate Hall.
Defined.

(** C6, as stated, fails: a store whose one product has a timestamp that does
    not decode is answered with the decoder's ValueError instead of a listing,
    and of 1001 stored products the listing returns 1000. *)
Lemma get_all_products_not_every_product :
  (products Demo.corrupted_shop = [Demo.corrupted_shirt] /\
   exists w',
     get_all_products Demo.corrupted_shop
     = Raise (ValueError "Invalid isoformat string") w') /\
  (exists refs w',
     get_all_products Demo.crowded = Ok refs w' /\
     length (products Demo.crowded) = 1001%nat /\ length refs = 1000%nat).
Proof.
  split; [| exact get_all_products_stops_at_1000].
  split; [reflexivity |].
  pose proof (get_all_products_run Demo.corrupted_shop) as Hrun.
  assert (mapM normalized (take 1000 (products Demo.corrupted_shop)) = None) as Hall
    by (vm_compute; reflexivity).
  rewrite Hall in Hrun. destruct Hrun as [h Hrun]. by eexists.
Qed.

(** ** Updating a product *)

Lemma supplied_lookup u k :
  supplied u !! k =
  match ProductUpdate.model_dump u !! k with
  | Some v => if is_None v then None else Some v
  | None => None
  end.
Proof.
  unfold supplied. rewrite map_lookup_filter.
  destruct (ProductUpdate.model_dump u !! k) as [v |]; [| done]. cbn.
  by destruct v.
Qed.

Lemma model_dump_update_keys u k :
  k <> "name" -> k <> "price" -> k <> "description" -> k <> "images" ->
  k <> "variants" -> ProductUpdate.model_dump u !! k = None.
Proof.
  intros. unfold ProductUpdate.model_dump.
  by rewrite !lookup_insert_ne, lookup_singleton_ne by done.
Qed.

Lemma supplied_other u k :
  k <> "name" -> k <> "price" -> k <> "description" -> k <> "images" ->
  k <> "variants" -> supplied u !! k = None.
Proof. intros. by rewrite supplied_lookup, model_dump_update_keys. Qed.

Lemma supplied_no_datetime u k t : supplied u !! k <> Some (VDatetime t).
Proof.
  rewrite supplied_lookup. unfold ProductUpdate.model_dump.
  destruct u as [n p d i v]. cbn.
  destruct (decide (k = "name")) as [-> | ?];
    [rewrite lookup_insert_eq; by destruct n |].
  rewrite lookup_insert_ne by done.
  destruct (decide (k = "price")) as [-> | ?];
    [rewrite lookup_insert_eq; by destruct p |].
  rewrite lookup_insert_ne by done.
  destruct (decide (k = "description")) as [-> | ?];
    [rewrite lookup_insert_eq; by destruct d |].
  rewrite lookup_insert_ne by done.
  destruct (decide (k = "images")) as [-> | ?];
    [rewrite lookup_insert_eq; by destruct i |].
  rewrite lookup_insert_ne by done.
  destruct (decide (k = "variants")) as [-> | ?];
    [rewrite lookup_singleton_eq; by destruct v |].
  by rewrite lookup_singleton_ne.
Qed.

Lemma to_storage_update u now :
  to_storage (<["updated_at" := VDatetime now]> (supplied u)) = update_fields u now.
Proof.
  apply map_eq. intros k. rewrite to_storage_lookup. unfold update_fields.
  destruct (decide (k = "updated_at")) as [-> | Hk].
  - by rewrite !lookup_insert_eq.
  - rewrite !lookup_insert_ne by done.
    pose proof (supplied_no_datetime u k) as Hn.
    destruct (supplied u !! k) as [[| n | x | s | t | n | l | items] |]; try done.
    by destruct (Hn t).
Qed.

Lemma update_fields_other u now k :
  k <> "updated_at" -> k <> "name" -> k <> "price" -> k <> "description" ->
  k <> "images" -> k <> "variants" -> update_fields u now !! k = None.
Proof. intros. unfold update_fields. by rewrite lookup_insert_ne, supplied_other. Qed.

Lemma matches_union u now k s (doc : dict) :
  k = "id" -> matches k s (update_fields u now ∪ doc) = matches k s doc.
Proof.
  intros ->. unfold matches.
  by rewrite lookup_union_r by by apply update_fields_other.
Qed.

Lemma list_find_insert_same k s (l : list dict) i doc doc' :
  list_find (fun doc => matches k s doc) l = Some (i, doc) ->
  matches k s doc' = true ->
  list_find (fun doc => matches k s doc) (<[i := doc']> l) = Some (i, doc').
Proof.
  intros Hf Hm. apply list_find_Some in Hf as (Hi & _ & Hfirst).
  apply list_find_Some. split; [| split].
  - apply list_lookup_insert_eq. by eapply lookup_lt_Some.
  - by apply Is_true_true.
  - intros j y Hj Hlt. rewrite list_lookup_insert_ne in Hj by lia. by eapply Hfirst.
Qed.

Lemma setitem_run r k v w :
  setitem r k v w = Ok tt (set_heap (alter (insert k v) r (heap w)) w).
Proof. done. Qed.

Lemma load_run r w : load r w = Ok (contents w r) w.
Proof. done. Qed.

Lemma update_one_run c k s r w i doc :
  list_find (fun doc => matches k s doc) (docs c w) = Some (i, doc) ->
  update_one c k s r w = Ok tt (set_docs c (<[i := contents w r ∪ doc]> (docs c w)) w).
Proof.
  intros Hf. unfold update_one.
  rewrite (bind_Ok _ _ _ _ _ (load_run r w)).
  rewrite (bind_Ok _ _ w (docs c w) w) by done. by rewrite Hf.
Qed.

Section Update.
Context `{Platform}.

Lemma update_product_missing product_id u username w :
  list_find (fun doc => matches "id" product_id doc) (products w) = None ->
  update_product product_id u username w
  = Raise (HTTPException 404 "Product not found") w.
Proof.
  intros Hf. unfold update_product.
  rewrite (bind_Ok _ _ w None w) by (rewrite find_one_run; cbn [docs]; by rewrite Hf).
  by rewrite (bind_Ok _ _ w true w).
Qed.

Lemma update_product_found product_id u username w i doc :
  list_find (fun doc => matches "id" product_id doc) (products w) = Some (i, doc) ->
  let doc' := update_fields u (utc_reading (ticks w)) ∪ doc in
  update_product product_id u username w
  = parse_from_mongo (S (S (length (heap w))))
      (after_update w i doc u (delete "_id" doc')).
Proof.
  intros Hf doc'. unfold update_product.
  pose proof (find_one_run db_products "id" product_id true w) as Hfo.
  cbn [docs] in Hfo. rewrite Hf in Hfo.
  rewrite (bind_Ok _ _ _ _ _ Hfo), (bind_Ok _ _ _ _ _ (not_found_run _ _)).
  rewrite contents_new.
  rewrite (projected_match_nonempty "id" product_id true doc)
    by (done || by eapply list_find_matches).
  rewrite (bind_Ok _ _ _ _ _ (new_dict_run _ _)).
  rewrite (bind_Ok _ _ _ _ _ (datetime_now_utc_run _)).
  rewrite (bind_Ok _ _ _ _ _ (setitem_run _ _ _ _)).
  rewrite (bind_Ok _ _ _ _ _ (prepare_for_mongo_run _ _)).
  cbn [heap set_heap tick products admins oids ticks draws].
  fold (supplied u).
  set (h1 := (heap w ++ [project true doc])%list).
  rewrite alter_new, alter_new, to_storage_update.
  set (now := utc_reading (ticks w)).
  set (w4 := mk_world (h1 ++ [update_fields u now]) (products w) (admins w) (oids w)
                      (S (ticks w)) (draws w)).
  assert (contents w4 (length h1) = update_fields u now) as Hc
    by (unfold contents; subst w4; cbn [heap]; by rewrite lookup_new).
  pose proof (update_one_run db_products "id" product_id (length h1) w4 i doc Hf) as Hup.
  rewrite Hc in Hup. rewrite (bind_Ok _ _ _ _ _ Hup).
  pose proof (find_one_run db_products "id" product_id true
                (set_docs db_products (<[i := update_fields u now ∪ doc]> (docs db_products w4)) w4))
    as Hfo2.
  cbn [docs set_docs products heap w4] in Hfo2.
  rewrite (list_find_insert_same _ _ _ _ _ _ Hf) in Hfo2
    by (rewrite matches_union by done; by eapply list_find_matches).
  rewrite (bind_Ok _ _ _ _ _ Hfo2).
  unfold after_update. fold now. subst h1 doc'. cbn [project].
  rewrite !length_app. cbn [length]. rewrite !Nat.add_1_r.
  f_equal. unfold set_heap. cbn. f_equal. by rewrite <- !app_assoc.
Qed.

End Update.

Lemma dict_get_Some (d : dict) k v : d !! k = Some v -> dict_get d k = v.
Proof. unfold dict_get. by intros ->. Qed.

Lemma dict_get_None (d : dict) k : d !! k = None -> dict_get d k = VNone.
Proof. unfold dict_get. by intros ->. Qed.

Lemma from_storage_field_is_Some k (d : dict) :
  (forall s, d !! k = Some (VStr s) -> is_Some (fromisoformat s)) ->
  is_Some (from_storage_field k d).
Proof.
  intros Hs. unfold from_storage_field.
  destruct (d !! k) as [v |] eqn:Hk;
    [rewrite (dict_get_Some _ _ _ Hk) | rewrite (dict_get_None _ _ Hk); by eexists].
  destruct v as [| n | x | s | t | n | l | items]; try by eexists.
  destruct (Hs s eq_refl) as [t Ht]. rewrite Ht. by eexists.
Qed.

Lemma from_storage_field_decodes k (d : dict) t :
  d !! k = Some (VStr (isoformat t)) -> check_fields t = true ->
  offset_kept (tzinfo t) = true ->
  from_storage_field k d = Some (<[k := VDatetime t]> d).
Proof.
  intros Hk Ht Kt. unfold from_storage_field.
  by rewrite (dict_get_Some _ _ _ Hk), (fromisoformat_isoformat t Ht Kt).
Qed.

Lemma normalized_update u now (doc : dict) :
  check_fields now = true -> offset_kept (tzinfo now) = true ->
  (forall s, doc !! "created_at" = Some (VStr s) -> is_Some (fromisoformat s)) ->
  exists obj,
    normalized (update_fields u now ∪ doc) = Some obj /\
    obj !! "updated_at" = Some (VDatetime now).
Proof.
  intros Hnow Know Hcreated. unfold normalized, from_storage.
  set (d := delete "_id" (update_fields u now ∪ doc)).
  assert (d !! "created_at" = doc !! "created_at") as Hc.
  { subst d. rewrite lookup_delete_ne by done.
    by rewrite lookup_union_r by by apply update_fields_other. }
  assert (d !! "updated_at" = Some (VStr (isoformat now))) as Hu.
  { subst d. rewrite lookup_delete_ne by done.
    apply lookup_union_Some_l. unfold update_fields. by rewrite lookup_insert_eq. }
  clearbody d.
  destruct (from_storage_field_is_Some "created_at" d) as [d1 H1].
  { intros s Hs. apply Hcreated. by rewrite <- Hc. }
  rewrite H1.
  change (Some d1 ≫= (fun d1 : dict => from_storage_field "updated_at" d1))
    with (from_storage_field "updated_at" d1).
  assert (d1 !! "updated_at" = Some (VStr (isoformat now))) as Hu1
    by by rewrite (from_storage_field_lookup _ _ _ "updated_at" H1), Hu.
  rewrite (from_storage_field_decodes _ _ _ Hu1 Hnow Know).
  eexists. split; [reflexivity |]. by rewrite lookup_insert_eq.
Qed.

Section UpdateTheorem.
Context `{Platform}.

(** C5 (amended). For a product id that some stored document matches,
    [update_product] writes into the first match exactly the fields the request
    supplies with a value other than None, leaves every other field of it and
    every other document as they were, and sets [updated_at] to the ISO string
    of the current clock reading whatever the previous value was.  It then
    returns the document read back and normalized, unless the stored
    [created_at] is a string that is not ISO: in that case the same write has
    happened, and the ValueError of the decoder leaves the handler.  For an id
    no document matches it raises 404 "Product not found" and changes
    nothing.  (The clock reading is a valid datetime, as every datetime object
    is.) *)
Theorem update_product_merges_supplied_fields :
  (forall product_id u username w i doc,
     list_find (fun doc => matches "id" product_id doc) (products w) = Some (i, doc) ->
     check_fields (clock (ticks w)) = true ->
     (forall s, doc !! "created_at" = Some (VStr s) -> is_Some (fromisoformat s)) ->
     exists r w' doc',
       update_product product_id u username w = Ok r w' /\
       products w' = <[i := doc']> (products w) /\ admins w' = admins w /\
       (forall k v, ProductUpdate.model_dump u !! k = Some v -> v <> VNone ->
                    doc' !! k = Some v) /\
       doc' !! "updated_at" = Some (VStr (isoformat (utc_reading (ticks w)))) /\
       (forall k, k <> "updated_at" ->
                  ProductUpdate.model_dump u !! k = None \/
                  ProductUpdate.model_dump u !! k = Some VNone ->
                  doc' !! k = doc !! k) /\
       normalized doc' = Some (contents w' r) /\
       contents w' r !! "updated_at" = Some (VDatetime (utc_reading (ticks w)))) /\
  (forall product_id u username w i doc s,
     list_find (fun doc => matches "id" product_id doc) (products w) = Some (i, doc) ->
     doc !! "created_at" = Some (VStr s) -> fromisoformat s = None ->
     exists w' doc',
       update_product product_id u username w
       = Raise (ValueError "Invalid isoformat string") w' /\
       products w' = <[i := doc']> (products w) /\ admins w' = admins w /\
       (forall k v, ProductUpdate.model_dump u !! k = Some v -> v <> VNone ->
                    doc' !! k = Some v) /\
       doc' !! "updated_at" = Some (VStr (isoformat (utc_reading (ticks w)))) /\
       (forall k, k <> "updated_at" ->
                  ProductUpdate.model_dump u !! k = None \/
                  ProductUpdate.model_dump u !! k = Some VNone ->
                  doc' !! k = doc !! k)) /\
  (forall product_id u username w,
     list_find (fun doc => matches "id" product_id doc) (products w) = None ->
     update_product product_id u username w
     = Raise (HTTPException 404 "Product not found") w).
Proof.
  assert (forall u now (doc : dict),
            let doc' := update_fields u now ∪ doc in
            (forall k v, ProductUpdate.model_dump u !! k = Some v -> v <> VNone ->
                         doc' !! k = Some v) /\
            doc' !! "updated_at" = Some (VStr (isoformat now)) /\
            (forall k, k <> "updated_at" ->
                       ProductUpdate.model_dump u !! k = None \/
                       ProductUpdate.model_dump u !! k = Some VNone ->
                       doc' !! k = doc !! k)) as Hmerge.
  { intros u now doc doc'. subst doc'. split; [| split].
    - intros k v Hk Hv. apply lookup_union_Some_l. unfold update_fields.
      assert (k <> "updated_at") as Hne
        by (intros ->; by rewrite model_dump_update_keys in Hk).
      rewrite lookup_insert_ne by (intros Heq; apply Hne; by rewrite Heq).
      rewrite supplied_lookup, Hk.
      destruct v; [by destruct Hv | reflexivity ..].
    - apply lookup_union_Some_l. unfold update_fields. apply lookup_insert_eq.
    - intros k Hne Hk. apply lookup_union_r. unfold update_fields.
      rewrite lookup_insert_ne by (intros Heq; apply Hne; by rewrite Heq).
      rewrite supplied_lookup. destruct Hk as [-> | ->]; reflexivity. }
  split; [| split; [| apply update_product_missing]]; cycle 1.
  { intros product_id u username w i doc s Hf Hc Hbad.
    rewrite (update_product_found product_id u username w i doc Hf). cbv zeta.
    set (now := utc_reading (ticks w)).
    set (doc' := update_fields u now ∪ doc).
    set (w5 := after_update w i doc u (delete "_id" doc')).
    assert (heap w5 !! S (S (length (heap w))) = Some (delete "_id" doc')) as Hlook.
    { subst w5. unfold after_update. cbn [heap].
      rewrite (lookup_app_r (heap w)) by lia.
      by replace (S (S (length (heap w))) - length (heap w))%nat with 2%nat by lia. }
    rewrite (parse_from_mongo_run _ _ _ Hlook).
    assert (from_storage_field "created_at" (delete "_id" doc') = None) as ->.
    { unfold from_storage_field. rewrite (dict_get_Some _ _ (VStr s)).
      - by rewrite Hbad.
      - rewrite lookup_delete_ne by done. subst doc'.
        rewrite lookup_union_r by by apply update_fields_other. exact Hc. }
    exists w5, doc'. split; [reflexivity |].
    subst w5. unfold after_update. cbn [products admins].
    split; [reflexivity |]. split; [reflexivity |]. apply Hmerge. }
  intros product_id u username w i doc Hf Hclock Hcreated.
  set (now := utc_reading (ticks w)).
  destruct (normalized_update u now doc (check_fields_utc _ Hclock) eq_refl Hcreated)
    as (obj & Hobj & Hupd).
  rewrite (update_product_found product_id u username w i doc Hf). cbv zeta. fold now.
  set (doc' := update_fields u now ∪ doc) in *.
  set (w5 := after_update w i doc u (delete "_id" doc')).
  assert (heap w5 !! S (S (length (heap w))) = Some (delete "_id" doc')) as Hlook.
  { subst w5. unfold after_update. cbn [heap].
    rewrite (lookup_app_r (heap w)) by lia.
    by replace (S (S (length (heap w))) - length (heap w))%nat with 2%nat by lia. }
  rewrite (parse_from_mongo_run _ _ _ Hlook).
  pose proof Hobj as Hnorm.
  unfold normalized, from_storage in Hobj.
  destruct (from_storage_field "created_at" (delete "_id" doc')) as [d1 |];
    [| discriminate Hobj].
  change (from_storage_field "updated_at" d1 = Some obj) in Hobj. rewrite Hobj.
  eexists _, _, doc'. split; [reflexivity |].
  assert (contents (set_heap (<[S (S (length (heap w))) := obj]> (heap w5)) w5)
                   (S (S (length (heap w)))) = obj) as Hc.
  { unfold contents. rewrite heap_set_heap, list_lookup_insert_eq by by eapply lookup_lt_Some.
    done. }
  rewrite Hc.
  subst w5. unfold after_update, set_heap. cbn [products admins].
  split; [reflexivity |]. split; [reflexivity |].
  split; [| split; [| split; [| split; [exact Hnorm | exact Hupd]]]].
  - intros k v Hk Hv. subst doc'. apply lookup_union_Some_l. unfold update_fields.
    assert (k <> "updated_at") as Hne
      by (intros ->; by rewrite model_dump_update_keys in Hk).
    rewrite lookup_insert_ne by (intros Heq; apply Hne; by rewrite Heq).
    rewrite supplied_lookup, Hk.
    destruct v; [by destruct Hv | reflexivity ..].
  - subst doc'. apply lookup_union_Some_l. unfold update_fields.
    apply lookup_insert_eq.
  - intros k Hne Hk. subst doc'. apply lookup_union_r. unfold update_fields.
    rewrite lookup_insert_ne by (intros Heq; apply Hne; by rewrite Heq).
    rewrite supplied_lookup. destruct Hk as [-> | ->]; reflexivity.
Qed.

End UpdateTheorem.

(** The shirt of the demo store, repriced while the clock stands still:
    every hypothesis of the amended C5 holds there. *)
Lemma update_product_merges_supplied_fields_witness :
  exists r w' doc',
    @update_product Demo.frozen "p1" Demo.new_price (VStr "admin") Demo.shop = Ok r w' /\
    products w' = [doc'] /\
    doc' !! "price" = Some (VFloat 24.75) /\
    doc' !! "name" = Some (VStr "Shirt") /\
    doc' !! "updated_at" = Some (VStr "2024-01-05T12:00:00+00:00").
Proof.
  destruct (proj1 (@update_product_merges_supplied_fields Demo.frozen)
              "p1" Demo.new_price (VStr "admin") Demo.shop 0%nat Demo.stored_shirt)
    as (r & w' & doc' & Hrun & Hprod & _ & Hsup & Hupd & Hrest & _).
  - vm_compute. reflexivity.
  - vm_compute. reflexivity.
  - intros s Hs. vm_compute in Hs. injection Hs as <-. vm_compute. eexists. reflexivity.
  - exists r, w', doc'. split; [exact Hrun |]. split; [exact Hprod |].
    split; [apply Hsup; [vm_compute; reflexivity | discriminate] |].
    split; [| exact Hupd].
    rewrite Hrest; [vm_compute; reflexivity | discriminate | right; vm_compute; reflexivity].
Defined.

(** C5, as stated, fails in its parenthesis: [updated_at] is set to the clock
    reading whatever the stored value is, so when the clock has not advanced
    since the stored value was written the new [updated_at] is not strictly
    greater than the previous one. *)
Lemma update_product_updated_at_not_strictly_greater :
  exists previous r w' refreshed,
    normalized Demo.stored_shirt ≫= (fun record => record !! "updated_at")
      = Some (VDatetime previous) /\
    @update_product Demo.frozen "p1" Demo.new_price (VStr "admin") Demo.shop = Ok r w' /\
    contents w' r !! "updated_at" = Some (VDatetime refreshed) /\
    ~ datetime_lt previous refreshed.
Proof.
  eexists _, _, _, _.
  split; [vm_compute; reflexivity |].
  split; [vm_compute; reflexivity |].
  split; [vm_compute; reflexivity |].
  unfold datetime_lt. vm_compute. discriminate.
Qed.

(** * Further properties of the service *)

(** ** Hashing and verifying *)

Lemma str_take_app_length s t : str_take (String.length s) (s +:+ t) = s.
Proof. induction s as [| c s IH]; [by destruct t |]. rewrite app_cons. cbn. by rewrite IH. Qed.

Lemma str_drop_app_length s t : str_drop (String.length s) (s +:+ t) = t.
Proof. induction s as [| c s IH]; [by destruct t |]. rewrite app_cons. cbn. by rewrite IH. Qed.

Section HasherRoundTrip.
Context `{Platform}.

(** The bcrypt string of [hash_password] is one the scheme identifies and
    parses back into its salt and digest. *)
Lemma bcrypt_from_string_hashed p n :
  String.length (gensalt n) = 22%nat ->
  String.length (bcrypt_digest "$2b$12$" (gensalt n) p) = 31%nat ->
  bcrypt_identify (hashed p n) = true /\
  bcrypt_from_string (hashed p n)
  = Some ("$2b$12$", gensalt n, bcrypt_digest "$2b$12$" (gensalt n) p).
Proof.
  intros Hsalt Hchk. unfold hashed, bcrypt_identify, bcrypt_from_string, BCRYPT_IDENTS.
  rewrite !app_cons, app_empty.
  split; [reflexivity |].
  rewrite <- Hchk, <- Hsalt.
  remember (gensalt n +:+ bcrypt_digest "$2b$12$" (gensalt n) p) as data eqn:Hdata.
  cbn. subst data.
  by rewrite str_take_app_length, str_drop_app_length, !Nat.eqb_refl.
Qed.

(** X1. A password the hasher accepts (at most 4096 characters, no NUL)
    verifies against its own hash: [verify_password(p, hash_password(p))] is
    True whenever the salt generator and the digest return strings of bcrypt's
    lengths (22 and 31 characters).  Another accepted plaintext verifies
    against that hash exactly when bcrypt gives it the same digest under the
    hash's salt. *)
Theorem verify_password_hash_password (p : string) (w : world) :
  secret_accepted p = true ->
  String.length (gensalt (draws w)) = 22%nat ->
  String.length (bcrypt_digest "$2b$12$" (gensalt (draws w)) p) = 31%nat ->
  exists h w',
    hash_password p w = Ok h w' /\
    verify_password p h w' = Ok true w' /\
    (forall p',
       secret_accepted p' = true ->
       verify_password p' h w'
       = Ok (String.eqb (bcrypt_digest "$2b$12$" (gensalt (draws w)) p')
                        (bcrypt_digest "$2b$12$" (gensalt (draws w)) p)) w') /\
    products w' = products w /\ admins w' = admins w.
Proof.
  intros _ Hsalt Hchk.
  destruct (bcrypt_from_string_hashed p (draws w) Hsalt Hchk) as [Hid Hparse].
  eexists _, _. split; [apply hash_password_run |].
  assert (forall p' w1,
            verify_password p' (hashed p (draws w)) w1
            = Ok (String.eqb (bcrypt_digest "$2b$12$" (gensalt (draws w)) p')
                             (bcrypt_digest "$2b$12$" (gensalt (draws w)) p)) w1) as Hv.
  { intros p' w1. unfold verify_password. by rewrite Hid, Hparse. }
  split; [| split; [| split]]; [| intros p' _; apply Hv | reflexivity | reflexivity].
  by rewrite Hv, String.eqb_refl.
Qed.


End HasherRoundTrip.

Lemma verify_password_hash_password_witness :
  exists h w',
    @hash_password Demo.frozen "s3cret" Demo.empty_world = Ok h w' /\
    @verify_password Demo.frozen "s3cret" h w' = Ok true w'.
Proof.
  destruct (@verify_password_hash_password Demo.frozen "s3cret" Demo.empty_world)
    as (h & w' & Hh & Hv & _);
    [vm_compute; reflexivity | vm_compute; reflexivity | vm_compute; reflexivity |].
  by exists h, w'.
Defined.


(** ** The lifetime of a token *)

Section TokenLifetime.
Context `{Platform}.

Lemma verify_expired_token (s : string) expiry w :
  expiry * 1000000 <= timestamp_us (utc_reading (ticks w)) ->
  verify_token (issued_token s expiry) w = Raise token_expired (tick w).
Proof.
  intros Hdead. rewrite verify_token_cases. unfold issued_token, signed_by_server.
  cbn [alg payload signature]. rewrite !String.eqb_refl. cbn [andb negb].
  unfold issued_claims at 1. rewrite lookup_insert_eq.
  destruct (Z.leb_spec (expiry * 1000000) (timestamp_us (utc_reading (ticks w))));
    [done | lia].
Qed.

(** X3. A token is accepted exactly until its expiry: issued when the clock
    reads [t], it validates to its subject at every later reading that is
    before the second of [t] plus 86400 seconds, and from that instant on it is
    answered 401 "Token expired".  The expiry is a whole second, so the
    lifetime is 24 hours less the fraction of a second [t] carries. *)
Theorem verify_token_expires_after_24_hours (s : string) (w : world) :
  check_fields (clock (ticks w)) = true ->
  year (clock (ticks w)) <= 9998 ->
  let issued := timestamp_us (utc_reading (ticks w)) in
  let expiry := (timegm (utc_reading (ticks w)) + 86400) * 1000000 in
  issued + 86400000000 - 1000000 < expiry <= issued + 86400000000 /\
  exists t,
    create_access_token {[ "sub" := VStr s ]} w = Ok t (tick w) /\
    (forall w2,
       timestamp_us (utc_reading (ticks w2)) < expiry ->
       verify_token t w2 = Ok (VStr s) (tick w2)) /\
    (forall w2,
       expiry <= timestamp_us (utc_reading (ticks w2)) ->
       verify_token t w2 = Raise (HTTPException 401 "Token expired") (tick w2)).
Proof.
  intros Hok Hy issued expiry. split.
  - subst issued expiry. unfold timegm.
    generalize (timestamp_us (utc_reading (ticks w))). intros z.
    Z.div_mod_to_equations. lia.
  - eexists. split; [apply create_access_token_run; [by apply check_fields_utc | done] |].
    split; intros w2 Hw2.
    + by apply verify_issued_token.
    + by apply verify_expired_token.
Qed.

End TokenLifetime.

Lemma verify_token_expires_after_24_hours_witness :
  exists t,
    @create_access_token Scenario.daily {[ "sub" := VStr "admin" ]} Demo.empty_world
      = Ok t (tick Demo.empty_world) /\
    @verify_token Scenario.daily t (tick Demo.empty_world)
      = Raise (HTTPException 401 "Token expired")
              (tick (tick Demo.empty_world)).
Proof.
  destruct (@verify_token_expires_after_24_hours Scenario.daily "admin" Demo.empty_world)
    as (_ & t & Ht & _ & Hdead);
    [vm_compute; reflexivity | vm_compute; discriminate |].
  exists t. split; [exact Ht |]. apply Hdead. vm_compute. discriminate.
Defined.

(** ** Login *)

Section Login.
Context `{Platform}.

Lemma getitem_run r k w :
  getitem r k w =
  match contents w r !! k with
  | Some v => Ok v w
  | None => Raise (KeyError k) w
  end.
Proof.
  unfold getitem. rewrite (bind_Ok _ _ _ _ _ (load_run r w)).
  by destruct (contents w r !! k).
Qed.

Lemma bcrypt_from_string_identified h parsed :
  bcrypt_from_string h = Some parsed -> bcrypt_identify h = true.
Proof.
  unfold bcrypt_from_string, bcrypt_identify.
  destruct (List.find _ BCRYPT_IDENTS) as [ident |] eqn:Hfind; [| done].
  intros _. apply find_some in Hfind as [Hin Hstarts].
  apply existsb_exists. by exists ident.
Qed.

(** [verify_password] on a well-formed hash. *)
Lemma verify_password_run p h config salt chk w :
  bcrypt_from_string h = Some (config, salt, chk) ->
  verify_password p h w = Ok (String.eqb (bcrypt_digest config salt p) chk) w.
Proof.
  intros Hparse. unfold verify_password.
  by rewrite (bcrypt_from_string_identified _ _ Hparse), Hparse.
Qed.

Lemma verify_password_world p h w b w' : verify_password p h w = Ok b w' -> w' = w.
Proof.
  unfold verify_password. destruct (negb (bcrypt_identify h)); [done |].
  destruct (bcrypt_from_string h) as [[[config salt] chk] |]; [| done].
  by intros [= _ <-].
Qed.

Lemma create_access_token_world data w t w' :
  create_access_token data w = Ok t w' -> w' = tick w.
Proof.
  unfold create_access_token.
  rewrite (bind_Ok _ _ _ _ _ (datetime_now_utc_run w)).
  destruct (datetime_add _ _) as [expire |]; [| done].
  unfold jwt_encode. destruct (negb _); [done |].
  by intros [= _ <-].
Qed.

(** [admin_login] once the admin document is found: what is left is the
    lookup of the hash, the verification and the token. *)
Lemma admin_login_found login_data w i doc :
  list_find (fun doc => matches "username" (AdminLogin.username login_data) doc)
            (admins w) = Some (i, doc) ->
  admin_login login_data w =
  let w1 := set_heap (heap w ++ [doc]) w in
  match doc !! "password_hash" with
  | None => Raise (KeyError "password_hash") w1
  | Some (VStr h) =>
      match verify_password (AdminLogin.password login_data) h w1 with
      | Raise e w2 => Raise e w2
      | Ok false w2 =>
          Raise (HTTPException HTTP_401_UNAUTHORIZED "Incorrect username or password") w2
      | Ok true w2 =>
          match doc !! "username" with
          | None => Raise (KeyError "username") w2
          | Some sub =>
              match create_access_token {[ "sub" := sub ]} w2 with
              | Raise e w3 => Raise e w3
              | Ok t w3 =>
                  match sub with
                  | VStr s => Ok (mk_AdminLoginResponse t "bearer" s) w3
                  | _ => Raise (ValidationError "username: Input should be a valid string") w3
                  end
              end
          end
      end
  | Some _ => Raise (TypeError "hash must be unicode or bytes") w1
  end.
Proof.
  intros Hf. unfold admin_login.
  pose proof (find_one_run db_admins "username" (AdminLogin.username login_data) false w)
    as Hfo.
  cbn [docs] in Hfo. rewrite Hf in Hfo. cbn [project] in Hfo.
  rewrite (bind_Ok _ _ _ _ _ Hfo), (bind_Ok _ _ _ _ _ (not_found_run _ _)).
  rewrite contents_new.
  rewrite (size_nonzero doc "username")
    by (eapply matches_is_Some, list_find_matches, Hf).
  cbv zeta. set (w1 := set_heap (heap w ++ [doc]) w).
  assert (contents w1 (length (heap w)) = doc) as Hc by apply contents_new.
  destruct (doc !! "password_hash") as [v |] eqn:Hph.
  - rewrite (bind_Ok _ _ w1 v w1) by (by rewrite getitem_run, Hc, Hph).
    destruct v as [| n | x | h | t | n | l | items];
      try (by rewrite (bind_Raise _ _ w1 (TypeError "hash must be unicode or bytes") w1)).
    destruct (verify_password (AdminLogin.password login_data) h w1) as [ok w2 | e w2] eqn:Hv.
    + rewrite (bind_Ok _ _ _ _ _ Hv).
      apply verify_password_world in Hv as ->.
      destruct ok; cbn [negb]; [| done].
      destruct (doc !! "username") as [sub |] eqn:Hu.
      * rewrite (bind_Ok _ _ w1 sub w1) by (by rewrite getitem_run, Hc, Hu).
        destruct (create_access_token {[ "sub" := sub ]} w1) as [t w3 | e w3] eqn:Ht.
        -- rewrite (bind_Ok _ _ _ _ _ Ht).
           assert (contents w3 (length (heap w)) = doc) as Hc3
             by (by rewrite (create_access_token_world _ _ _ _ Ht)).
           rewrite (bind_Ok _ _ w3 sub w3) by (by rewrite getitem_run, Hc3, Hu).
           by destruct sub.
        -- by rewrite (bind_Raise _ _ _ _ _ Ht).
      * by rewrite (bind_Raise _ _ w1 (KeyError "username") w1)
          by (by rewrite getitem_run, Hc, Hu).
    + by rewrite (bind_Raise _ _ _ _ _ Hv).
  - by rewrite (bind_Raise _ _ w1 (KeyError "password_hash") w1)
      by (by rewrite getitem_run, Hc, Hph).
Qed.

End Login.

Lemma list_find_snoc (k s : string) (l : list dict) (doc : dict) :
  list_find (fun doc => matches k s doc) l = None ->
  matches k s doc = true ->
  list_find (fun doc => matches k s doc) (l ++ [doc])%list = Some (length l, doc).
Proof.
  intros Hnone Hdoc. rewrite (list_find_app_r _ _ _ Hnone). cbn.
  rewrite decide_True by by rewrite Hdoc. done.
Qed.

Section LoginProperties.
Context `{Platform}.

(** [admin_login] for the right password of a well-formed admin document. *)
Lemma admin_login_accepts login_data w i doc h config salt :
  list_find (fun doc => matches "username" (AdminLogin.username login_data) doc)
            (admins w) = Some (i, doc) ->
  doc !! "username" = Some (VStr (AdminLogin.username login_data)) ->
  doc !! "password_hash" = Some (VStr h) ->
  bcrypt_from_string h
    = Some (config, salt, bcrypt_digest config salt (AdminLogin.password login_data)) ->
  check_fields (clock (ticks w)) = true ->
  year (clock (ticks w)) <= 9998 ->
  admin_login login_data w
  = Ok (mk_AdminLoginResponse
          (issued_token (AdminLogin.username login_data)
                        (timegm (utc_reading (ticks w)) + 86400))
          "bearer" (AdminLogin.username login_data))
       (tick (set_heap (heap w ++ [doc]) w)).
Proof.
  intros Hf Hu Hph Hparse Hok Hy.
  rewrite (admin_login_found _ _ _ _ Hf). cbv zeta. rewrite Hph.
  rewrite (verify_password_run _ _ _ _ _ _ Hparse), String.eqb_refl, Hu.
  by rewrite create_access_token_run by (by apply check_fields_utc || done).
Qed.

(** X4. A login with the right password returns a bearer token for the stored
    username that the token service accepts: any route guarded by
    [verify_token] runs on that username until the token expires, and
    [verify_admin_token] answers with it.  The login itself changes neither
    collection. *)
Theorem admin_login_token_is_accepted login_data w i doc h config salt :
  list_find (fun doc => matches "username" (AdminLogin.username login_data) doc)
            (admins w) = Some (i, doc) ->
  doc !! "username" = Some (VStr (AdminLogin.username login_data)) ->
  doc !! "password_hash" = Some (VStr h) ->
  bcrypt_from_string h
    = Some (config, salt, bcrypt_digest config salt (AdminLogin.password login_data)) ->
  check_fields (clock (ticks w)) = true ->
  year (clock (ticks w)) <= 9998 ->
  exists resp w',
    admin_login login_data w = Ok resp w' /\
    token_type resp = "bearer" /\
    response_username resp = AdminLogin.username login_data /\
    products w' = products w /\ admins w' = admins w /\
    forall w2,
      timestamp_us (utc_reading (ticks w2))
        < (timegm (utc_reading (ticks w)) + 86400) * 1000000 ->
      authenticated (access_token resp) verify_admin_token w2
      = Ok (VStr (AdminLogin.username login_data), true) (tick w2).
Proof.
  intros Hf Hu Hph Hparse Hok Hy.
  eexists _, _. split; [by eapply admin_login_accepts |].
  cbn [token_type response_username access_token products admins tick set_heap].
  repeat (split; [reflexivity |]).
  intros w2 Hlive. unfold authenticated.
  by rewrite (bind_Ok _ _ _ _ _ (verify_issued_token _ _ _ Hlive)).
Qed.

(** X5. A login for a username no admin has, and a login with a wrong
    password for an admin whose stored hash [hash_password] made, are answered
    alike: both raise 401 "Incorrect username or password", and neither
    changes a collection or reads the clock.  (The wrong password is one the
    hasher accepts: at most 4096 characters, no NUL.) *)
Theorem admin_login_rejections_are_alike :
  (forall login_data w,
     list_find (fun doc => matches "username" (AdminLogin.username login_data) doc)
               (admins w) = None ->
     admin_login login_data w
     = Raise (HTTPException 401 "Incorrect username or password") w) /\
  (forall login_data w i doc p n,
     list_find (fun doc => matches "username" (AdminLogin.username login_data) doc)
               (admins w) = Some (i, doc) ->
     doc !! "password_hash" = Some (VStr (hashed p n)) ->
     String.length (gensalt n) = 22%nat ->
     String.length (bcrypt_digest "$2b$12$" (gensalt n) p) = 31%nat ->
     secret_accepted (AdminLogin.password login_data) = true ->
     bcrypt_digest "$2b$12$" (gensalt n) (AdminLogin.password login_data)
       <> bcrypt_digest "$2b$12$" (gensalt n) p ->
     exists w',
       admin_login login_data w
       = Raise (HTTPException 401 "Incorrect username or password") w' /\
       products w' = products w /\ admins w' = admins w /\ ticks w' = ticks w).
Proof.
  split.
  - intros login_data w Hnone. unfold admin_login.
    rewrite (bind_Ok _ _ w None w) by (rewrite find_one_run; cbn [docs]; by rewrite Hnone).
    by rewrite (bind_Ok _ _ w true w).
  - intros login_data w i doc p n Hf Hph Hsalt Hchk _ Hne.
    destruct (bcrypt_from_string_hashed p n Hsalt Hchk) as [_ Hparse].
    rewrite (admin_login_found _ _ _ _ Hf). cbv zeta. rewrite Hph.
    rewrite (verify_password_run _ _ _ _ _ _ Hparse).
    apply String.eqb_neq in Hne. rewrite Hne. by eexists.
Qed.

(** X6. A stored admin document that is not well formed turns a login into a
    server fault, not a 401: without [password_hash] the lookup raises
    KeyError, and with a hash string that is no bcrypt hash, or a malformed
    one, the ValueError of the hasher leaves the handler. *)
Theorem admin_login_server_fault :
  (forall login_data w i doc,
     list_find (fun doc => matches "username" (AdminLogin.username login_data) doc)
               (admins w) = Some (i, doc) ->
     doc !! "password_hash" = None ->
     exists w',
       admin_login login_data w = Raise (KeyError "password_hash") w' /\
       status (response_of_exn (KeyError "password_hash")) = 500) /\
  (forall login_data w i doc h,
     list_find (fun doc => matches "username" (AdminLogin.username login_data) doc)
               (admins w) = Some (i, doc) ->
     doc !! "password_hash" = Some (VStr h) ->
     bcrypt_from_string h = None ->
     exists msg w',
       admin_login login_data w = Raise (ValueError msg) w' /\
       status (response_of_exn (ValueError msg)) = 500).
Proof.
  split.
  - intros login_data w i doc Hf Hph.
    rewrite (admin_login_found _ _ _ _ Hf). cbv zeta. rewrite Hph. by eexists.
  - intros login_data w i doc h Hf Hph Hparse.
    rewrite (admin_login_found _ _ _ _ Hf). cbv zeta. rewrite Hph.
    unfold verify_password. rewrite Hparse.
    destruct (negb (bcrypt_identify h)); by eexists _, _.
Qed.


Lemma verify_token_world t w :
  match verify_token t w with
  | Ok username w' => username <> VNone /\ (w' = tick w)
  | Raise e w' => (e = invalid_token \/ e = token_expired) /\ (w' = w \/ w' = tick w)
  end.
Proof.
  rewrite verify_token_cases. unfold subject_of.
  destruct t as [j | raw]; [| auto].
  destruct (negb (signed_by_server j)); [auto |].
  destruct (payload j !! "exp") as [[| e | x | s | d | n | l | items] |]; auto.
  - destruct (e * 1000000 <=? timestamp_us (utc_reading (ticks w))); [auto |].
    destruct (dict_get (payload j) "sub"); cbn; auto.
  - destruct (dict_get (payload j) "sub"); cbn; auto.
Qed.

(** X8. A route behind [Depends(verify_token)] runs only on a validated
    credential: when validation fails the request is answered 401, the route's
    function is not run and both collections are as they were; when it
    succeeds the route runs on the token's subject, which is not None, and
    validation itself has changed neither collection. *)
Theorem authenticated_guards_route {A} (credentials : token) (route : value -> M A)
    (w : world) :
  match verify_token credentials w with
  | Ok username w' =>
      authenticated credentials route w = route username w' /\
      username <> VNone /\ products w' = products w /\ admins w' = admins w
  | Raise e w' =>
      authenticated credentials route w = Raise e w' /\
      status (response_of_exn e) = 401 /\
      products w' = products w /\ admins w' = admins w /\ heap w' = heap w
  end.
Proof.
  pose proof (verify_token_world credentials w) as Hw. unfold authenticated.
  destruct (verify_token credentials w) as [username w' | e w'] eqn:Hv.
  - rewrite (bind_Ok _ _ _ _ _ Hv). destruct Hw as [Hsub ->]. done.
  - rewrite (bind_Raise _ _ _ _ _ Hv). destruct Hw as [He Hw'].
    split; [done |]. split; [by destruct He as [-> | ->] |].
    by destruct Hw' as [-> | ->].
Qed.

End LoginProperties.

Lemma admin_login_token_is_accepted_witness :
  exists resp w',
    @admin_login Demo.ticking (AdminLogin.mk "admin" "s3cret") Scenario.office
      = Ok resp w' /\
    @authenticated Demo.ticking _ (access_token resp) verify_admin_token w'
      = Ok (VStr "admin", true) (tick w').
Proof.
  destruct (@admin_login_token_is_accepted Demo.ticking
              (AdminLogin.mk "admin" "s3cret") Scenario.office 0%nat Scenario.admin_doc
              (@hashed Demo.frozen "s3cret" 0) "$2b$12$" (@gensalt Demo.frozen 0%nat))
    as (resp & w' & Hlogin & _ & _ & _ & _ & Hauth);
    [vm_compute; reflexivity | vm_compute; reflexivity | vm_compute; reflexivity
    | vm_compute; reflexivity | vm_compute; reflexivity | vm_compute; discriminate |].
  exists resp, w'. split; [exact Hlogin |]. apply Hauth.
  pose proof Hlogin as Hw. vm_compute in Hw. injection Hw as _ <-.
  vm_compute. reflexivity.
Defined.

Lemma admin_login_rejections_are_alike_witness :
  exists w',
    @admin_login Demo.ticking (AdminLogin.mk "admin" "guess") Scenario.office
    = Raise (HTTPException 401 "Incorrect username or password") w' /\
    @admin_login Demo.ticking (AdminLogin.mk "nobody" "guess") Scenario.office
    = Raise (HTTPException 401 "Incorrect username or password") Scenario.office.
Proof.
  destruct (proj2 (@admin_login_rejections_are_alike Demo.ticking)
              (AdminLogin.mk "admin" "guess") Scenario.office 0%nat Scenario.admin_doc
              "s3cret" 0%nat)
    as (w' & Hwrong & _);
    [vm_compute; reflexivity | vm_compute; reflexivity | vm_compute; reflexivity
    | vm_compute; reflexivity | vm_compute; reflexivity | vm_compute; discriminate |].
  exists w'. split; [exact Hwrong |].
  apply (proj1 (@admin_login_rejections_are_alike Demo.ticking)). vm_compute. reflexivity.
Defined.

Lemma admin_login_server_fault_witness :
  exists w',
    @admin_login Demo.ticking (AdminLogin.mk "admin" "s3cret") Scenario.broken_office
    = Raise (KeyError "password_hash") w'.
Proof.
  destruct (proj1 (@admin_login_server_fault Demo.ticking)
              (AdminLogin.mk "admin" "s3cret") Scenario.broken_office 0%nat
              Scenario.broken_admin)
    as (w' & Hfault & _); [vm_compute; reflexivity | vm_compute; reflexivity |].
  exists w'. exact Hfault.
Defined.


(** ** Reading, creating, deleting and updating products *)

Lemma parse_from_mongo_new (d rec : dict) (h : list dict) w :
  from_storage d = Some rec ->
  parse_from_mongo (length h) (set_heap (h ++ [d]) w)
  = Ok (length h) (set_heap (h ++ [rec]) w).
Proof.
  intros Hd.
  rewrite (parse_from_mongo_run _ _ d) by (rewrite heap_set_heap; apply lookup_new).
  unfold from_storage in Hd.
  destruct (from_storage_field "created_at" d) as [d1 |]; [| discriminate Hd].
  change (from_storage_field "updated_at" d1 = Some rec) in Hd. rewrite Hd.
  by rewrite heap_set_heap, set_heap_set_heap, insert_new.
Qed.

Lemma parse_from_mongo_store r w :
  match parse_from_mongo r w with
  | Ok _ w' | Raise _ w' => products w' = products w /\ admins w' = admins w
  end.
Proof.
  destruct (heap w !! r) as [d |] eqn:Hr.
  - rewrite (parse_from_mongo_run _ _ _ Hr).
    destruct (from_storage_field "created_at" d) as [d1 |]; [| done].
    by destruct (from_storage_field "updated_at" d1).
  - by rewrite (parse_from_mongo_dangling _ _ Hr).
Qed.

Lemma get_product_found product_id w i doc rec :
  list_find (fun doc => matches "id" product_id doc) (products w) = Some (i, doc) ->
  normalized doc = Some rec ->
  get_product product_id w = Ok (length (heap w)) (set_heap (heap w ++ [rec]) w).
Proof. intros Hf Hn. rewrite get_product_run, Hf. by apply parse_from_mongo_new. Qed.

Lemma get_product_missing product_id w :
  list_find (fun doc => matches "id" product_id doc) (products w) = None ->
  get_product product_id w = Raise (HTTPException 404 "Product not found") w.
Proof. intros Hf. by rewrite get_product_run, Hf. Qed.

(** X9. [get_product] answers 404 when no stored document has the id;
    otherwise it returns the first such document without the store's [_id] and
    with its timestamps decoded.  Whatever it answers, it changes neither
    collection. *)
Theorem get_product_first_match_or_404 :
  (forall product_id w,
     list_find (fun doc => matches "id" product_id doc) (products w) = None ->
     get_product product_id w = Raise (HTTPException 404 "Product not found") w) /\
  (forall product_id w i doc rec,
     list_find (fun doc => matches "id" product_id doc) (products w) = Some (i, doc) ->
     normalized doc = Some rec ->
     exists r w',
       get_product product_id w = Ok r w' /\
       contents w' r = rec /\ rec !! "_id" = None /\
       rec !! "id" = doc !! "id") /\
  (forall product_id w,
     match get_product product_id w with
     | Ok _ w' | Raise _ w' => products w' = products w /\ admins w' = admins w
     end).
Proof.
  split; [exact get_product_missing | split].
  - intros product_id w i doc rec Hf Hn.
    eexists _, _. split; [by eapply get_product_found |].
    split; [apply contents_new |].
    unfold normalized in Hn.
    rewrite !(from_storage_lookup _ _ _ Hn), lookup_delete_eq, lookup_delete_ne by done.
    split; [done |].
    destruct (doc !! "id") as [[| n | x | s | t | n | l | items] |]; done.
  - intros product_id w. rewrite get_product_run.
    destruct (list_find _ (products w)) as [[i doc] |]; [| done].
    apply (parse_from_mongo_store _ (set_heap _ w)).
Qed.

Lemma get_product_first_match_or_404_witness :
  exists r w',
    get_product "p1" Demo.shop = Ok r w' /\
    contents w' r !! "_id" = None /\
    contents w' r !! "id" = Some (VStr "p1").
Proof.
  destruct (proj1 (proj2 get_product_first_match_or_404) "p1" Demo.shop 0%nat
              Demo.stored_shirt (default ∅ (normalized Demo.stored_shirt)))
    as (r & w' & Hrun & Hc & Hid & Hsame);
    [vm_compute; reflexivity | vm_compute; reflexivity |].
  exists r, w'. rewrite Hc. split; [exact Hrun |]. split; [exact Hid |].
  rewrite Hsame. vm_compute. reflexivity.
Defined.

Section Repository.
Context `{Platform}.

(** The document [create_product] stores reads back as the record's dump. *)
Lemma normalized_stored_form (p : Product.t) oid :
  check_fields (Product.created_at p) = true ->
  check_fields (Product.updated_at p) = true ->
  offset_kept (tzinfo (Product.created_at p)) = true ->
  offset_kept (tzinfo (Product.updated_at p)) = true ->
  normalized (stored_form p oid) = Some (Product.model_dump p).
Proof.
  intros Hc Hu Kc Ku. unfold normalized, stored_form.
  rewrite delete_insert_id.
  - apply (from_storage_to_storage _ (Product.created_at p) (Product.updated_at p));
      [| | done | done | done | done]; unfold Product.model_dump.
    + by rewrite !lookup_insert_ne, lookup_insert_eq by done.
    + by rewrite !lookup_insert_ne, lookup_singleton_eq by done.
  - rewrite to_storage_lookup. unfold Product.model_dump.
    by rewrite !lookup_insert_ne, lookup_singleton_ne by done.
Qed.

Lemma matches_stored_form (p : Product.t) oid :
  matches "id" (Product.id p) (stored_form p oid) = true.
Proof.
  unfold matches, stored_form. rewrite lookup_insert_ne by done.
  rewrite to_storage_lookup. unfold Product.model_dump.
  rewrite lookup_insert_eq. apply String.eqb_refl.
Qed.

(** X10. A created product can be read back: when no stored product has the
    generated id and the two clock readings are valid datetimes,
    [get_product] on the returned id gives exactly the dump of the record
    [create_product] returned, timestamps included. *)
Theorem create_product_then_get_product (product_data : ProductCreate.t)
    (username : value) (w : world) :
  list_find (fun doc => matches "id" (uuid4_source (draws w)) doc) (products w) = None ->
  check_fields (clock (ticks w)) = true ->
  check_fields (clock (S (ticks w))) = true ->
  exists p w1 r w2,
    create_product product_data username w = Ok p w1 /\
    get_product (Product.id p) w1 = Ok r w2 /\
    contents w2 r = Product.model_dump p /\
    products w2 = products w1.
Proof.
  intros Hfresh Hc Hu.
  eexists _, _, _, _. split; [apply create_product_run |]. cbv zeta.
  set (p := created product_data w).
  split.
  - eapply get_product_found.
    + cbn [products]. apply list_find_snoc; [exact Hfresh | apply matches_stored_form].
    + apply normalized_stored_form; first [by apply check_fields_utc | reflexivity].
  - split; [apply contents_new | reflexivity].
Qed.

(** X11. A created product shows up in the listing: when the store holds
    fewer than 1000 products, all of them decodable, the listing taken after
    [create_product] is the listing of before followed by the dump of the new
    record. *)
Theorem create_product_then_get_all_products (product_data : ProductCreate.t)
    (username : value) (w : world) (records : list dict) :
  mapM normalized (products w) = Some records ->
  (length (products w) < 1000)%nat ->
  check_fields (clock (ticks w)) = true ->
  check_fields (clock (S (ticks w))) = true ->
  exists p w1 refs w2,
    create_product product_data username w = Ok p w1 /\
    get_all_products w1 = Ok refs w2 /\
    map (contents w2) refs = (records ++ [Product.model_dump p])%list.
Proof.
  intros Hall Hlen Hc Hu.
  eexists _, _. eexists. eexists. split; [apply create_product_run |]. cbv zeta.
  set (p := created product_data w).
  set (w1 := mk_world _ _ _ _ _ _).
  pose proof (get_all_products_run w1) as Hrun.
  assert (mapM normalized (take 1000 (products w1))
          = Some (records ++ [Product.model_dump p])%list) as Hall1.
  { subst w1. cbn [products]. rewrite take_ge by (rewrite length_app; cbn; lia).
    apply mapM_Some. apply Forall2_app; [by apply mapM_Some |].
    constructor; [| constructor].
    apply normalized_stored_form; first [by apply check_fields_utc | reflexivity]. }
  rewrite Hall1 in Hrun. split; [exact Hrun |]. apply contents_of_new.
Qed.

End Repository.

Lemma create_product_then_get_product_witness :
  exists p w1 r w2,
    @create_product Demo.ticking Demo.shirt (VStr "admin") Demo.shop = Ok p w1 /\
    get_product (Product.id p) w1 = Ok r w2 /\
    contents w2 r = Product.model_dump p.
Proof.
  destruct (@create_product_then_get_product Demo.ticking Demo.shirt (VStr "admin")
              Demo.shop)
    as (p & w1 & r & w2 & Hcreate & Hget & Hsame & _);
    [vm_compute; reflexivity | vm_compute; reflexivity | vm_compute; reflexivity |].
  exists p, w1, r, w2. split; [exact Hcreate |]. split; [exact Hget | exact Hsame].
Defined.

Lemma create_product_then_get_all_products_witness :
  exists p w1 refs w2,
    @create_product Demo.ticking Demo.shirt (VStr "admin") Demo.shop = Ok p w1 /\
    get_all_products w1 = Ok refs w2 /\
    length refs = 2%nat.
Proof.
  destruct (@create_product_then_get_all_products Demo.ticking Demo.shirt (VStr "admin")
              Demo.shop [default ∅ (normalized Demo.stored_shirt)])
    as (p & w1 & refs & w2 & Hcreate & Hlist & Hrecs);
    [vm_compute; reflexivity | vm_compute; lia | vm_compute; reflexivity
    | vm_compute; reflexivity |].
  exists p, w1, refs, w2. split; [exact Hcreate |]. split; [exact Hlist |].
  apply (f_equal length) in Hrecs. by rewrite length_map in Hrecs.
Defined.

Lemma list_find_unique (k s : string) (l : list dict) i doc :
  l !! i = Some doc -> matches k s doc = true ->
  (forall j other, l !! j = Some other -> matches k s other = true -> j = i) ->
  list_find (fun doc => matches k s doc) l = Some (i, doc) /\
  list_find (fun doc => matches k s doc) (delete i l) = None.
Proof.
  intros Hi Hdoc Huniq. split.
  - apply list_find_Some. split; [done |]. split; [by rewrite Hdoc |].
    intros j y Hj Hlt Hy. apply Is_true_true in Hy.
    specialize (Huniq j y Hj Hy). lia.
  - apply list_find_None, Forall_forall. intros other Hin Hother.
    apply list_elem_of_lookup in Hin as [j Hj]. rewrite list_lookup_delete in Hj.
    apply Is_true_true in Hother. specialize (Huniq _ _ Hj Hother).
    destruct (decide (j < i)%nat); lia.
Qed.

Section Mutations.
Context `{Platform}.

Lemma delete_product_found product_id username w i doc :
  list_find (fun doc => matches "id" product_id doc) (products w) = Some (i, doc) ->
  delete_product product_id username w
  = Ok "Product deleted successfully" (set_docs db_products (delete i (products w)) w).
Proof.
  intros Hf. unfold delete_product.
  pose proof (delete_one_run db_products "id" product_id w) as Hd.
  cbn [docs] in Hd. rewrite Hf in Hd. by rewrite (bind_Ok _ _ _ _ _ Hd).
Qed.

Lemma delete_product_missing product_id username w :
  list_find (fun doc => matches "id" product_id doc) (products w) = None ->
  delete_product product_id username w
  = Raise (HTTPException 404 "Product not found") w.
Proof.
  intros Hf. unfold delete_product.
  pose proof (delete_one_run db_products "id" product_id w) as Hd.
  cbn [docs] in Hd. rewrite Hf in Hd. by rewrite (bind_Ok _ _ _ _ _ Hd).
Qed.

(** X12. A deleted product is gone: after [delete_product] on an id that
    exactly one stored document has, the store holds one product less, every
    other document and the admins are untouched, and reading, updating or
    deleting that id again answers 404. *)
Theorem delete_product_then_absent (product_id : string) (username : value)
    (w : world) (i : nat) (doc : dict) :
  products w !! i = Some doc ->
  matches "id" product_id doc = true ->
  (forall j other, products w !! j = Some other ->
                   matches "id" product_id other = true -> j = i) ->
  exists w',
    delete_product product_id username w = Ok "Product deleted successfully" w' /\
    products w' = delete i (products w) /\
    S (length (products w')) = length (products w) /\
    admins w' = admins w /\
    get_product product_id w' = Raise (HTTPException 404 "Product not found") w' /\
    delete_product product_id username w'
      = Raise (HTTPException 404 "Product not found") w' /\
    (forall u, update_product product_id u username w'
               = Raise (HTTPException 404 "Product not found") w').
Proof.
  intros Hi Hdoc Huniq.
  destruct (list_find_unique "id" product_id _ _ _ Hi Hdoc Huniq) as [Hf Hgone].
  eexists. split; [exact (delete_product_found _ _ _ i doc Hf) |].
  cbn [set_docs products admins].
  split; [done |]. split.
  { rewrite length_delete by by eexists.
    apply lookup_lt_Some in Hi. lia. }
  split; [done |]. split; [| split].
  - by apply get_product_missing.
  - by apply delete_product_missing.
  - intros u. by apply update_product_missing.
Qed.

(** X13. [delete_product] removes one document only: when two stored
    documents have the id, the first is removed, the second is still found by
    [get_product], and a second [delete_product] succeeds as well. *)
Theorem delete_product_removes_first_match_only (product_id : string)
    (username : value) (w : world) (i j : nat) (doc other rec : dict) :
  list_find (fun doc => matches "id" product_id doc) (products w) = Some (i, doc) ->
  (i < j)%nat -> products w !! j = Some other ->
  matches "id" product_id other = true ->
  (forall m d, products w !! m = Some d -> (i < m < j)%nat ->
               matches "id" product_id d = false) ->
  normalized other = Some rec ->
  exists w1 r w2 w3,
    delete_product product_id username w = Ok "Product deleted successfully" w1 /\
    get_product product_id w1 = Ok r w2 /\ contents w2 r = rec /\
    delete_product product_id username w1 = Ok "Product deleted successfully" w3 /\
    S (S (length (products w3))) = length (products w).
Proof.
  intros Hf Hij Hj Hother Hbetween Hrec.
  pose proof Hf as Hfirst. apply list_find_Some in Hfirst as (Hi & Hdoc & Hleast).
  assert (list_find (fun doc => matches "id" product_id doc) (delete i (products w))
          = Some (Nat.pred j, other)) as Hnext.
  { apply list_find_Some. split; [| split].
    - rewrite list_lookup_delete_ge by lia. by replace (S (Nat.pred j)) with j by lia.
    - by rewrite Hother.
    - intros m d Hm Hlt Hd. apply Is_true_true in Hd.
      rewrite list_lookup_delete in Hm.
      destruct (decide (m < i)%nat) as [Hmi | Hmi].
      + apply (Hleast m d Hm Hmi). by rewrite Hd.
      + rewrite (Hbetween (S m) d Hm) in Hd by lia. done. }
  eexists _, _, _, _. split; [exact (delete_product_found _ _ _ i doc Hf) |].
  split; [exact (get_product_found product_id
                   (set_docs db_products (delete i (products w)) w) _ _ _ Hnext Hrec) |].
  split; [apply contents_new |].
  split; [exact (delete_product_found product_id username
                   (set_docs db_products (delete i (products w)) w) _ _ Hnext) |].
  cbn [set_docs products set_heap].
  rewrite !length_delete.
  - apply lookup_lt_Some in Hj. lia.
  - by eexists.
  - rewrite list_lookup_delete_ge by lia.
    replace (S (Nat.pred j)) with j by lia. by eexists.
Qed.

(** [update_product] in closed form, when the written document decodes. *)
Lemma update_product_run product_id u username w i doc obj :
  list_find (fun doc => matches "id" product_id doc) (products w) = Some (i, doc) ->
  normalized (update_fields u (utc_reading (ticks w)) ∪ doc) = Some obj ->
  update_product product_id u username w
  = Ok (S (S (length (heap w)))) (after_update w i doc u obj).
Proof.
  intros Hf Hobj. rewrite (update_product_found _ _ _ _ _ _ Hf). cbv zeta.
  set (now := utc_reading (ticks w)) in *.
  set (h := (heap w ++ [delete "_id" doc; update_fields u now])%list).
  assert (length h = S (S (length (heap w)))) as Hlen
    by (subst h; rewrite length_app; cbn; lia).
  assert (forall d, after_update w i doc u d
                    = set_heap (h ++ [d]) (after_update w i doc u ∅)) as Hshape.
  { intros d. subst h. unfold after_update, set_heap. cbn.
    by rewrite <- app_assoc. }
  rewrite (Hshape (delete "_id" _)), (Hshape obj), <- Hlen.
  by apply parse_from_mongo_new.
Qed.

(** X14. The record [update_product] returns is the one a later read gets:
    after a successful update, [get_product] on the same id returns a new
    object with the same contents, the refreshed [updated_at] included. *)
Theorem update_product_then_get_product (product_id : string) (u : ProductUpdate.t)
    (username : value) (w : world) (i : nat) (doc : dict) :
  list_find (fun doc => matches "id" product_id doc) (products w) = Some (i, doc) ->
  check_fields (clock (ticks w)) = true ->
  (forall s, doc !! "created_at" = Some (VStr s) -> is_Some (fromisoformat s)) ->
  exists r w1 r' w2,
    update_product product_id u username w = Ok r w1 /\
    get_product product_id w1 = Ok r' w2 /\
    r' <> r /\
    contents w2 r' = contents w1 r /\
    contents w2 r = contents w1 r /\
    contents w1 r !! "updated_at" = Some (VDatetime (utc_reading (ticks w))).
Proof.
  intros Hf Hclock Hcreated.
  destruct (normalized_update u (utc_reading (ticks w)) doc
              (check_fields_utc _ Hclock) eq_refl Hcreated) as (obj & Hobj & Hupd).
  pose proof (list_find_matches _ _ _ _ _ Hf) as Hdoc.
  eexists _, _, _, _. split; [by apply update_product_run |].
  split.
  { eapply get_product_found; [| exact Hobj].
    unfold after_update. cbn [products].
    apply (list_find_insert_same _ _ _ _ doc); [exact Hf |].
    by rewrite matches_union. }
  set (w1 := after_update w i doc u obj).
  assert (length (heap w1) = S (S (S (length (heap w))))) as Hlen
    by (subst w1; unfold after_update; cbn [heap]; rewrite length_app; cbn; lia).
  assert (contents w1 (S (S (length (heap w)))) = obj) as Hc1.
  { apply contents_Some. subst w1. unfold after_update. cbn [heap].
    rewrite lookup_app_r by lia.
    by replace (S (S (length (heap w))) - length (heap w))%nat with 2%nat by lia. }
  split; [lia |]. split; [by rewrite contents_new, Hc1 |].
  split; [| by rewrite Hc1].
  rewrite Hc1. apply contents_Some. rewrite heap_set_heap.
  rewrite lookup_app_l by lia. subst w1. unfold after_update. cbn [heap].
  rewrite lookup_app_r by lia.
  by replace (S (S (length (heap w))) - length (heap w))%nat with 2%nat by lia.
Qed.

(** X15. [update_product] writes before it reads back: on a product whose
    stored [created_at] is a string that is not ISO, the update answers with
    the ValueError of the decoder (a server fault), yet the supplied fields
    and the new [updated_at] have been written to the stored document. *)
Theorem update_product_writes_before_reload (product_id : string)
    (u : ProductUpdate.t) (username : value) (w : world) (i : nat) (doc : dict)
    (s : string) :
  list_find (fun doc => matches "id" product_id doc) (products w) = Some (i, doc) ->
  doc !! "created_at" = Some (VStr s) ->
  fromisoformat s = None ->
  exists w',
    update_product product_id u username w
    = Raise (ValueError "Invalid isoformat string") w' /\
    status (response_of_exn (ValueError "Invalid isoformat string")) = 500 /\
    products w' = <[i := update_fields u (utc_reading (ticks w)) ∪ doc]> (products w) /\
    products w' !! i ≫= (fun d => d !! "updated_at")
    = Some (VStr (isoformat (utc_reading (ticks w)))).
Proof.
  intros Hf Hc Hbad. rewrite (update_product_found _ _ _ _ _ _ Hf). cbv zeta.
  set (now := utc_reading (ticks w)).
  set (doc' := update_fields u now ∪ doc).
  set (w5 := after_update w i doc u (delete "_id" doc')).
  assert (heap w5 !! S (S (length (heap w))) = Some (delete "_id" doc')) as Hlook.
  { subst w5. unfold after_update. cbn [heap].
    rewrite (lookup_app_r (heap w)) by lia.
    by replace (S (S (length (heap w))) - length (heap w))%nat with 2%nat by lia. }
  rewrite (parse_from_mongo_run _ _ _ Hlook).
  assert (from_storage_field "created_at" (delete "_id" doc') = None) as ->.
  { unfold from_storage_field. rewrite (dict_get_Some _ _ (VStr s)).
    - by rewrite Hbad.
    - rewrite lookup_delete_ne by done. subst doc'.
      rewrite lookup_union_r by by apply update_fields_other. exact Hc. }
  exists w5. split; [done |]. split; [done |].
  subst w5. unfold after_update. cbn [products]. split; [done |].
  rewrite list_lookup_insert_eq
    by (apply list_find_Some in Hf as (Hi & _); by eapply lookup_lt_Some).
  change (doc' !! "updated_at" = Some (VStr (isoformat now))).
  subst doc'. apply lookup_union_Some_l. unfold update_fields. apply lookup_insert_eq.
Qed.

End Mutations.

Lemma delete_product_then_absent_witness :
  exists w',
    delete_product "p1" (VStr "admin") Demo.shop = Ok "Product deleted successfully" w' /\
    get_product "p1" w' = Raise (HTTPException 404 "Product not found") w'.
Proof.
  destruct (@delete_product_then_absent Demo.frozen "p1" (VStr "admin") Demo.shop 0%nat
              Demo.stored_shirt)
    as (w' & Hdel & _ & _ & _ & Hget & _).
  - vm_compute. reflexivity.
  - vm_compute. reflexivity.
  - intros [| j] other Hj _; [reflexivity | discriminate Hj].
  - exists w'. split; [exact Hdel | exact Hget].
Defined.

Lemma delete_product_removes_first_match_only_witness :
  exists w1 r w2,
    delete_product "p1" (VStr "admin") Scenario.doubled
      = Ok "Product deleted successfully" w1 /\
    get_product "p1" w1 = Ok r w2 /\
    contents w2 r !! "name" = Some (VStr "Copy").
Proof.
  destruct (delete_product_removes_first_match_only "p1" (VStr "admin") Scenario.doubled
              0%nat 1%nat Demo.stored_shirt (<["name" := VStr "Copy"]> Demo.stored_shirt)
              (default ∅ (normalized (<["name" := VStr "Copy"]> Demo.stored_shirt))))
    as (w1 & r & w2 & w3 & Hdel & Hget & Hc & _).
  - vm_compute. reflexivity.
  - lia.
  - vm_compute. reflexivity.
  - vm_compute. reflexivity.
  - intros m d _ Hm. lia.
  - vm_compute. reflexivity.
  - exists w1, r, w2. split; [exact Hdel |]. split; [exact Hget |].
    rewrite Hc. vm_compute. reflexivity.
Defined.

Lemma update_product_then_get_product_witness :
  exists r w1 r' w2,
    @update_product Demo.ticking "p1" Demo.new_price (VStr "admin") Demo.shop = Ok r w1 /\
    get_product "p1" w1 = Ok r' w2 /\
    contents w2 r' = contents w1 r.
Proof.
  destruct (@update_product_then_get_product Demo.ticking "p1" Demo.new_price
              (VStr "admin") Demo.shop 0%nat Demo.stored_shirt)
    as (r & w1 & r' & w2 & Hupd & Hget & _ & Hsame & _).
  - vm_compute. reflexivity.
  - vm_compute. reflexivity.
  - intros s Hs. vm_compute in Hs. injection Hs as <-. vm_compute. eexists. reflexivity.
  - exists r, w1, r', w2. split; [exact Hupd |]. split; [exact Hget | exact Hsame].
Defined.

Lemma update_product_writes_before_reload_witness :
  exists w',
    @update_product Demo.ticking "p1" Demo.new_price (VStr "admin") Demo.corrupted_shop
    = Raise (ValueError "Invalid isoformat string") w' /\
    products w' !! 0%nat ≫= (fun d => d !! "price") = Some (VFloat 24.75).
Proof.
  destruct (@update_product_writes_before_reload Demo.ticking "p1" Demo.new_price
              (VStr "admin") Demo.corrupted_shop 0%nat Demo.corrupted_shirt "yesterday")
    as (w' & Hupd & _ & Hprod & _).
  - vm_compute. reflexivity.
  - vm_compute. reflexivity.
  - vm_compute. reflexivity.
  - exists w'. split; [exact Hupd |]. rewrite Hprod. vm_compute. reflexivity.
Defined.

(** ** Startup configuration *)

Lemma str_split_cons sep s : exists piece rest, str_split sep s = piece :: rest.
Proof.
  induction s as [| c s (piece & rest & IH)]; [by eexists _, _ |].
  cbn [str_split]. destruct (Ascii.eqb c sep); [by eexists _, _ |].
  rewrite IH. by eexists _, _.
Qed.

Lemma str_join_cons sep x y l :
  str_join sep (x :: y :: l) = x +:+ sep +:+ str_join sep (y :: l).
Proof. reflexivity. Qed.

Lemma str_join_split sep s : str_join (String sep "") (str_split sep s) = s.
Proof.
  induction s as [| c s IH]; [done |]. cbn [str_split].
  destruct (str_split_cons sep s) as (piece & rest & Hs). rewrite Hs in IH |- *.
  destruct (Ascii.eqb_spec c sep) as [-> | Hne].
  - by rewrite str_join_cons, IH, app_empty, app_cons, app_empty.
  - destruct rest as [| x rest].
    + change (str_join (String sep "") [piece]) with piece in IH. by rewrite <- IH.
    + rewrite str_join_cons in IH |- *. by rewrite app_cons, IH.
Qed.

Lemma str_split_pieces sep s :
  Forall (fun piece => str_contains sep piece = false) (str_split sep s).
Proof.
  induction s as [| c s IH]; [by repeat constructor |]. cbn [str_split].
  destruct (Ascii.eqb_spec c sep) as [-> | Hne]; [by constructor |].
  destruct (str_split_cons sep s) as (piece & rest & Hs). rewrite Hs in *.
  apply Forall_cons in IH as [Hpiece Hrest]. constructor; [| done].
  cbn [str_contains]. rewrite Hpiece. by apply Ascii.eqb_neq in Hne as ->.
Qed.

Section CorsOrigins.
Context `{Platform}.

(** X16. The allowed origins are the pieces of CORS_ORIGINS between its
    commas: there is always at least one, none contains a comma, and joined by
    commas they give the configured value back.  Nothing is trimmed or
    dropped: an unset variable allows [*], but a variable set to the empty
    string allows the one origin that is the empty string. *)
Theorem cors_origins_split :
  cors_origins <> [] /\
  str_join "," cors_origins = default "*" (environ !! "CORS_ORIGINS") /\
  Forall (fun origin => str_contains "," origin = false) cors_origins /\
  (environ !! "CORS_ORIGINS" = None -> cors_origins = ["*"]) /\
  (environ !! "CORS_ORIGINS" = Some "" -> cors_origins = [""]).
Proof.
  unfold cors_origins. split; [| split; [| split; [| split]]].
  - by destruct (str_split_cons "," (default "*" (environ !! "CORS_ORIGINS")))
      as (piece & rest & ->).
  - apply str_join_split.
  - apply str_split_pieces.
  - by intros ->.
  - by intros ->.
Qed.

End CorsOrigins.

Lemma cors_origins_split_witness :
  @cors_origins Scenario.two_origins = ["https://shop.example"; "https://admin.example"] /\
  @cors_origins Demo.frozen = ["*"].
Proof.
  split; [vm_compute; reflexivity |].
  apply (proj1 (proj2 (proj2 (proj2 (@cors_origins_split Demo.frozen))))).
  vm_compute. reflexivity.
Defined.
